(** * CocoFile: alignment and diff-classification of two spreadsheet tables

    Shallow embedding of the two scripts of the repository,
    [coco21.py] (blocks BLOC 1 / BLOC 2 / BLOC 3) and [coco9.py]
    (blocks BLOC A / BLOC B / BLOC C), followed by the properties of the
    key normalizer, the status classifier, the group aligner and the
    block builders.

    Conventions of the embedding.
    - A cell is a [value]: Python [None], the float [nan], a string, an
      integer or a timestamp.  [pd.isna] holds of the first two.
    - A pandas row (a [Series]) and a Python [dict] are both insertion
      ordered maps from names to cells: association lists with unique keys.
    - Code that can raise returns a [result]; [try_except] is the bare
      [try: ... except: pass] of the scripts.
    - [pd.to_datetime], [pd.Timestamp.now()] and the rendering of a
      timestamp by [str] belong to pandas, not to the repository: they are
      the fields of an environment [Pandas] every function that needs them
      takes as an argument.
    - Strings are sequences of ASCII characters; [lower] and [strip] act on
      the ASCII letters and the ASCII white space. *)

From Stdlib Require Import String Ascii List ZArith Bool Arith Lia.
From Stdlib Require Import DecimalString OrderedTypeEx Sorted Permutation.
Import ListNotations.
Open Scope string_scope.

(* ------------------------------------------------------------------ *)
(** ** Exceptions *)

Inductive exn : Type :=
| KeyError (k : string)
| ValueError (msg : string)
| TypeError (msg : string)
| AttributeError.

Inductive result (A : Type) : Type :=
| Ok (a : A)
| Raise (e : exn).

Arguments Ok {A} a.
Arguments Raise {A} e.

Definition bind {A B : Type} (m : result A) (f : A -> result B) : result B :=
  match m with
  | Ok a => f a
  | Raise e => Raise e
  end.

Notation "x <- m ;; k" := (bind m (fun x => k))
  (at level 61, m at next level, right associativity).
Notation "' p <- m ;; k" := (bind m (fun x => match x with p => k end))
  (at level 61, p pattern, m at next level, right associativity).

Fixpoint mapM {A B : Type} (f : A -> result B) (l : list A) : result (list B) :=
  match l with
  | [] => Ok []
  | x :: l' => y <- f x ;; ys <- mapM f l' ;; Ok (y :: ys)
  end.

(** [try: body except: pass] followed by the code after it: when the body
    raises, control falls through with the fall-back value. *)
Definition try_except {A : Type} (body : result A) (fallback : A) : A :=
  match body with
  | Ok a => a
  | Raise _ => fallback
  end.

Definition is_ok {A : Type} (m : result A) : bool :=
  match m with Ok _ => true | Raise _ => false end.

(* ------------------------------------------------------------------ *)
(** ** Cells and Python strings *)

Inductive value : Type :=
| VNone                 (* Python None *)
| VNaN                  (* numpy.nan *)
| VStr (s : string)
| VInt (n : Z)
| VTime (t : Z).        (* a timestamp, as an instant *)

(** What [pd.to_datetime] followed by the comparison with "now" can do. *)
Inductive datetime : Type :=
| DtErr                 (* an exception inside the [try] block *)
| DtNaT                 (* not-a-time: every comparison is False *)
| DtStamp (t : Z).

Record Pandas : Type := {
  now : Z;                              (* pd.Timestamp.now() *)
  parse_datetime : value -> datetime;   (* pd.to_datetime on a non-null cell *)
  str_time : Z -> string                (* str() of a timestamp *)
}.

Definition isna (v : value) : bool :=
  match v with
  | VNone | VNaN => true
  | _ => false
  end.

Definition notna (v : value) : bool := negb (isna v).

Definition isinstance_str (v : value) : bool :=
  match v with VStr _ => true | _ => false end.

Definition str_of_Z (n : Z) : string := NilEmpty.string_of_int (Z.to_int n).
Definition str_of_nat (n : nat) : string := NilEmpty.string_of_uint (Nat.to_uint n).

Definition py_str (P : Pandas) (v : value) : string :=
  match v with
  | VNone => "None"
  | VNaN => "nan"
  | VStr s => s
  | VInt n => str_of_Z n
  | VTime t => str_time P t
  end.

Definition lower_ascii (c : ascii) : ascii :=
  let n := nat_of_ascii c in
  if ((65 <=? n) && (n <=? 90))%nat then ascii_of_nat (n + 32) else c.

Fixpoint lower (s : string) : string :=
  match s with
  | EmptyString => EmptyString
  | String c s' => String (lower_ascii c) (lower s')
  end.

(** ASCII characters [str.isspace] accepts. *)
Definition is_space (c : ascii) : bool :=
  let n := nat_of_ascii c in
  (((9 <=? n) && (n <=? 13)) || ((28 <=? n) && (n <=? 32)))%nat.

Fixpoint lstrip (s : string) : string :=
  match s with
  | EmptyString => EmptyString
  | String c s' => if is_space c then lstrip s' else s
  end.

Fixpoint rstrip (s : string) : string :=
  match s with
  | EmptyString => EmptyString
  | String c s' =>
      match rstrip s' with
      | EmptyString => if is_space c then EmptyString else String c EmptyString
      | t => String c t
      end
  end.

Definition strip (s : string) : string := rstrip (lstrip s).

Fixpoint starts_with (p s : string) : bool :=
  match p, s with
  | EmptyString, _ => true
  | String a p', String b s' => Ascii.eqb a b && starts_with p' s'
  | String _ _, EmptyString => false
  end.

(** [p in s] on strings. *)
Fixpoint py_in (p s : string) : bool :=
  starts_with p s ||
  match s with
  | EmptyString => false
  | String _ s' => py_in p s'
  end.

(** [s.split(sep, 1)] for a one-character separator that occurs in [s]:
    the text before the first occurrence and the text after it. *)
Fixpoint split1 (sep : ascii) (s : string) : string * string :=
  match s with
  | EmptyString => (EmptyString, EmptyString)
  | String c s' =>
      if Ascii.eqb c sep then (EmptyString, s')
      else let (l, r) := split1 sep s' in (String c l, r)
  end.

Fixpoint join (sep : string) (l : list string) : string :=
  match l with
  | [] => EmptyString
  | [x] => x
  | x :: l' => x ++ sep ++ join sep l'
  end.

(* ------------------------------------------------------------------ *)
(** ** Rows, dicts and data frames *)

Definition dict : Type := list (string * value).
Definition row : Type := dict.

Fixpoint dict_lookup (k : string) (d : dict) : option value :=
  match d with
  | [] => None
  | (k', v) :: d' => if String.eqb k' k then Some v else dict_lookup k d'
  end.

(** [d.get(k, dflt)], also [row.get(k, dflt)]. *)
Definition dict_get (k : string) (dflt : value) (d : dict) : value :=
  match dict_lookup k d with
  | Some v => v
  | None => dflt
  end.

(** [d[k]], also [row[k]]. *)
Definition dict_getitem (k : string) (d : dict) : result value :=
  match dict_lookup k d with
  | Some v => Ok v
  | None => Raise (KeyError k)
  end.

(** [k in d], also [k in row]. *)
Definition dict_mem (k : string) (d : dict) : bool :=
  match dict_lookup k d with
  | Some _ => true
  | None => false
  end.

(** [d[k] = v]: an existing key keeps its place, a new one goes last. *)
Fixpoint dict_set (k : string) (v : value) (d : dict) : dict :=
  match d with
  | [] => [(k, v)]
  | (k', v') :: d' =>
      if String.eqb k' k then (k', v) :: d' else (k', v') :: dict_set k v d'
  end.

(** [{**d1, **d2}]. *)
Definition dict_merge (d1 d2 : dict) : dict :=
  fold_left (fun acc kv => dict_set (fst kv) (snd kv) acc) d2 d1.

Record DataFrame : Type := {
  columns : list string;
  rows : list row
}.

Definition mem_str (c : string) (l : list string) : bool :=
  existsb (String.eqb c) l.

(** [df[c]] *)
Definition df_getitem (c : string) (df : DataFrame) : result (list value) :=
  if mem_str c (columns df)
  then Ok (map (dict_get c VNaN) (rows df))
  else Raise (KeyError c).

Fixpoint set_column (c : string) (vals : list value) (rs : list row)
  : result (list row) :=
  match vals, rs with
  | [], [] => Ok []
  | v :: vals', r :: rs' =>
      rest <- set_column c vals' rs' ;; Ok (dict_set c v r :: rest)
  | _, _ => Raise (ValueError "Length of values does not match length of index")
  end.

(** [df[c] = vals] *)
Definition df_setitem (c : string) (vals : list value) (df : DataFrame)
  : result DataFrame :=
  rs <- set_column c vals (rows df) ;;
  Ok {| columns := if mem_str c (columns df) then columns df
                   else columns df ++ [c];
        rows := rs |}.

(** [a, b = zip( *pairs )]: with no pair at all [zip()] yields nothing and
    the unpacking into two targets raises. *)
Definition unpack2 {A B : Type} (pairs : list (A * B)) : result (list A * list B) :=
  match pairs with
  | [] => Raise (ValueError "not enough values to unpack (expected 2, got 0)")
  | _ => Ok (List.split pairs)
  end.

(* ------------------------------------------------------------------ *)
(** ** Key normalizer ([split_noel], the same in both scripts) *)

Definition split_noel (P : Pandas) (val : value) : value * value :=
  if isna val then (VNone, VNone)
  else
    let s := strip (py_str P val) in
    if py_in "_" s
    then let (left, right) := split1 "_"%char s in (VStr left, VStr right)
    else (VStr s, VNone).

(** The two columns "NoelFirst" and "NoelSecond" are assigned from the
    unzipped results of [split_noel] applied to the column "Noel". *)
Definition add_noel_columns (P : Pandas) (df : DataFrame) : result DataFrame :=
  noel <- df_getitem "Noel" df ;;
  '(firsts, seconds) <- unpack2 (map (split_noel P) noel) ;;
  df1 <- df_setitem "NoelFirst" firsts df ;;
  df_setitem "NoelSecond" seconds df1.

(* ------------------------------------------------------------------ *)
(** ** Status classifier *)

(** [pd.to_datetime(v)] then [dt < pd.Timestamp.now()], as one fallible
    step: [None] comes back as [None] and cannot be compared, [nan] becomes
    NaT, anything else is pandas' business. *)
Definition to_datetime (P : Pandas) (v : value) : datetime :=
  match v with
  | VNone => DtErr
  | VNaN => DtNaT
  | _ => parse_datetime P v
  end.

Definition before_now (P : Pandas) (v : value) : result bool :=
  match to_datetime P v with
  | DtErr => Raise (TypeError "cannot parse or compare")
  | DtNaT => Ok false
  | DtStamp t => Ok (t <? now P)%Z
  end.

Module Coco21.

(** [get_activity_status(row)] *)
Definition get_activity_status (P : Pandas) (r : row) : value :=
  let dayt := lower (py_str P (dict_get "Daytona" (VStr EmptyString) r)) in
  let elast := dict_get "Elastic Daytona" (VStr EmptyString) r in
  if py_in "close" dayt then VStr "Inactive"
  else if notna elast && try_except (before_now P elast) false
       then VStr "Inactive"
       else VStr "Active".

End Coco21.

Module Coco9.

(** [is_inactive(daytona_val, elastic_val)] *)
Definition is_inactive (P : Pandas) (daytona_val elastic_val : value) : bool :=
  if isinstance_str daytona_val && py_in "closed" (lower (py_str P daytona_val))
  then true
  else try_except (before_now P elastic_val) false.

(** The lambda of [main] that fills the "Status" column. *)
Definition status_of_row (P : Pandas) (r : row) : value :=
  if is_inactive P (dict_get "Daytona" (VStr EmptyString) r)
                   (dict_get "Elastic Daytona" (VStr EmptyString) r)
  then VStr "Inactive" else VStr "Active".

End Coco9.

(* ------------------------------------------------------------------ *)
(** ** Group aligner (the loop over the keys is the same in both scripts) *)

(** The strings of a column whose nulls are dropped.  After
    [add_noel_columns] the column "NoelFirst" holds only strings and
    [None]. *)
Fixpoint key_strings (l : list value) : list string :=
  match l with
  | [] => []
  | VStr s :: l' => s :: key_strings l'
  | _ :: l' => key_strings l'
  end.

Fixpoint insert_key (k : string) (l : list string) : list string :=
  match l with
  | [] => [k]
  | x :: l' =>
      match String_as_OT.cmp k x with
      | Lt => k :: l
      | Eq => l
      | Gt => x :: insert_key k l'
      end
  end.

(** [sorted(set(l))] on strings. *)
Definition sorted_set (l : list string) : list string :=
  fold_right insert_key [] l.

Definition column (c : string) (df : DataFrame) : list value :=
  map (dict_get c VNaN) (rows df).

(** [sorted(set(t1["NoelFirst"].dropna()) | set(t2["NoelFirst"].dropna()))] *)
Definition all_noels (t1 t2 : DataFrame) : list string :=
  sorted_set (key_strings (column "NoelFirst" t1)
              ++ key_strings (column "NoelFirst" t2))%list.

Definition noel_first_is (k : string) (r : row) : bool :=
  match dict_get "NoelFirst" VNaN r with
  | VStr s => String.eqb s k
  | _ => false
  end.

(** [df[df["NoelFirst"] == k].reset_index(drop=True)] *)
Definition subframe (k : string) (df : DataFrame) : list row :=
  filter (noel_first_is k) (rows df).

(** [sub.loc[i] if i < len(sub) else None] *)
Definition row_at (sub : list row) (i : nat) : option row :=
  if (i <? length sub)%nat then nth_error sub i else None.

Definition max_count (t1 t2 : DataFrame) (k : string) : nat :=
  Nat.max (length (subframe k t1)) (length (subframe k t2)).

Definition pair_at (t1 t2 : DataFrame) (k : string) (i : nat)
  : option row * option row :=
  (row_at (subframe k t1) i, row_at (subframe k t2) i).

(** The AlignedPairs of one key group, in index order. *)
Definition group_pairs (t1 t2 : DataFrame) (k : string)
  : list (option row * option row) :=
  map (pair_at t1 t2 k) (seq 0 (max_count t1 t2 k)).

(** The AlignedPairs of the whole run, in output order. *)
Definition aligned_pairs (t1 t2 : DataFrame) : list (option row * option row) :=
  flat_map (group_pairs t1 t2) (all_noels t1 t2).

(** [df.groupby(key)[val].apply(list).to_dict()]: for each non-null key,
    in sorted order, the cells of column [val] of the rows with that key,
    in row order. *)
Definition groupby_list (df : DataFrame) : list (string * list value) :=
  map (fun k => (k, map (dict_get "NoelSecond" VNaN) (subframe k df)))
      (sorted_set (key_strings (column "NoelFirst" df))).

Fixpoint map_get {A : Type} (k : string) (dflt : A) (m : list (string * A)) : A :=
  match m with
  | [] => dflt
  | (k', a) :: m' => if String.eqb k' k then a else map_get k dflt m'
  end.

(** Sameness of two cells, for counting distinct values. *)
Definition value_eqb (v x : value) : bool :=
  match v, x with
  | VNone, VNone | VNaN, VNaN => true
  | VStr a, VStr b => String.eqb a b
  | VInt a, VInt b => Z.eqb a b
  | VTime a, VTime b => Z.eqb a b
  | _, _ => false
  end.

Definition mem_value (v : value) (l : list value) : bool :=
  existsb (value_eqb v) l.

Fixpoint distinct_values (l : list value) : list value :=
  match l with
  | [] => []
  | v :: l' => if mem_value v l' then distinct_values l' else v :: distinct_values l'
  end.

(** The secondary keys of the Source-B records of a group, one per record. *)
Definition secondary_keys (t2 : DataFrame) (k : string) : list value :=
  map (dict_get "NoelSecond" VNaN) (subframe k t2).

(** What the specification calls the ambiguity of a group: the number of
    distinct secondary keys among its Source-B records. *)
Definition distinct_secondary_count (t2 : DataFrame) (k : string) : nat :=
  length (distinct_values (secondary_keys t2 k)).

(* ------------------------------------------------------------------ *)
(** ** Field outcomes, in the words of the specification *)

Inductive FieldOutcome : Type :=
| BothMissing | MissingInA | MissingInB | Match | Mismatch.

Definition field_outcome (P : Pandas) (v1 v2 : value) : FieldOutcome :=
  match isna v1, isna v2 with
  | true, true => BothMissing
  | true, false => MissingInA
  | false, true => MissingInB
  | false, false =>
      if String.eqb (strip (py_str P v1)) (strip (py_str P v2))
      then Match else Mismatch
  end.

Definition offending (o : FieldOutcome) : bool :=
  match o with
  | Mismatch | MissingInA | MissingInB => true
  | Match | BothMissing => false
  end.

(** The cell of field [c] on one side of a pair: absent side, absent
    column and null cell all read as [nan]. *)
Definition side_cell (c : string) (r : option row) : value :=
  match r with
  | Some r => dict_get c VNaN r
  | None => VNaN
  end.

(* ------------------------------------------------------------------ *)
(** ** coco21.py: BLOC 1, BLOC 2, BLOC 3 and the main loop *)

Module Blocks21.

(** [x.get(c, np.nan) if x is not None else np.nan] *)
Definition get_or_nan (c : string) (r : option row) : value :=
  match r with
  | Some r => dict_get c VNaN r
  | None => VNaN
  end.

(** [x["Noel"] if x is not None else np.nan] *)
Definition item_or_nan (c : string) (r : option row) : result value :=
  match r with
  | Some r => dict_getitem c r
  | None => Ok VNaN
  end.

Definition presence_comment (row1 row2 : option row) : string :=
  match row1, row2 with
  | None, Some _ => "missing in Table1"
  | Some _, None => "missing in Table2"
  | _, _ => "one-one"
  end.

Definition build_block1 (P : Pandas) (row1 row2 : option row)
    (is_many_to_many : bool) : result dict :=
  let b1 := [("BLOC 1", VNone)] in
  noel_t1 <- item_or_nan "Noel" row1 ;;
  let dayt_t1 := get_or_nan "Daytona" row1 in
  let elast_t1 := get_or_nan "Elastic Daytona" row1 in
  let stat_t1 := get_or_nan "Status" row1 in
  let b1 := dict_set "Table1_Noel" noel_t1 b1 in
  let b1 := dict_set "Table1_Daytona" dayt_t1 b1 in
  let b1 := dict_set "Table1_Elastic Daytona" elast_t1 b1 in
  let b1 := dict_set "Table1_Status" stat_t1 b1 in
  noel_t2 <- item_or_nan "Noel" row2 ;;
  let dayt_t2 := get_or_nan "Daytona" row2 in
  let elast_t2 := get_or_nan "Elastic Daytona" row2 in
  let stat_t2 := get_or_nan "Status" row2 in
  let b1 := dict_set "Table2_Noel" noel_t2 b1 in
  let b1 := dict_set "Table2_Daytona" dayt_t2 b1 in
  let b1 := dict_set "Table2_Elastic Daytona" elast_t2 b1 in
  let b1 := dict_set "Table2_Status" stat_t2 b1 in
  let c1_parts :=
    app (if notna stat_t1 then ["Table1 " ++ py_str P stat_t1] else [])
        (if notna stat_t2 then ["Table2 " ++ py_str P stat_t2] else []) in
  let b1 := dict_set "Comment1_B1" (VStr (join ", " c1_parts)) b1 in
  let c2 := if is_many_to_many then "many-to-many"
            else presence_comment row1 row2 in
  Ok (dict_set "Comment2_B1" (VStr c2) b1).

Definition shared_cols : list string :=
  [ "Noel"; "Daytona"; "No Thing"; "Pizza"; "Pizza No Thing";
    "Thing Noel"; "Pizza Coco Daytona"; "Sun Daytona"; "Elastic Daytona";
    "Hero Rome"; "Coco Copo Opa Noel"; "Coco Coco Opa Elastic Noel" ].

(** [for c in cols: b[prefix + c] = x.get(c, nan) if x is not None else nan] *)
Definition fill_columns (prefix : string) (r : option row)
    (cols : list string) (b : dict) : dict :=
  fold_left (fun b c => dict_set (prefix ++ c) (get_or_nan c r) b) cols b.

Definition safe_str (P : Pandas) (x : value) : string :=
  if isna x then EmptyString else strip (py_str P x).

(** One turn of the loop that checks each shared column; the state is
    [(mismatch_flag, diff_cols)]. *)
Definition scan_step (P : Pandas) (b2 : dict) (c : string)
    (st : bool * list string) : result (bool * list string) :=
  if String.eqb c "Noel" then Ok st
  else
    v1 <- dict_getitem ("Table1_" ++ c) b2 ;;
    v2 <- dict_getitem ("Table2_" ++ c) b2 ;;
    if isna v1 && notna v2
    then Ok (true, app (snd st) [c ++ " [T1 missing, T2 present]"])
    else if notna v1 && isna v2
    then Ok (true, app (snd st) [c ++ " [T1 present, T2 missing]"])
    else
      let sv1 := safe_str P v1 in
      let sv2 := safe_str P v2 in
      if negb (String.eqb sv1 sv2)
      then Ok (true, app (snd st) [c ++ " [T1=" ++ sv1 ++ ", T2=" ++ sv2 ++ "]"])
      else Ok st.

Fixpoint scan_columns (P : Pandas) (b2 : dict) (cols : list string)
    (st : bool * list string) : result (bool * list string) :=
  match cols with
  | [] => Ok st
  | c :: cols' => st' <- scan_step P b2 c st ;; scan_columns P b2 cols' st'
  end.

Definition build_block2 (P : Pandas) (row1 row2 : option row) : result dict :=
  let b2 := [("BLOC 2", VNone)] in
  let b2 := fill_columns "Table1_" row1 shared_cols b2 in
  let b2 := fill_columns "Table2_" row2 shared_cols b2 in
  noel_t1 <- dict_getitem "Table1_Noel" b2 ;;
  noel_t2 <- dict_getitem "Table2_Noel" b2 ;;
  let b2 :=
    dict_set "Comment1_B2"
      (VStr (if isna noel_t1 && notna noel_t2 then "Missing in Table1"
             else if notna noel_t1 && isna noel_t2 then "Missing in Table2"
             else if isna noel_t1 && isna noel_t2 then "No Noel in both?"
             else "Both present")) b2 in
  if isna noel_t1 || isna noel_t2
  then
    let b2 := dict_set "Comment2_B2" (VStr "N/A") b2 in
    Ok (dict_set "Comment3_B2" (VStr "N/A") b2)
  else
    '(mismatch_flag, diff_cols) <- scan_columns P b2 shared_cols (false, []) ;;
    if mismatch_flag
    then
      let b2 := dict_set "Comment2_B2" (VStr "shared dimensions GAP") b2 in
      match diff_cols with
      | _ :: _ =>
          Ok (dict_set "Comment3_B2"
                (VStr ("Diff columns: " ++ join ", " diff_cols)) b2)
      | [] => Ok (dict_set "Comment3_B2" (VStr "Diff columns: ???") b2)
      end
    else
      let b2 := dict_set "Comment2_B2" (VStr "shared dimensions MATCH") b2 in
      Ok (dict_set "Comment3_B2" (VStr "No differences") b2).

Definition block3_cols : list string :=
  [ "Fresca Ana"; "Fusion Core"; "Commercial Coco"; "Super Resort";
    "Italy Coco Coco"; "Virtual America"; "Fun Coco Elastic";
    "Fun Coco Fun Noel"; "Right" ].

Definition build_block3 (row2 : option row) (cols : list string) : dict :=
  let b3 := [("BLOC 3", VNone)] in
  match row2 with
  | None => fold_left (fun b c => dict_set ("Table2_" ++ c) VNaN b) cols b3
  | Some r =>
      fold_left (fun b c => dict_set ("Table2_" ++ c) (dict_get c VNaN r) b)
                cols b3
  end.

End Blocks21.

Module Main21.
Import Blocks21.

Record OutputRow : Type := {
  block1 : dict;
  block2 : dict;
  block3 : dict;
  combined : dict
}.

(** [df["Status"] = df.apply(get_activity_status, axis=1)] *)
Definition add_status (P : Pandas) (df : DataFrame) : result DataFrame :=
  df_setitem "Status" (map (Coco21.get_activity_status P) (rows df)) df.

Definition enrich (P : Pandas) (df : DataFrame) : result DataFrame :=
  df1 <- add_noel_columns P df ;; add_status P df1.

(** [len(second_map.get(noel_first, [])) > 1] *)
Definition many_to_many (t2 : DataFrame) (k : string) : bool :=
  (1 <? length (map_get k [] (groupby_list t2)))%nat.

(** The body of the inner loop. *)
Definition output_row (P : Pandas) (is_many_to_many : bool)
    (p : option row * option row) : result OutputRow :=
  let (row1, row2) := p in
  b1 <- build_block1 P row1 row2 is_many_to_many ;;
  b2 <- build_block2 P row1 row2 ;;
  let b3 := build_block3 row2 block3_cols in
  Ok {| block1 := b1; block2 := b2; block3 := b3;
        combined := dict_merge (dict_merge b1 b2) b3 |}.

(** The rows one key contributes. *)
Definition group_rows (P : Pandas) (t1 t2 : DataFrame) (k : string)
  : result (list OutputRow) :=
  let is_many_to_many := many_to_many t2 k in
  mapM (fun i => output_row P is_many_to_many (pair_at t1 t2 k i))
       (seq 0 (max_count t1 t2 k)).

(** [main], from the two frames read from the workbook (their column names
    already stripped) to the rows handed to the writer. *)
Definition main (P : Pandas) (df_t1 df_t2 : DataFrame) : result (list OutputRow) :=
  t1 <- add_noel_columns P df_t1 ;;
  t2 <- add_noel_columns P df_t2 ;;
  t1 <- add_status P t1 ;;
  t2 <- add_status P t2 ;;
  per_key <- mapM (group_rows P t1 t2) (all_noels t1 t2) ;;
  Ok (concat per_key).

End Main21.

(* ------------------------------------------------------------------ *)
(** ** coco9.py: BLOC A, BLOC B, BLOC C and the main loop *)

Module Blocks9.

Definition core_columns : list string :=
  [ "Noel"; "Daytona"; "No Thing"; "Pizza"; "Pizza No Thing";
    "Pizza Coco Daytona"; "Sun Daytona"; "Elastic Daytona"; "Hero Rome";
    "Coco Coco Opa Noel"; "Coco Coco Opa Elastic Noel"; "Land" ].

Definition newline : string := String (ascii_of_nat 10) EmptyString.

(** [x[c] if (x is not None and c in x) else np.nan] *)
Definition cell_or_nan (c : string) (r : option row) : value :=
  match r with
  | Some r => if dict_mem c r then dict_get c VNaN r else VNaN
  | None => VNaN
  end.

Definition fill_cells (prefix : string) (r : option row)
    (cols : list string) (b : dict) : dict :=
  fold_left (fun b c => dict_set (prefix ++ c) (cell_or_nan c r) b) cols b.

(** One half of [check_missing_core] / [check_missing_noncore]. *)
Definition missing_in (prefix : string) (block : dict) (cols : list string)
  : list string :=
  filter (fun c => isna (dict_get (prefix ++ c) VNaN block)) cols.

Definition check_missing_core (blockA_dict : dict) (t1_core t2_core : list string)
  : list string * list string :=
  (missing_in "Table1_" blockA_dict t1_core,
   missing_in "Table2_" blockA_dict t2_core).

Definition check_missing_noncore (blockC_dict : dict) (nc_t1 nc_t2 : list string)
  : list string * list string :=
  (missing_in "Table1_" blockC_dict nc_t1,
   missing_in "Table2_" blockC_dict nc_t2).

Definition has_mismatch (P : Pandas) (block_dict : dict)
    (t1_list t2_list : list string) (prefix_t1 prefix_t2 : string)
  : list string :=
  filter (fun c =>
            mem_str c t2_list &&
            (let val1 := dict_get (prefix_t1 ++ c) VNaN block_dict in
             let val2 := dict_get (prefix_t2 ++ c) VNaN block_dict in
             notna val1 && notna val2 &&
             negb (String.eqb (strip (py_str P val1)) (strip (py_str P val2)))))
         t1_list.

Definition nonempty {A : Type} (l : list A) : bool :=
  match l with [] => false | _ => true end.

(** [status == "..."] against a string literal. *)
Definition eq_str (v : value) (s : string) : bool :=
  match v with
  | VStr a => String.eqb a s
  | _ => false
  end.

Definition make_active_comment (status_t1 status_t2 : value) : string :=
  if eq_str status_t1 "Active" && eq_str status_t2 "Active"
  then "Both Active"
  else if eq_str status_t1 "Active" && eq_str status_t2 "Inactive"
  then "T1 Active, T2 Inactive"
  else if eq_str status_t1 "Inactive" && eq_str status_t2 "Active"
  then "T1 Inactive, T2 Active"
  else if eq_str status_t1 "Inactive" && eq_str status_t2 "Inactive"
  then "Both Inactive"
  else "One or both missing".

Definition make_one_to_one_comment (P : Pandas)
    (noel_t1 noel_t2 status_t1 status_t2 : value) (rownum : nat) : string :=
  if notna noel_t1 && notna noel_t2 then
    "Row " ++ str_of_nat rownum ++ ": T1 Noel=" ++ py_str P noel_t1
      ++ ", T2 Noel=" ++ py_str P noel_t2 ++ ", "
      ++ make_active_comment status_t1 status_t2
  else if notna noel_t1 && isna noel_t2 then
    "Row " ++ str_of_nat rownum ++ ": T1 Noel=" ++ py_str P noel_t1
      ++ ", T2 missing"
  else if isna noel_t1 && notna noel_t2 then
    "Row " ++ str_of_nat rownum ++ ": T2 Noel=" ++ py_str P noel_t2
      ++ ", T1 missing"
  else "Row " ++ str_of_nat rownum ++ ": both missing".

(** The three comments of BLOC A and of BLOC C, from the lists of missing
    and of mismatched columns. *)
Definition set_comments (k1 k2 k3 missing_text no_missing_text : string)
    (missing : list string * list string) (mismatch : list string)
    (block : dict) : dict :=
  let (missing_t1_cols, missing_t2_cols) := missing in
  let block :=
    dict_set k1
      (VStr (if nonempty missing_t1_cols || nonempty missing_t2_cols
             then missing_text
             else if nonempty mismatch then "GAP" else "MATCH")) block in
  let block :=
    dict_set k2
      (VStr (if nonempty missing_t1_cols || nonempty missing_t2_cols
             then "Table1 missing: " ++ join ", " missing_t1_cols ++ newline
                  ++ "Table2 missing: " ++ join ", " missing_t2_cols
             else no_missing_text)) block in
  dict_set k3
    (VStr (if nonempty mismatch
           then "Mismatched columns: " ++ join ", " mismatch
           else "No mismatch")) block.

Definition build_blockA (P : Pandas) (core_t1 core_t2 : list string)
    (row_t1 row_t2 : option row) : dict :=
  let blockA := [("BLOC A", VNone)] in
  let blockA := fill_cells "Table1_" row_t1 core_t1 blockA in
  let blockA := fill_cells "Table2_" row_t2 core_t2 blockA in
  let missing := check_missing_core blockA core_t1 core_t2 in
  let mismatch_core := has_mismatch P blockA core_t1 core_t2 "Table1_" "Table2_" in
  set_comments "CommentA_1" "CommentA_2" "CommentA_3"
    "Missing Core Data" "No missing in core" missing mismatch_core blockA.

Definition item_or (c : string) (dflt : value) (r : option row) : result value :=
  match r with
  | Some r => dict_getitem c r
  | None => Ok dflt
  end.

Definition build_blockB (P : Pandas) (row_t1 row_t2 : option row) (i : nat)
  : result dict :=
  let blockB := [("BLOC B", VNone)] in
  noel_t1 <- item_or "Noel" VNaN row_t1 ;;
  land_t1 <- item_or "Land" VNaN row_t1 ;;
  status_t1 <- item_or "Status" (VStr "Missing") row_t1 ;;
  noel_t2 <- item_or "Noel" VNaN row_t2 ;;
  status_t2 <- item_or "Status" (VStr "Missing") row_t2 ;;
  let blockB := dict_set "Noel(Table1)" noel_t1 blockB in
  let blockB := dict_set "Land(Table1)" land_t1 blockB in
  let blockB := dict_set "Noel(Table2)" noel_t2 blockB in
  let blockB :=
    dict_set "1-1 Comment"
      (VStr (make_one_to_one_comment P noel_t1 noel_t2 status_t1 status_t2 (i + 1)))
      blockB in
  let blockB := dict_set "Daytona(Table1)" (cell_or_nan "Daytona" row_t1) blockB in
  let blockB := dict_set "Daytona(Table2)" (cell_or_nan "Daytona" row_t2) blockB in
  let blockB := dict_set "Elastic (Table1)" (cell_or_nan "Elastic Daytona" row_t1) blockB in
  let blockB := dict_set "Elastic (Table2)" (cell_or_nan "Elastic Daytona" row_t2) blockB in
  Ok (dict_set "ActiveComment" (VStr (make_active_comment status_t1 status_t2)) blockB).

Definition build_blockC (P : Pandas) (noncore_t1 noncore_t2 : list string)
    (row_t1 row_t2 : option row) : dict :=
  let blockC := [("BLOC C", VNone)] in
  let blockC := fill_cells "Table1_" row_t1 noncore_t1 blockC in
  let blockC := fill_cells "Table2_" row_t2 noncore_t2 blockC in
  let missing := check_missing_noncore blockC noncore_t1 noncore_t2 in
  let mismatch_noncore :=
    has_mismatch P blockC noncore_t1 noncore_t2 "Table1_" "Table2_" in
  set_comments "CommentC_1" "CommentC_2" "CommentC_3"
    "Missing Secondary Data" "No missing in non-core"
    missing mismatch_noncore blockC.

End Blocks9.

Module Main9.
Import Blocks9.

Record OutputRow : Type := {
  blockA : dict;
  blockB : dict;
  blockC : dict;
  row_data : dict
}.

(** The column lists [main] derives from the two headers. *)
Definition core_of (cols : list string) : list string :=
  filter (fun c => mem_str c cols) core_columns.

Definition noncore_of (cols : list string) : list string :=
  filter (fun c => negb (mem_str c (core_of cols))) cols.

Definition add_status (P : Pandas) (df : DataFrame) : result DataFrame :=
  df_setitem "Status" (map (Coco9.status_of_row P) (rows df)) df.

Definition enrich (P : Pandas) (df : DataFrame) : result DataFrame :=
  df1 <- add_noel_columns P df ;; add_status P df1.

Definition output_row (P : Pandas) (t1_cols t2_cols : list string) (i : nat)
    (p : option row * option row) : result OutputRow :=
  let (row_t1, row_t2) := p in
  let a := build_blockA P (core_of t1_cols) (core_of t2_cols) row_t1 row_t2 in
  b <- build_blockB P row_t1 row_t2 i ;;
  let c := build_blockC P (noncore_of t1_cols) (noncore_of t2_cols) row_t1 row_t2 in
  Ok {| blockA := a; blockB := b; blockC := c;
        row_data := dict_merge (dict_merge a b) c |}.

Definition group_rows (P : Pandas) (t1_cols t2_cols : list string)
    (t1 t2 : DataFrame) (k : string) : result (list OutputRow) :=
  mapM (fun i => output_row P t1_cols t2_cols i (pair_at t1 t2 k i))
       (seq 0 (max_count t1 t2 k)).

Definition main (P : Pandas) (df_t1 df_t2 : DataFrame) : result (list OutputRow) :=
  let t1_cols := columns df_t1 in
  let t2_cols := columns df_t2 in
  t1 <- add_noel_columns P df_t1 ;;
  t2 <- add_noel_columns P df_t2 ;;
  t1 <- add_status P t1 ;;
  t2 <- add_status P t2 ;;
  per_key <- mapM (group_rows P t1_cols t2_cols t1 t2) (all_noels t1 t2) ;;
  Ok (concat per_key).

End Main9.

(* ------------------------------------------------------------------ *)
(** ** Sample data for the worked examples *)

Module Samples.

(** A pandas environment whose parser knows two dates and rejects every
    other text; the reference instant lies between them. *)
Definition P0 : Pandas :=
  {| now := 100;
     parse_datetime := fun v =>
       match v with
       | VTime t => DtStamp t
       | VStr s => if String.eqb s "2020-01-01" then DtStamp 50
                   else if String.eqb s "2999-01-01" then DtStamp 500
                   else DtErr
       | _ => DtErr
       end;
     str_time := fun t => "T" ++ str_of_Z t |}.

Definition frame (cols : list string) (cells : list (list value)) : DataFrame :=
  {| columns := cols; rows := map (combine cols) cells |}.

End Samples.

(* ------------------------------------------------------------------ *)
(** ** Notions the statements use *)

(** [needle] occurs in [hay]. *)
Definition Contains (needle hay : string) : Prop :=
  exists a b, hay = a ++ needle ++ b.

(** The date cell parses as a date that lies strictly before "now". *)
Definition date_before_now (P : Pandas) (v : value) : Prop :=
  exists t, to_datetime P v = DtStamp t /\ (t < now P)%Z.

(** The key of a row of an enriched frame. *)
Definition has_key (k : string) (r : row) : Prop :=
  dict_get "NoelFirst" VNaN r = VStr k.

Definition key_present (t : DataFrame) (k : string) : Prop :=
  exists r, In r (rows t) /\ has_key k r.

(** An AlignedPair with the key of its group and its index in the group. *)
Record AlignedPair : Type := {
  key : string;
  index : nat;
  sides : option row * option row
}.

Definition sideA (p : AlignedPair) : option row := fst (sides p).
Definition sideB (p : AlignedPair) : option row := snd (sides p).

Definition group_of (t1 t2 : DataFrame) (k : string) : list AlignedPair :=
  map (fun i => {| key := k; index := i; sides := pair_at t1 t2 k i |})
      (seq 0 (max_count t1 t2 k)).

(** Frames whose key columns were derived by [split_noel]: a record with a
    key has a non-null identifier. *)
Definition keyed_frame (t : DataFrame) : Prop :=
  forall r k, In r (rows t) -> has_key k r ->
    exists v, dict_lookup "Noel" r = Some v /\ isna v = false.

(** The identity field is null or absent on at least one side. *)
Definition identity_missing (row1 row2 : option row) : bool :=
  isna (side_cell "Noel" row1) || isna (side_cell "Noel" row2).

(** A field other than the identity whose outcome is a difference. *)
Definition offending_field (P : Pandas) (row1 row2 : option row) (c : string) : bool :=
  negb (String.eqb c "Noel")
  && offending (field_outcome P (side_cell c row1) (side_cell c row2)).

(** A column both tables have whose two cells are present and differ. *)
Definition mismatch_field (P : Pandas) (r1 r2 : option row) (cols2 : list string)
    (c : string) : bool :=
  mem_str c cols2
  && match field_outcome P (side_cell c r1) (side_cell c r2) with
     | Mismatch => true
     | _ => false
     end.

(** The cells of BLOC 2 before its comments are set. *)
Definition block2_cells (row1 row2 : option row) : dict :=
  ("BLOC 2", VNone)
  :: app (map (fun c => ("Table1_" ++ c, side_cell c row1)) Blocks21.shared_cols)
         (map (fun c => ("Table2_" ++ c, side_cell c row2)) Blocks21.shared_cols).

(** The AlignedPairs of the whole run, in output order. *)
Definition keyed_pairs (t1 t2 : DataFrame) : list AlignedPair :=
  flat_map (group_of t1 t2) (all_noels t1 t2).

(** The row one record becomes when the two key columns are set, and when
    the status column is set after them. *)
Definition noel_row (P : Pandas) (r : row) : row :=
  let ks := split_noel P (dict_get "Noel" VNaN r) in
  dict_set "NoelSecond" (snd ks) (dict_set "NoelFirst" (fst ks) r).

Definition enrich_row (P : Pandas) (status : row -> value) (r : row) : row :=
  dict_set "Status" (status (noel_row P r)) (noel_row P r).

(* ------------------------------------------------------------------ *)
(** ** Further notions: coverage, the list of differences, the layout *)





(** The entry the scan of BLOC 2 writes for a field that differs. *)
Definition diff_entry (P : Pandas) (row1 row2 : option row) (c : string) : string :=
  match field_outcome P (side_cell c row1) (side_cell c row2) with
  | MissingInA => c ++ " [T1 missing, T2 present]"
  | MissingInB => c ++ " [T1 present, T2 missing]"
  | _ => c ++ " [T1=" ++ strip (py_str P (side_cell c row1))
           ++ ", T2=" ++ strip (py_str P (side_cell c row2)) ++ "]"
  end.

(** The presence text of BLOC 2, from the two identity cells. *)
Definition presence_text (n1 n2 : value) : string :=
  if isna n1 && notna n2 then "Missing in Table1"
  else if notna n1 && isna n2 then "Missing in Table2"
  else if isna n1 && isna n2 then "No Noel in both?"
  else "Both present".

(** The keys of a dict after [d[k] = v], and of [{**d1, **d2}]. *)
Definition add_key (k : string) (ks : list string) : list string :=
  if mem_str k ks then ks else (ks ++ [k])%list.

Definition merge_keys (ks1 ks2 : list string) : list string :=
  fold_left (fun acc k => add_key k acc) ks2 ks1.

Fixpoint nodupb (l : list string) : bool :=
  match l with
  | [] => true
  | x :: l' => negb (mem_str x l') && nodupb l'
  end.

(** The columns of the sheets "BLOC 1", "BLOC 2" and "BLOC 3". *)
Definition block1_header : list string :=
  [ "BLOC 1";
    "Table1_Noel"; "Table1_Daytona"; "Table1_Elastic Daytona"; "Table1_Status";
    "Table2_Noel"; "Table2_Daytona"; "Table2_Elastic Daytona"; "Table2_Status";
    "Comment1_B1"; "Comment2_B1" ].

Definition block2_header : list string :=
  "BLOC 2"
  :: app (map (fun c => "Table1_" ++ c) Blocks21.shared_cols)
         (app (map (fun c => "Table2_" ++ c) Blocks21.shared_cols)
              ["Comment1_B2"; "Comment2_B2"; "Comment3_B2"]).

Definition block3_header : list string :=
  "BLOC 3" :: map (fun c => "Table2_" ++ c) Blocks21.block3_cols.

(** The columns of the sheet "Comparison". *)
Definition comparison_header : list string :=
  merge_keys (merge_keys block1_header block2_header) block3_header.

(** What is wrong with a source frame, if anything, when [main] derives the
    key columns: no column "Noel", or no record to unpack. *)
Definition source_error (df : DataFrame) : option exn :=
  if negb (mem_str "Noel" (columns df)) then Some (KeyError "Noel")
  else match rows df with
       | [] => Some (ValueError "not enough values to unpack (expected 2, got 0)")
       | _ => None
       end.

(** A record of Source A that carries a key but has no "Land" cell: the
    record [row_t1["Land"]] of [coco9.py] cannot be read from. *)
Definition lacks_land (r : row) : bool :=
  notna (dict_get "Noel" VNaN r) && negb (dict_mem "Land" r).

(* ------------------------------------------------------------------ *)
(** ** [main] from the cleaning of the headers on *)

(** [df.columns = df.columns.str.strip()].  The accessor [.str] of an index
    that holds no label raises [AttributeError]; otherwise every label is
    stripped, in the header and in the records. *)
Definition strip_keys (r : row) : row :=
  map (fun kv => (strip (fst kv), snd kv)) r.

Definition cleaned (df : DataFrame) : DataFrame :=
  {| columns := map strip (columns df); rows := map strip_keys (rows df) |}.

Definition strip_columns (df : DataFrame) : result DataFrame :=
  match columns df with
  | [] => Raise AttributeError
  | _ => Ok (cleaned df)
  end.

(** [main] of [coco21.py] from the two frames as [read_excel] returns them,
    with string labels: the headers are cleaned, then the body of
    [Main21.main] runs on the cleaned frames. *)
Module Script21.

Definition main (P : Pandas) (df_t1 df_t2 : DataFrame)
  : result (list Main21.OutputRow) :=
  df_t1 <- strip_columns df_t1 ;;
  df_t2 <- strip_columns df_t2 ;;
  Main21.main P df_t1 df_t2.

End Script21.

(** The same for [coco9.py]; the core and non-core lists are taken from the
    cleaned headers. *)
Module Script9.

Definition main (P : Pandas) (df_t1 df_t2 : DataFrame)
  : result (list Main9.OutputRow) :=
  df_t1 <- strip_columns df_t1 ;;
  df_t2 <- strip_columns df_t2 ;;
  Main9.main P df_t1 df_t2.

End Script9.

(* ------------------------------------------------------------------ *)
(** ** The worksheet and its styles *)

(** A sheet as [DataFrame.to_excel(index=False)] writes it and openpyxl
    loads it: row 1 holds the column names, the rows from 2 on hold the
    records.  Rows and columns are numbered from 1; a cell that was never
    written reads [None]. *)
Module Sheet.

Record Worksheet : Type := {
  headers : list string;
  body : list (list value)
}.

Definition max_row (ws : Worksheet) : nat := S (length (body ws)).
Definition max_column (ws : Worksheet) : nat := length (headers ws).

(** [ws.cell(row=r, column=c).value] *)
Definition cell_value (ws : Worksheet) (r c : nat) : value :=
  match r, c with
  | 0, _ | _, 0 => VNone
  | 1, S j => match nth_error (headers ws) j with
              | Some h => VStr h
              | None => VNone
              end
  | S (S i), S j => nth j (nth i (body ws) []) VNone
  end.

Inductive Fill : Type :=
| green_fill | blue_fill | white_fill | dark_fill | red_fill | yellow_fill.

(** [Font(bold=True)] and [Font(color="FFFFFF", bold=True)]. *)
Inductive Font : Type := bold_font | white_bold_font.

Inductive Line : Type := thick | medium.
Inductive Colour : Type := purple | orange.

(** [Side(style=..., color=...)]; a border of the scripts has the same
    side on its four edges. *)
Record Side : Type := { line : Line; colour : Colour }.

(** [Alignment(vertical="top", wrap_text=True)] *)
Inductive Alignment : Type := top_wrap.

Record CellStyle : Type := {
  fill : option Fill;
  font : option Font;
  border : option Side;
  alignment : option Alignment
}.

(** The styles of a sheet: those of its cells, the widths of its columns
    and the heights of its rows, where one was set. *)
Record Styles : Type := {
  cells : nat -> nat -> CellStyle;
  widths : nat -> option nat;
  heights : nat -> option nat
}.

Definition set_fill (f : Fill) (s : CellStyle) : CellStyle :=
  {| fill := Some f; font := font s; border := border s; alignment := alignment s |}.

Definition set_font (f : Font) (s : CellStyle) : CellStyle :=
  {| fill := fill s; font := Some f; border := border s; alignment := alignment s |}.

Definition set_side (b : Side) (s : CellStyle) : CellStyle :=
  {| fill := fill s; font := font s; border := Some b; alignment := alignment s |}.

Definition set_alignment (a : Alignment) (s : CellStyle) : CellStyle :=
  {| fill := fill s; font := font s; border := border s; alignment := Some a |}.

(** An assignment to an attribute of [ws.cell(row=r, column=c)]. *)
Definition update_cell (r c : nat) (f : CellStyle -> CellStyle) (st : Styles)
  : Styles :=
  {| cells := fun r' c' =>
       if ((r' =? r) && (c' =? c))%nat then f (cells st r' c') else cells st r' c';
     widths := widths st;
     heights := heights st |}.

(** [ws.column_dimensions[get_column_letter(c)].width = w] *)
Definition set_width (c w : nat) (st : Styles) : Styles :=
  {| cells := cells st;
     widths := fun c' => if (c' =? c)%nat then Some w else widths st c';
     heights := heights st |}.

(** [ws.row_dimensions[r].height = h] *)
Definition set_height (r h : nat) (st : Styles) : Styles :=
  {| cells := cells st;
     widths := widths st;
     heights := fun r' => if (r' =? r)%nat then Some h else heights st r' |}.

(** [for i in range(lo, hi): s = body(i, s)] *)
Definition for_range {St : Type} (lo hi : nat) (body : nat -> St -> St) (s : St) : St :=
  fold_left (fun s i => body i s) (seq lo (hi - lo)) s.

(** [enumerate(l, start=k)] *)
Fixpoint enumerate_from {A : Type} (k : nat) (l : list A) : list (nat * A) :=
  match l with
  | [] => []
  | x :: l' => (k, x) :: enumerate_from (S k) l'
  end.

Definition enumerate {A : Type} (l : list A) : list (nat * A) :=
  enumerate_from 1 l.

(** [s.replace(old, "")] for a non-empty [old]: the occurrences are removed
    from left to right, without overlap.  [skip] counts the characters of
    the occurrence under the cursor that are still to be dropped. *)
Fixpoint remove_from (old : string) (skip : nat) (s : string) : string :=
  match s with
  | EmptyString => EmptyString
  | String c s' =>
      match skip with
      | S k => remove_from old k s'
      | O => if starts_with old s
             then remove_from old (String.length old - 1) s'
             else String c (remove_from old 0 s')
      end
  end.

Definition py_remove (old s : string) : string := remove_from old 0 s.

(** The table [pairs]: base name => the columns "t1" and "t2"; a
    [defaultdict], in insertion order. *)
Definition pair_entry : Type := (option nat * option nat)%type.
Definition pairs_table : Type := list (string * pair_entry).

(** [pairs[base][...] = i]: a base name not yet in the table enters it, at
    the end, with both columns [None]. *)
Fixpoint pairs_update (base : string) (f : pair_entry -> pair_entry)
    (ps : pairs_table) : pairs_table :=
  match ps with
  | [] => [(base, f (None, None))]
  | (b, e) :: ps' =>
      if String.eqb b base then (b, f e) :: ps'
      else (b, e) :: pairs_update base f ps'
  end.

Definition pairs_step (ps : pairs_table) (ih : nat * string) : pairs_table :=
  let (i, h) := ih in
  if starts_with "Table1_" h then
    pairs_update (py_remove "Table1_" h) (fun e => (Some i, snd e)) ps
  else if starts_with "Table2_" h then
    pairs_update (py_remove "Table2_" h) (fun e => (fst e, Some i)) ps
  else ps.

Definition build_pairs (headers : list string) : pairs_table :=
  fold_left pairs_step (enumerate headers) [].

(** [if t1_idx and t2_idx]: both set, and neither is 0. *)
Definition both_set (e : pair_entry) : option (nat * nat) :=
  match e with
  | (Some (S a), Some (S b)) => Some (S a, S b)
  | _ => None
  end.

(** The longest text of a column, as the auto-fit loop measures it. *)
Definition max_len (P : Pandas) (ws : Worksheet) (c : nat) : nat :=
  for_range 1 (max_row ws + 1)
    (fun r max_len =>
       let val := cell_value ws r c in
       let s := match val with VNone => EmptyString | _ => py_str P val end in
       if (max_len <? String.length s)%nat then String.length s else max_len)
    0%nat.

(** The auto-fit pass, with the width formula of the script. *)
Definition auto_fit (P : Pandas) (ws : Worksheet) (width_of : nat -> nat)
    (st : Styles) : Styles :=
  for_range 1 (max_column ws + 1)
    (fun c st =>
       let st := set_width c (width_of (max_len P ws c)) st in
       for_range 1 (max_row ws + 1)
         (fun r st => update_cell r c (set_alignment top_wrap) st) st)
    st.

End Sheet.

(* ------------------------------------------------------------------ *)
(** ** coco21.py: [style_worksheet] and [set_border] *)

Module Style21.
Import Sheet.

Definition purple_side : Side := {| line := thick; colour := purple |}.
Definition orange_side : Side := {| line := thick; colour := orange |}.

(** [set_border(cell, side)] *)
Definition set_border (r c : nat) (side : Side) (st : Styles) : Styles :=
  update_cell r c (set_side side) st.

(** The body of the base fill pass. *)
Definition base_fill (headers : list string) (r c : nat) (st : Styles) : Styles :=
  if (r =? 1)%nat then update_cell r c (set_font bold_font) st
  else
    let col_header := nth (c - 1) headers EmptyString in
    if mem_str col_header ["BLOC 1"; "BLOC 2"; "BLOC 3"] then
      update_cell r c (set_font white_bold_font)
        (update_cell r c (set_fill dark_fill) st)
    else if starts_with "Table1_" col_header then
      update_cell r c (set_fill green_fill) st
    else if starts_with "Table2_" col_header then
      update_cell r c (set_fill blue_fill) st
    else if py_in "Comment" col_header || py_in "Status" col_header then
      update_cell r c (set_fill white_fill) st
    else update_cell r c (set_fill white_fill) st.

(** The body of the loop over the rows of one pair of columns. *)
Definition style_pair (P : Pandas) (ws : Worksheet) (t1_idx t2_idx r : nat)
    (st : Styles) : Styles :=
  let v1 := cell_value ws r t1_idx in
  let v2 := cell_value ws r t2_idx in
  if isna v1 && isna v2 then
    update_cell r t2_idx (set_fill red_fill)
      (update_cell r t1_idx (set_fill red_fill) st)
  else if isna v1 && notna v2 then
    set_border r t2_idx orange_side
      (set_border r t1_idx orange_side
         (update_cell r t1_idx (set_fill red_fill) st))
  else if isna v2 && notna v1 then
    set_border r t2_idx orange_side
      (set_border r t1_idx orange_side
         (update_cell r t2_idx (set_fill red_fill) st))
  else
    let s1 := strip (py_str P v1) in
    let s2 := strip (py_str P v2) in
    let truthy := fun s => negb (String.eqb s EmptyString) in
    if truthy s1 && truthy s2 && String.eqb s1 s2 then
      set_border r t2_idx purple_side (set_border r t1_idx purple_side st)
    else if truthy s1 && truthy s2 && negb (String.eqb s1 s2) then
      set_border r t2_idx orange_side (set_border r t1_idx orange_side st)
    else if negb (String.eqb s1 s2) then
      set_border r t2_idx orange_side (set_border r t1_idx orange_side st)
    else st.

Definition style_pairs (P : Pandas) (ws : Worksheet) (st : Styles) : Styles :=
  fold_left
    (fun st entry =>
       match both_set (snd entry) with
       | Some (t1_idx, t2_idx) =>
           for_range 2 (max_row ws + 1) (style_pair P ws t1_idx t2_idx) st
       | None => st
       end)
    (build_pairs (headers ws)) st.

Definition width_of (max_len : nat) : nat := Nat.min 50 (Nat.max 10 (max_len + 2)).

(** [style_worksheet(ws, block3)], from the styles the loaded sheet has to
    those it is saved with.  The flag [block3] is not read. *)
Definition style_worksheet (P : Pandas) (ws : Worksheet) (block3 : bool)
    (st : Styles) : Styles :=
  let row_count := max_row ws in
  let col_count := max_column ws in
  let st :=
    for_range 1 (row_count + 1)
      (fun r st => for_range 1 (col_count + 1) (fun c st => base_fill (headers ws) r c st) st)
      st in
  let st := style_pairs P ws st in
  auto_fit P ws width_of st.

End Style21.

(* ------------------------------------------------------------------ *)
(** ** coco9.py: the styling passes of [main] *)

Module Style9.
Import Sheet.

Definition purple_side : Side := {| line := medium; colour := purple |}.
Definition orange_side : Side := {| line := medium; colour := orange |}.

(** The columns whose header is one of the three block markers. *)
Definition block_cols (headers : list string) : list nat :=
  map fst (filter (fun ih => mem_str (snd ih) ["BLOC A"; "BLOC B"; "BLOC C"])
                  (enumerate headers)).

Definition mem_nat (c : nat) (l : list nat) : bool := existsb (Nat.eqb c) l.

(** The body of the first pass. *)
Definition base_fill (headers : list string) (r c : nat) (st : Styles) : Styles :=
  if mem_nat c (block_cols headers) then
    update_cell r c (set_font white_bold_font)
      (update_cell r c (set_fill dark_fill) st)
  else if (r =? 1)%nat then
    set_height r 18
      (update_cell r c (set_font bold_font)
         (update_cell r c (set_fill white_fill) st))
  else
    let col_header := nth (c - 1) headers EmptyString in
    if String.eqb col_header "1-1 Comment" then
      update_cell r c (set_fill yellow_fill) st
    else if starts_with "Table1_" col_header then
      update_cell r c (set_fill green_fill) st
    else if starts_with "Table2_" col_header then
      update_cell r c (set_fill blue_fill) st
    else if py_in "Comment" col_header then
      update_cell r c (set_fill white_fill) st
    else update_cell r c (set_fill white_fill) st.

Definition set_border (r c : nat) (side : Side) (st : Styles) : Styles :=
  update_cell r c (set_side side) st.

(** The body of the loop over the rows of one pair of columns. *)
Definition style_pair (P : Pandas) (ws : Worksheet) (t1_idx t2_idx r : nat)
    (st : Styles) : Styles :=
  let v1 := cell_value ws r t1_idx in
  let v2 := cell_value ws r t2_idx in
  if isna v1 && notna v2 then update_cell r t1_idx (set_fill red_fill) st
  else if isna v2 && notna v1 then update_cell r t2_idx (set_fill red_fill) st
  else if isna v1 && isna v2 then
    update_cell r t2_idx (set_fill red_fill)
      (update_cell r t1_idx (set_fill red_fill) st)
  else if String.eqb (strip (py_str P v1)) (strip (py_str P v2)) then
    set_border r t2_idx purple_side (set_border r t1_idx purple_side st)
  else
    set_border r t2_idx orange_side (set_border r t1_idx orange_side st).

Definition style_pairs (P : Pandas) (ws : Worksheet) (st : Styles) : Styles :=
  fold_left
    (fun st entry =>
       match both_set (snd entry) with
       | Some (t1_idx, t2_idx) =>
           for_range 2 (max_row ws + 1) (style_pair P ws t1_idx t2_idx) st
       | None => st
       end)
    (build_pairs (headers ws)) st.

Definition width_of (max_length : nat) : nat :=
  Nat.max 10 (Nat.min (max_length + 2) 50).

(** The passes 5 to 7 of [main] on the sheet "Comparison". *)
Definition style_comparison (P : Pandas) (ws : Worksheet) (st : Styles) : Styles :=
  let row_count := max_row ws in
  let col_count := max_column ws in
  let st :=
    for_range 1 (row_count + 1)
      (fun r st => for_range 1 (col_count + 1) (fun c st => base_fill (headers ws) r c st) st)
      st in
  let st := style_pairs P ws st in
  auto_fit P ws width_of st.

End Style9.

(* ------------------------------------------------------------------ *)
(** ** Notions the statements on the styles use *)

Module StyleSpec.
Import Sheet.

(** The header of column [c]. *)
Definition header (hs : list string) (c : nat) : string := nth (c - 1) hs EmptyString.

(** A header of Source A, resp. of Source B, with the base name [b]. *)
Definition is_table1 (b h : string) : bool :=
  starts_with "Table1_" h && String.eqb (py_remove "Table1_" h) b.

Definition is_table2 (b h : string) : bool :=
  negb (starts_with "Table1_" h) && starts_with "Table2_" h
  && String.eqb (py_remove "Table2_" h) b.

(** The last column whose header satisfies [f]. *)
Definition last_index (f : string -> bool) (hs : list string) : option nat :=
  fold_left (fun acc ih => if f (snd ih) then Some (fst ih) else acc)
            (enumerate hs) None.

(** The two columns of the base name [b], when both exist. *)
Definition column_pair (hs : list string) (b : string) : option (nat * nat) :=
  match last_index (is_table1 b) hs, last_index (is_table2 b) hs with
  | Some t1, Some t2 => Some (t1, t2)
  | _, _ => None
  end.

(** What the table [pairs] holds for a base name. *)
Fixpoint pairs_lookup (b : string) (ps : pairs_table) : option pair_entry :=
  match ps with
  | [] => None
  | (b', e) :: ps' => if String.eqb b' b then Some e else pairs_lookup b ps'
  end.

Definition entry_of (ps : pairs_table) (b : string) : pair_entry :=
  match pairs_lookup b ps with
  | Some e => e
  | None => (None, None)
  end.

(** The colour of the base fill pass of a data cell. *)
Definition base_colour (h : string) : Fill :=
  if starts_with "Table1_" h then green_fill
  else if starts_with "Table2_" h then blue_fill
  else white_fill.

(** A pass changes each cell from its own style alone. *)
Definition pointwise (T : Styles -> Styles)
    (phi : nat -> nat -> CellStyle -> CellStyle) : Prop :=
  forall st r c, cells (T st) r c = phi r c (cells st r c).

(** The change at [(r, c)] alone. *)
Definition at_cell (r c : nat) (f : CellStyle -> CellStyle)
  : nat -> nat -> CellStyle -> CellStyle :=
  fun r' c' s => if ((r' =? r) && (c' =? c))%nat then f s else s.

Definition in_range (lo hi i : nat) : bool := ((lo <=? i) && (i <? hi))%nat.

(** What the base fill pass of [coco21.py] does to the cell [(r, c)]. *)
Definition base_style21 (hs : list string) (r c : nat) (s : CellStyle) : CellStyle :=
  if (r =? 1)%nat then set_font bold_font s
  else if mem_str (header hs c) ["BLOC 1"; "BLOC 2"; "BLOC 3"]
  then set_font white_bold_font (set_fill dark_fill s)
  else set_fill (base_colour (header hs c)) s.

(** What the first pass of [coco9.py] does to the cell [(r, c)]. *)
Definition base_style9 (hs : list string) (r c : nat) (s : CellStyle) : CellStyle :=
  if mem_str (header hs c) ["BLOC A"; "BLOC B"; "BLOC C"]
  then set_font white_bold_font (set_fill dark_fill s)
  else if (r =? 1)%nat then set_font bold_font (set_fill white_fill s)
  else if String.eqb (header hs c) "1-1 Comment" then set_fill yellow_fill s
  else set_fill (base_colour (header hs c)) s.

(** The border [coco21.py] draws around two paired cells, from the outcome
    of the field: none when both are missing or both are blank. *)
Definition border21 (P : Pandas) (v1 v2 : value) : option Side :=
  match field_outcome P v1 v2 with
  | BothMissing => None
  | MissingInA | MissingInB | Mismatch => Some Style21.orange_side
  | Match => if String.eqb (strip (py_str P v1)) EmptyString then None
             else Some Style21.purple_side
  end.

(** The border [coco9.py] draws: none as soon as a side is missing. *)
Definition border9 (P : Pandas) (v1 v2 : value) : option Side :=
  match field_outcome P v1 v2 with
  | BothMissing | MissingInA | MissingInB => None
  | Mismatch => Some Style9.orange_side
  | Match => Some Style9.purple_side
  end.

(** The pair of columns the column [c] belongs to, if any. *)
Definition partner (hs : list string) (c : nat) : option (nat * nat) :=
  let h := header hs c in
  if starts_with "Table1_" h then
    match column_pair hs (py_remove "Table1_" h) with
    | Some (t1, t2) => if (t1 =? c)%nat then Some (t1, t2) else None
    | None => None
    end
  else if starts_with "Table2_" h then
    match column_pair hs (py_remove "Table2_" h) with
    | Some (t1, t2) => if (t2 =? c)%nat then Some (t1, t2) else None
    | None => None
    end
  else None.

(** The pass over the pairs of columns, for either script. *)
Definition pairs_pass (pair_body : nat -> nat -> nat -> Styles -> Styles)
    (ws : Worksheet) (st : Styles) : Styles :=
  fold_left
    (fun st entry =>
       match both_set (snd entry) with
       | Some (t1_idx, t2_idx) =>
           for_range 2 (max_row ws + 1) (pair_body t1_idx t2_idx) st
       | None => st
       end)
    (build_pairs (headers ws)) st.

(** The text the auto-fit loop measures in a cell. *)
Definition cell_text (P : Pandas) (v : value) : string :=
  match v with VNone => EmptyString | _ => py_str P v end.

(** What the pair pass does to one cell of a pair: red when the cell is
    missing, and the border of the pair. *)
Definition paint (b : option Side) (v_self : value) (s : CellStyle) : CellStyle :=
  let s := if isna v_self then set_fill red_fill s else s in
  match b with
  | Some side => set_side side s
  | None => s
  end.

(** [t] is the last column whose header starts with [prefix] and has the
    base name [b]. *)
Definition last_column (prefix : string) (hs : list string) (b : string)
    (t : nat) : Prop :=
  (1 <= t <= length hs)%nat
  /\ starts_with prefix (header hs t) = true
  /\ py_remove prefix (header hs t) = b
  /\ forall j, (t < j <= length hs)%nat ->
       ~ (starts_with prefix (header hs j) = true
          /\ py_remove prefix (header hs j) = b).

End StyleSpec.

(* ================================================================== *)
(** * Properties *)

(** ** The error monad *)

Lemma bind_ok {A B : Type} (m : result A) (f : A -> result B) (b : B) :
  bind m f = Ok b -> exists a, m = Ok a /\ f a = Ok b.
Proof.
  destruct m as [a|e]; simpl; intros H; [eauto | discriminate].
Qed.

Lemma mapM_ok_Forall2 {A B : Type} (f : A -> result B) (l : list A) (out : list B) :
  mapM f l = Ok out <-> Forall2 (fun x y => f x = Ok y) l out.
Proof.
  revert out; induction l as [|x l IH]; intros out; simpl.
  - split; intros H.
    + inversion H; constructor.
    + inversion H; reflexivity.
  - split; intros H.
    + apply bind_ok in H as (y & Hy & H).
      apply bind_ok in H as (ys & Hys & H).
      inversion H; subst. constructor; [assumption | now apply IH].
    + inversion H as [|? ? ? ? Hy Hys]; subst.
      rewrite Hy; simpl. apply IH in Hys. rewrite Hys. reflexivity.
Qed.

Lemma mapM_total {A B : Type} (f : A -> result B) (l : list A) :
  (forall x, In x l -> exists y, f x = Ok y) -> exists out, mapM f l = Ok out.
Proof.
  induction l as [|x l IH]; intros H; simpl.
  - eauto.
  - destruct (H x (or_introl eq_refl)) as (y & Hy).
    destruct IH as (ys & Hys); [intros; apply H; now right|].
    rewrite Hy, Hys; simpl; eauto.
Qed.

Lemma Forall2_flat_map {A B C : Type} (R : B -> C -> Prop)
    (g : A -> list B) (l : list A) (outs : list (list C)) :
  Forall2 (fun x ys => Forall2 R (g x) ys) l outs ->
  Forall2 R (flat_map g l) (concat outs).
Proof.
  induction 1; simpl; [constructor | now apply Forall2_app].
Qed.

Lemma Forall2_map_l {A B C : Type} (R : B -> C -> Prop) (g : A -> B)
    (l : list A) (out : list C) :
  Forall2 (fun x y => R (g x) y) l out <-> Forall2 R (map g l) out.
Proof.
  revert out; induction l as [|x l IH]; intros out; simpl; split; intros H;
    inversion H; subst; constructor; try assumption; now apply IH.
Qed.

(** ** Strings *)

Lemma starts_with_app (p s : string) :
  starts_with p s = true <-> exists t, s = p ++ t.
Proof.
  revert s; induction p as [|c p IH]; intros s; simpl.
  - split; [intros _; exists s; reflexivity | reflexivity].
  - destruct s as [|d s].
    + split; [discriminate | intros (t & Ht); discriminate].
    + rewrite andb_true_iff, Ascii.eqb_eq, IH. split.
      * intros (-> & t & ->). now exists t.
      * intros (t & Ht). inversion Ht. eauto.
Qed.

Lemma py_in_Contains (p s : string) :
  py_in p s = true <-> Contains p s.
Proof.
  unfold Contains. induction s as [|c s IH]; simpl.
  - rewrite orb_false_r, starts_with_app. split.
    + intros (t & Ht). exists EmptyString, t. exact Ht.
    + intros (a & b & H). destruct a; simpl in H; [eauto | discriminate].
  - rewrite orb_true_iff, starts_with_app, IH. split.
    + intros [(t & Ht) | (a & b & H)].
      * exists EmptyString, t. exact Ht.
      * exists (String c a), b. simpl. now rewrite H.
    + intros (a & b & H). destruct a as [|d a]; simpl in H.
      * left. eauto.
      * right. inversion H. eauto.
Qed.

Lemma py_in_false (p s : string) :
  py_in p s = false <-> ~ Contains p s.
Proof.
  rewrite <- py_in_Contains. destruct (py_in p s); split; congruence.
Qed.

(** ** Status classifier *)

Lemma before_now_true (P : Pandas) (v : value) :
  try_except (before_now P v) false = true <-> date_before_now P v.
Proof.
  unfold before_now, date_before_now.
  destruct (to_datetime P v) as [| |t]; simpl.
  - split; [discriminate | intros (t & Ht & _); discriminate].
  - split; [discriminate | intros (t & Ht & _); discriminate].
  - rewrite Z.ltb_lt. split.
    + intros H. now exists t.
    + intros (t' & Ht & H). now inversion Ht; subst.
Qed.

Lemma date_before_now_notna (P : Pandas) (v : value) :
  date_before_now P v -> notna v = true.
Proof.
  intros (t & Ht & _). destruct v; simpl in *; try reflexivity; discriminate.
Qed.

Lemma guarded_before_now (P : Pandas) (v : value) :
  notna v && try_except (before_now P v) false = true <-> date_before_now P v.
Proof.
  rewrite andb_true_iff, before_now_true. split.
  - now intros (_ & H).
  - intros H. split; [now apply date_before_now_notna with P | assumption].
Qed.

Lemma get_activity_status_close (P : Pandas) (r : row) :
  Contains "close" (lower (py_str P (dict_get "Daytona" (VStr EmptyString) r))) ->
  Coco21.get_activity_status P r = VStr "Inactive".
Proof.
  intros H. apply py_in_Contains in H.
  unfold Coco21.get_activity_status. now rewrite H.
Qed.

Lemma get_activity_status_other (P : Pandas) (r : row) :
  ~ Contains "close" (lower (py_str P (dict_get "Daytona" (VStr EmptyString) r))) ->
  Coco21.get_activity_status P r =
  if notna (dict_get "Elastic Daytona" (VStr EmptyString) r)
     && try_except (before_now P (dict_get "Elastic Daytona" (VStr EmptyString) r)) false
  then VStr "Inactive" else VStr "Active".
Proof.
  intros H. apply py_in_false in H.
  unfold Coco21.get_activity_status. now rewrite H.
Qed.

Lemma get_activity_status_range (P : Pandas) (r : row) :
  Coco21.get_activity_status P r = VStr "Inactive"
  \/ Coco21.get_activity_status P r = VStr "Active".
Proof.
  unfold Coco21.get_activity_status.
  destruct (py_in _ _); [now left|].
  destruct (_ && _); [now left | now right].
Qed.

Lemma status_of_row_range (P : Pandas) (r : row) :
  Coco9.status_of_row P r = VStr "Inactive"
  \/ Coco9.status_of_row P r = VStr "Active".
Proof.
  unfold Coco9.status_of_row. destruct (Coco9.is_inactive _ _ _); [now left | now right].
Qed.

(** The text rule of [is_inactive]: a string cell that contains "closed". *)
Lemma is_inactive_text (P : Pandas) (d : value) :
  isinstance_str d && py_in "closed" (lower (py_str P d)) = true
  <-> exists s, d = VStr s /\ Contains "closed" (lower s).
Proof.
  rewrite andb_true_iff, py_in_Contains. split.
  - intros (Hs & Hc). destruct d; try discriminate. eauto.
  - intros (s & -> & Hc). split; [reflexivity | exact Hc].
Qed.

(** C6, as the code has it.  In [coco21.py] the status classifier applies
    its rules in order, first match winning: a status text that contains
    "close" in any letter case gives Inactive; otherwise a date cell that
    parses as a date strictly before the reference instant gives Inactive;
    otherwise the record is Active, an unparseable or null date raising
    nothing.  In [coco9.py] the order and the date rule are the same, but
    the text rule asks for a string cell that contains "closed". *)
Theorem C6_status_classifier_rules (P : Pandas) (r : row) :
  let d := dict_get "Daytona" (VStr EmptyString) r in
  let e := dict_get "Elastic Daytona" (VStr EmptyString) r in
  let close21 := Contains "close" (lower (py_str P d)) in
  let closed9 := exists s, d = VStr s /\ Contains "closed" (lower s) in
  ((close21 -> Coco21.get_activity_status P r = VStr "Inactive")
   /\ (~ close21 -> date_before_now P e ->
       Coco21.get_activity_status P r = VStr "Inactive")
   /\ (~ close21 -> ~ date_before_now P e ->
       Coco21.get_activity_status P r = VStr "Active"))
  /\
  ((closed9 -> Coco9.status_of_row P r = VStr "Inactive")
   /\ (~ closed9 -> date_before_now P e ->
       Coco9.status_of_row P r = VStr "Inactive")
   /\ (~ closed9 -> ~ date_before_now P e ->
       Coco9.status_of_row P r = VStr "Active")).
Proof.
  intros d e close21 closed9. split; [split; [|split] | split; [|split]].
  - apply get_activity_status_close.
  - intros Hc Hd. rewrite get_activity_status_other by exact Hc.
    apply guarded_before_now in Hd. fold e. now rewrite Hd.
  - intros Hc Hd. rewrite get_activity_status_other by exact Hc.
    fold e. destruct (notna e && _) eqn:E; [|reflexivity].
    apply guarded_before_now in E. contradiction.
  - intros Hc. apply is_inactive_text with (P := P) in Hc.
    unfold Coco9.status_of_row, Coco9.is_inactive. fold d. now rewrite Hc.
  - intros Hc Hd. unfold Coco9.status_of_row, Coco9.is_inactive. fold d e.
    destruct (isinstance_str d && _); [reflexivity|].
    apply before_now_true in Hd. now rewrite Hd.
  - intros Hc Hd. unfold Coco9.status_of_row, Coco9.is_inactive. fold d e.
    destruct (isinstance_str d && _) eqn:E.
    + apply is_inactive_text in E. contradiction.
    + destruct (try_except _ _) eqn:E'; [|reflexivity].
      apply before_now_true in E'. contradiction.
Qed.

(** The three rules of [coco21.py] fire on three concrete records: a
    "CLOSED" status, an open status with a past date, an open status with
    a text that is no date. *)
Lemma C6_status_classifier_rules_witness :
  Coco21.get_activity_status Samples.P0
    [("Daytona", VStr "CLOSED"); ("Elastic Daytona", VStr "2999-01-01")]
  = VStr "Inactive"
  /\ Coco21.get_activity_status Samples.P0
       [("Daytona", VStr "open"); ("Elastic Daytona", VStr "2020-01-01")]
     = VStr "Inactive"
  /\ Coco21.get_activity_status Samples.P0
       [("Daytona", VStr "open"); ("Elastic Daytona", VStr "n/a")]
     = VStr "Active".
Proof.
  split; [|split].
  - apply (proj1 (proj1 (C6_status_classifier_rules Samples.P0
      [("Daytona", VStr "CLOSED"); ("Elastic Daytona", VStr "2999-01-01")]))).
    exists EmptyString, "d". reflexivity.
  - apply (proj1 (proj2 (proj1 (C6_status_classifier_rules Samples.P0
      [("Daytona", VStr "open"); ("Elastic Daytona", VStr "2020-01-01")])))).
    + apply py_in_false. reflexivity.
    + exists 50%Z. split; [reflexivity | reflexivity].
  - apply (proj2 (proj2 (proj1 (C6_status_classifier_rules Samples.P0
      [("Daytona", VStr "open"); ("Elastic Daytona", VStr "n/a")])))).
    + apply py_in_false. reflexivity.
    + intros (t & Ht & _). discriminate.
Defined.

(** C6 as stated fails on [coco9.py]: the status text "Close" contains
    "close", yet the record is classified Active. *)
Lemma C6_counterexample_coco9_close :
  let r := [("Daytona", VStr "Close"); ("Elastic Daytona", VNaN)] in
  Contains "close" (lower (py_str Samples.P0 (dict_get "Daytona" (VStr EmptyString) r)))
  /\ Coco9.status_of_row Samples.P0 r = VStr "Active".
Proof.
  split.
  - exists EmptyString, EmptyString. reflexivity.
  - reflexivity.
Qed.

(** ** Dicts *)

Lemma dict_lookup_set_same (k : string) (v : value) (d : dict) :
  dict_lookup k (dict_set k v d) = Some v.
Proof.
  induction d as [|[k' v'] d IH]; simpl.
  - now rewrite String.eqb_refl.
  - destruct (String.eqb k' k) eqn:E; simpl; rewrite E; [reflexivity | exact IH].
Qed.

Lemma dict_lookup_set_other (k k' : string) (v : value) (d : dict) :
  String.eqb k' k = false ->
  dict_lookup k (dict_set k' v d) = dict_lookup k d.
Proof.
  intros Hne. induction d as [|[k0 v0] d IH]; simpl.
  - now rewrite Hne.
  - destruct (String.eqb k0 k') eqn:E; simpl.
    + apply String.eqb_eq in E; subst k0. now rewrite Hne.
    + destruct (String.eqb k0 k); [reflexivity | exact IH].
Qed.

Lemma dict_get_set_same (k : string) (v dflt : value) (d : dict) :
  dict_get k dflt (dict_set k v d) = v.
Proof. unfold dict_get. now rewrite dict_lookup_set_same. Qed.

Lemma dict_get_set_other (k k' : string) (v dflt : value) (d : dict) :
  String.eqb k' k = false ->
  dict_get k dflt (dict_set k' v d) = dict_get k dflt d.
Proof. intros H. unfold dict_get. now rewrite dict_lookup_set_other. Qed.

Lemma dict_lookup_merge_absent (k : string) (d1 d2 : dict) :
  dict_lookup k d2 = None ->
  dict_lookup k (dict_merge d1 d2) = dict_lookup k d1.
Proof.
  unfold dict_merge. revert d1.
  induction d2 as [|[k' v'] d2 IH]; intros d1 H; simpl in *.
  - reflexivity.
  - destruct (String.eqb k' k) eqn:E; [discriminate|].
    rewrite IH by exact H. now apply dict_lookup_set_other.
Qed.

Lemma mem_str_In (c : string) (l : list string) :
  mem_str c l = true <-> In c l.
Proof.
  unfold mem_str. rewrite existsb_exists. split.
  - intros (x & Hx & E). apply String.eqb_eq in E. now subst.
  - intros H. exists c. split; [exact H | apply String.eqb_refl].
Qed.

(** ** Sorted sets of keys *)

Lemma insert_key_In (k x : string) (l : list string) :
  In x (insert_key k l) <-> x = k \/ In x l.
Proof.
  induction l as [|y l IH]; simpl.
  - intuition.
  - destruct (String_as_OT.cmp k y) eqn:E; simpl.
    + apply String_as_OT.cmp_eq in E. subst. intuition.
    + intuition.
    + rewrite IH. intuition.
Qed.

Lemma sorted_set_In (x : string) (l : list string) :
  In x (sorted_set l) <-> In x l.
Proof.
  unfold sorted_set. induction l as [|y l IH]; simpl.
  - reflexivity.
  - rewrite insert_key_In, IH. intuition.
Qed.





Lemma key_strings_In (k : string) (l : list value) :
  In k (key_strings l) <-> In (VStr k) l.
Proof.
  induction l as [|v l IH]; simpl.
  - reflexivity.
  - destruct v; simpl; rewrite IH; intuition (try discriminate; try congruence).
Qed.

Lemma column_key_In (t : DataFrame) (k : string) :
  In k (key_strings (column "NoelFirst" t)) <-> key_present t k.
Proof.
  rewrite key_strings_In. unfold column, key_present, has_key.
  rewrite in_map_iff. split; intros (r & H1 & H2); exists r; intuition.
Qed.

Lemma all_noels_In (t1 t2 : DataFrame) (k : string) :
  In k (all_noels t1 t2) <-> key_present t1 k \/ key_present t2 k.
Proof.
  unfold all_noels. rewrite sorted_set_In, in_app_iff.
  now rewrite !column_key_In.
Qed.

Lemma noel_first_is_true (k : string) (r : row) :
  noel_first_is k r = true <-> has_key k r.
Proof.
  unfold noel_first_is, has_key.
  destruct (dict_get "NoelFirst" VNaN r); try (split; [discriminate | congruence]).
  rewrite String.eqb_eq. split; congruence.
Qed.

Lemma subframe_In (t : DataFrame) (k : string) (r : row) :
  In r (subframe k t) <-> In r (rows t) /\ has_key k r.
Proof.
  unfold subframe. now rewrite filter_In, noel_first_is_true.
Qed.

Lemma subframe_nonempty (t : DataFrame) (k : string) :
  key_present t k <-> (0 < length (subframe k t))%nat.
Proof.
  split.
  - intros (r & Hr & Hk).
    assert (H : In r (subframe k t)) by now apply subframe_In.
    destruct (subframe k t); [contradiction | simpl; lia].
  - intros H. destruct (subframe k t) as [|r l] eqn:E; [simpl in H; lia|].
    assert (Hr : In r (subframe k t)) by (rewrite E; now left).
    apply subframe_In in Hr. now exists r.
Qed.

(** ** Enrichment: the derived columns *)

Lemma set_column_map {A : Type} (c : string) (f : A -> value) (h : A -> row)
    (l : list A) :
  set_column c (map f l) (map h l) = Ok (map (fun x => dict_set c (f x) (h x)) l).
Proof.
  induction l as [|x l IH]; simpl; [reflexivity|]. now rewrite IH.
Qed.

Lemma set_column_same (c : string) (f : row -> value) (l : list row) :
  set_column c (map f l) l = Ok (map (fun r => dict_set c (f r) r) l).
Proof.
  induction l as [|x l IH]; simpl; [reflexivity|]. now rewrite IH.
Qed.

Lemma split_map {A B C : Type} (f : A -> B * C) (l : list A) :
  List.split (map f l) = (map (fun x => fst (f x)) l, map (fun x => snd (f x)) l).
Proof.
  induction l as [|x l IH]; simpl; [reflexivity|].
  rewrite IH. now destruct (f x).
Qed.

Lemma unpack2_map {A B C : Type} (f : A -> B * C) (l : list A) :
  l <> [] ->
  unpack2 (map f l) = Ok (map (fun x => fst (f x)) l, map (fun x => snd (f x)) l).
Proof.
  intros Hne. destruct l as [|x l]; [contradiction|].
  unfold unpack2. rewrite <- split_map. reflexivity.
Qed.

Lemma add_noel_columns_eq (P : Pandas) (df : DataFrame) :
  mem_str "Noel" (columns df) = true -> rows df <> [] ->
  exists cols, add_noel_columns P df
               = Ok {| columns := cols; rows := map (noel_row P) (rows df) |}.
Proof.
  intros Hm Hne. unfold add_noel_columns, df_getitem. rewrite Hm. simpl.
  rewrite map_map, unpack2_map by exact Hne. simpl.
  unfold df_setitem. simpl.
  rewrite set_column_same. simpl. rewrite set_column_map. simpl. eauto.
Qed.

Lemma add_noel_columns_ok (P : Pandas) (df t : DataFrame) :
  add_noel_columns P df = Ok t ->
  mem_str "Noel" (columns df) = true
  /\ rows df <> []
  /\ rows t = map (noel_row P) (rows df).
Proof.
  intros H.
  destruct (mem_str "Noel" (columns df)) eqn:Hm.
  - destruct (rows df) as [|r0 rs] eqn:Hrows.
    + unfold add_noel_columns, df_getitem in H. rewrite Hm, Hrows in H.
      discriminate.
    + assert (Hne : rows df <> []) by (rewrite Hrows; discriminate).
      destruct (add_noel_columns_eq P df Hm Hne) as (cols & E).
      rewrite E in H. inversion H; subst t; simpl.
      rewrite Hrows. repeat split; discriminate.
  - unfold add_noel_columns, df_getitem in H. rewrite Hm in H. discriminate.
Qed.

Lemma add_noel_columns_total (P : Pandas) (df : DataFrame) :
  mem_str "Noel" (columns df) = true -> rows df <> [] ->
  exists t, add_noel_columns P df = Ok t.
Proof.
  intros Hm Hne. destruct (add_noel_columns_eq P df Hm Hne) as (cols & E). eauto.
Qed.

Lemma add_status_rows (c : string) (f : row -> value) (df : DataFrame) :
  df_setitem c (map f (rows df)) df
  = Ok {| columns := if mem_str c (columns df) then columns df
                     else (columns df ++ [c])%list;
          rows := map (fun r => dict_set c (f r) r) (rows df) |}.
Proof.
  unfold df_setitem. rewrite set_column_same. reflexivity.
Qed.

Lemma enrich21_rows (P : Pandas) (df t : DataFrame) :
  Main21.enrich P df = Ok t ->
  rows t = map (enrich_row P (Coco21.get_activity_status P)) (rows df).
Proof.
  unfold Main21.enrich. intros H.
  apply bind_ok in H as (t0 & H0 & H).
  apply add_noel_columns_ok in H0 as (_ & _ & Hr).
  unfold Main21.add_status in H. rewrite add_status_rows in H.
  inversion H; subst t; simpl. rewrite Hr, map_map. reflexivity.
Qed.

Lemma enrich_row_first (P : Pandas) (st : row -> value) (r : row) :
  dict_get "NoelFirst" VNaN (enrich_row P st r)
  = fst (split_noel P (dict_get "Noel" VNaN r)).
Proof.
  unfold enrich_row, noel_row.
  rewrite dict_get_set_other by reflexivity.
  rewrite dict_get_set_other by reflexivity.
  apply dict_get_set_same.
Qed.

Lemma enrich_row_second (P : Pandas) (st : row -> value) (r : row) :
  dict_get "NoelSecond" VNaN (enrich_row P st r)
  = snd (split_noel P (dict_get "Noel" VNaN r)).
Proof.
  unfold enrich_row, noel_row.
  rewrite dict_get_set_other by reflexivity.
  apply dict_get_set_same.
Qed.

Lemma enrich_row_noel (P : Pandas) (st : row -> value) (r : row) :
  dict_lookup "Noel" (enrich_row P st r) = dict_lookup "Noel" r.
Proof.
  unfold enrich_row, noel_row.
  now rewrite !dict_lookup_set_other by reflexivity.
Qed.

(** ** Key normalizer *)

Lemma split_noel_null (P : Pandas) (v : value) :
  isna v = true -> split_noel P v = (VNone, VNone).
Proof. unfold split_noel. now intros ->. Qed.

Lemma split_noel_present (P : Pandas) (v : value) :
  isna v = false -> exists k, fst (split_noel P v) = VStr k.
Proof.
  unfold split_noel. intros ->.
  destruct (py_in _ _); [|simpl; eauto].
  destruct (split1 _ _). simpl. eauto.
Qed.

Lemma split_noel_key_notna (P : Pandas) (v : value) (k : string) :
  fst (split_noel P v) = VStr k -> isna v = false.
Proof.
  destruct (isna v) eqn:E; [|reflexivity].
  rewrite split_noel_null by exact E. discriminate.
Qed.

(** A row of an enriched frame that carries a key has a non-null "Noel". *)
Lemma enriched_key_noel (P : Pandas) (st : row -> value) (r : row) (k : string) :
  has_key k (enrich_row P st r) ->
  exists v, dict_lookup "Noel" (enrich_row P st r) = Some v /\ isna v = false.
Proof.
  unfold has_key. rewrite enrich_row_first, enrich_row_noel. intros H.
  apply split_noel_key_notna in H. unfold dict_get in H.
  destruct (dict_lookup "Noel" r) as [v|]; [eauto | discriminate].
Qed.

Lemma enrich9_rows (P : Pandas) (df t : DataFrame) :
  Main9.enrich P df = Ok t ->
  rows t = map (enrich_row P (Coco9.status_of_row P)) (rows df).
Proof.
  unfold Main9.enrich. intros H.
  apply bind_ok in H as (t0 & H0 & H).
  apply add_noel_columns_ok in H0 as (_ & _ & Hr).
  unfold Main9.add_status in H. rewrite add_status_rows in H.
  inversion H; subst t; simpl. rewrite Hr, map_map. reflexivity.
Qed.

(** ** Group aligner *)

Lemma row_at_nth (sub : list row) (i : nat) : row_at sub i = nth_error sub i.
Proof.
  unfold row_at. destruct (i <? length sub)%nat eqn:E; [reflexivity|].
  apply Nat.ltb_ge in E. symmetry. now apply nth_error_None.
Qed.







Lemma keyed_pairs_In (t1 t2 : DataFrame) (p : AlignedPair) :
  In p (keyed_pairs t1 t2) <->
  In (key p) (all_noels t1 t2)
  /\ (index p < max_count t1 t2 (key p))%nat
  /\ sides p = pair_at t1 t2 (key p) (index p).
Proof.
  unfold keyed_pairs, group_of. rewrite in_flat_map. split.
  - intros (k & Hk & Hp). apply in_map_iff in Hp as (i & <- & Hi).
    apply in_seq in Hi. simpl. repeat split; [assumption | lia].
  - intros (Hk & Hi & Hs). exists (key p). split; [assumption|].
    apply in_map_iff. exists (index p). split.
    + destruct p; simpl in *. now subst.
    + apply in_seq. lia.
Qed.

(** A present side of an AlignedPair is a record of its source and carries
    the key of the group. *)
Lemma pair_at_sideA (t1 t2 : DataFrame) (k : string) (i : nat) (r : row) :
  fst (pair_at t1 t2 k i) = Some r -> In r (rows t1) /\ has_key k r.
Proof.
  unfold pair_at. simpl. rewrite row_at_nth. intros H.
  apply nth_error_In in H. now apply subframe_In.
Qed.

Lemma pair_at_sideB (t1 t2 : DataFrame) (k : string) (i : nat) (r : row) :
  snd (pair_at t1 t2 k i) = Some r -> In r (rows t2) /\ has_key k r.
Proof.
  unfold pair_at. simpl. rewrite row_at_nth. intros H.
  apply nth_error_In in H. now apply subframe_In.
Qed.

(** Never both sides absent. *)
Lemma pair_at_not_both_absent (t1 t2 : DataFrame) (k : string) (i : nat) :
  (i < max_count t1 t2 k)%nat -> pair_at t1 t2 k i <> (None, None).
Proof.
  unfold pair_at, max_count. rewrite !row_at_nth. intros Hi H.
  injection H as HA HB.
  apply nth_error_None in HA. apply nth_error_None in HB. lia.
Qed.

(** ** The many-to-many flag *)

Lemma map_get_tabulate {A : Type} (g : string -> A) (dflt : A)
    (k : string) (l : list string) :
  map_get k dflt (map (fun x => (x, g x)) l)
  = if mem_str k l then g k else dflt.
Proof.
  induction l as [|x l IH]; simpl; [reflexivity|].
  rewrite (String.eqb_sym k x).
  destruct (String.eqb x k) eqn:E; simpl.
  - apply String.eqb_eq in E. now subst.
  - exact IH.
Qed.

Lemma second_map_get (t2 : DataFrame) (k : string) :
  map_get k [] (groupby_list t2) = secondary_keys t2 k.
Proof.
  unfold groupby_list, secondary_keys.
  rewrite (map_get_tabulate
             (fun k => map (dict_get "NoelSecond" VNaN) (subframe k t2))).
  destruct (mem_str k _) eqn:E; [reflexivity|].
  destruct (subframe k t2) as [|r l] eqn:Es; [reflexivity|].
  assert (Hp : key_present t2 k).
  { apply subframe_nonempty. rewrite Es. simpl. lia. }
  apply column_key_In, sorted_set_In, mem_str_In in Hp. congruence.
Qed.

Lemma many_to_many_count (t2 : DataFrame) (k : string) :
  Main21.many_to_many t2 k = (1 <? length (subframe k t2))%nat.
Proof.
  unfold Main21.many_to_many. rewrite second_map_get.
  unfold secondary_keys. now rewrite length_map.
Qed.

(** C1, as the code has it.  A key group is flagged many-to-many if and
    only if it holds two or more Source-B records: the flag is the length
    of the list of the group's secondary keys, duplicates and absent ones
    counted, not the number of distinct values in it. *)
Theorem C1_many_to_many_counts_records (t2 : DataFrame) (k : string) :
  Main21.many_to_many t2 k = true <-> (2 <= length (subframe k t2))%nat.
Proof.
  rewrite many_to_many_count, Nat.ltb_lt. lia.
Qed.

(** C1 as stated fails: Source B holds "X_001" twice, so the group "X" has
    one distinct secondary key, and it is flagged many-to-many; both output
    rows carry the many-to-many comment. *)
Lemma C1_counterexample_same_secondary_key :
  let A := Samples.frame ["Noel"] [[VStr "X"]] in
  let B := Samples.frame ["Noel"] [[VStr "X_001"]; [VStr "X_001"]] in
  exists t2 out,
    Main21.enrich Samples.P0 B = Ok t2
    /\ secondary_keys t2 "X" = [VStr "001"; VStr "001"]
    /\ distinct_secondary_count t2 "X" = 1%nat
    /\ Main21.many_to_many t2 "X" = true
    /\ Main21.main Samples.P0 A B = Ok out
    /\ map (fun o => dict_lookup "Comment2_B1" (Main21.block1 o)) out
       = [Some (VStr "many-to-many"); Some (VStr "many-to-many")].
Proof.
  simpl. eexists. eexists.
  split; [vm_compute; reflexivity|].
  split; [vm_compute; reflexivity|].
  split; [vm_compute; reflexivity|].
  split; [vm_compute; reflexivity|].
  split; [vm_compute; reflexivity|].
  vm_compute. reflexivity.
Qed.

(** ** BLOC 2 of coco21.py *)

Lemma block2_filled (row1 row2 : option row) :
  Blocks21.fill_columns "Table2_" row2 Blocks21.shared_cols
    (Blocks21.fill_columns "Table1_" row1 Blocks21.shared_cols [("BLOC 2", VNone)])
  = block2_cells row1 row2.
Proof. reflexivity. Qed.

(** Reading a shared column back from the block gives the cell of the row. *)
Lemma block2_read (row1 row2 : option row) (v : value) (c : string) :
  In c Blocks21.shared_cols ->
  dict_getitem ("Table1_" ++ c) (dict_set "Comment1_B2" v (block2_cells row1 row2))
  = Ok (side_cell c row1)
  /\ dict_getitem ("Table2_" ++ c) (dict_set "Comment1_B2" v (block2_cells row1 row2))
     = Ok (side_cell c row2).
Proof.
  intros Hc. simpl in Hc.
  repeat (destruct Hc as [<-|Hc]; [split; reflexivity|]).
  contradiction.
Qed.

Lemma block2_read_noel (row1 row2 : option row) :
  dict_getitem "Table1_Noel" (block2_cells row1 row2) = Ok (side_cell "Noel" row1)
  /\ dict_getitem "Table2_Noel" (block2_cells row1 row2) = Ok (side_cell "Noel" row2).
Proof. split; reflexivity. Qed.

(** The test one turn of the scan makes is the outcome of the field. *)
Lemma scan_step_outcome (P : Pandas) (b2 : dict) (c : string)
    (st : bool * list string) (v1 v2 : value) :
  String.eqb c "Noel" = false ->
  dict_getitem ("Table1_" ++ c) b2 = Ok v1 ->
  dict_getitem ("Table2_" ++ c) b2 = Ok v2 ->
  exists diff,
    Blocks21.scan_step P b2 c st
    = Ok (fst st || offending (field_outcome P v1 v2), diff)
    /\ (offending (field_outcome P v1 v2) = false -> diff = snd st)
    /\ (offending (field_outcome P v1 v2) = true -> diff <> []).
Proof.
  intros Hc H1 H2. unfold Blocks21.scan_step. rewrite Hc, H1, H2. simpl.
  unfold field_outcome, Blocks21.safe_str, notna.
  destruct (isna v1) eqn:E1, (isna v2) eqn:E2; simpl.
  - exists (snd st). rewrite orb_false_r. destruct st; simpl.
    split; [reflexivity | split; [reflexivity | discriminate]].
  - eexists. rewrite orb_true_r. split; [reflexivity | split; [discriminate|]].
    intros _. destruct (snd st); discriminate.
  - eexists. rewrite orb_true_r. split; [reflexivity | split; [discriminate|]].
    intros _. destruct (snd st); discriminate.
  - destruct (String.eqb (strip (py_str P v1)) (strip (py_str P v2))); simpl.
    + exists (snd st). rewrite orb_false_r. destruct st; simpl.
      split; [reflexivity | split; [reflexivity | discriminate]].
    + eexists. rewrite orb_true_r. split; [reflexivity | split; [discriminate|]].
      intros _. destruct (snd st); discriminate.
Qed.

Lemma scan_columns_flag (P : Pandas) (b2 : dict) (row1 row2 : option row)
    (cols : list string) (st : bool * list string) :
  (forall c, In c cols ->
     dict_getitem ("Table1_" ++ c) b2 = Ok (side_cell c row1)
     /\ dict_getitem ("Table2_" ++ c) b2 = Ok (side_cell c row2)) ->
  (fst st = true -> snd st <> []) ->
  exists diff,
    Blocks21.scan_columns P b2 cols st
    = Ok (fst st || existsb (offending_field P row1 row2) cols, diff)
    /\ (fst st || existsb (offending_field P row1 row2) cols = true -> diff <> []).
Proof.
  revert st. induction cols as [|c cols IH]; intros st Hread Hst; simpl.
  - exists (snd st). rewrite orb_false_r. destruct st; simpl in *. now split.
  - destruct (String.eqb c "Noel") eqn:Hc.
    + assert (Hoff : offending_field P row1 row2 c = false)
        by (unfold offending_field; now rewrite Hc).
      unfold Blocks21.scan_step at 1. rewrite Hc, Hoff. simpl.
      apply IH; [intros; apply Hread; now right | exact Hst].
    + assert (Hoff : offending_field P row1 row2 c
                     = offending (field_outcome P (side_cell c row1) (side_cell c row2)))
        by (unfold offending_field; now rewrite Hc).
      destruct (Hread c (or_introl eq_refl)) as (H1 & H2).
      destruct (scan_step_outcome P b2 c st _ _ Hc H1 H2) as (d & E & Hkeep & Hnew).
      rewrite E, Hoff. simpl.
      destruct (IH (fst st || offending (field_outcome P (side_cell c row1)
                                           (side_cell c row2)), d))
        as (diff & E' & Hd).
      * intros; apply Hread; now right.
      * simpl. intros H.
        destruct (offending _) eqn:Eo; [now apply Hnew|].
        rewrite orb_false_r in H.
        rewrite Hkeep by reflexivity. now apply Hst.
      * exists diff. simpl in E', Hd. rewrite orb_assoc. now split.
Qed.

Lemma block2_set_comments (row1 row2 : option row) (c1 c2 c3 : value) :
  dict_set "Comment3_B2" c3
    (dict_set "Comment2_B2" c2
       (dict_set "Comment1_B2" c1 (block2_cells row1 row2)))
  = app (block2_cells row1 row2)
        [("Comment1_B2", c1); ("Comment2_B2", c2); ("Comment3_B2", c3)].
Proof. reflexivity. Qed.

(** What [build_block2] returns: it never raises, the cells are those of
    the two rows, and the verdict follows the identity guard and the scan. *)
Lemma build_block2_result (P : Pandas) (row1 row2 : option row) :
  exists c1 c2 c3,
    Blocks21.build_block2 P row1 row2
    = Ok (app (block2_cells row1 row2)
              [("Comment1_B2", VStr c1); ("Comment2_B2", VStr c2);
               ("Comment3_B2", VStr c3)])
    /\ (identity_missing row1 row2 = true -> c2 = "N/A" /\ c3 = "N/A")
    /\ (identity_missing row1 row2 = false ->
        existsb (offending_field P row1 row2) Blocks21.shared_cols = true ->
        c2 = "shared dimensions GAP")
    /\ (identity_missing row1 row2 = false ->
        existsb (offending_field P row1 row2) Blocks21.shared_cols = false ->
        c2 = "shared dimensions MATCH" /\ c3 = "No differences").
Proof.
  unfold Blocks21.build_block2. cbv zeta. rewrite block2_filled.
  rewrite (proj1 (block2_read_noel row1 row2)),
          (proj2 (block2_read_noel row1 row2)).
  cbn [bind]. unfold identity_missing.
  set (n1 := side_cell "Noel" row1). set (n2 := side_cell "Noel" row2).
  set (c1 := if isna n1 && notna n2 then "Missing in Table1"
             else if notna n1 && isna n2 then "Missing in Table2"
             else if isna n1 && isna n2 then "No Noel in both?"
             else "Both present").
  destruct (isna n1 || isna n2) eqn:Hid.
  - exists c1, "N/A", "N/A". rewrite block2_set_comments.
    split; [reflexivity|]. split; [now split|]. split; discriminate.
  - destruct (scan_columns_flag P
                (dict_set "Comment1_B2" (VStr c1) (block2_cells row1 row2))
                row1 row2 Blocks21.shared_cols (false, []))
      as (diff & E & Hd).
    + intros c Hc. now apply block2_read.
    + discriminate.
    + rewrite E. cbn [bind fst orb].
      destruct (existsb (offending_field P row1 row2) Blocks21.shared_cols) eqn:Ex.
      * destruct diff as [|x diff]; [now elim Hd|].
        eexists c1, "shared dimensions GAP", _. rewrite block2_set_comments.
        split; [reflexivity|]. split; [discriminate|].
        split; [reflexivity | discriminate].
      * exists c1, "shared dimensions MATCH", "No differences".
        rewrite block2_set_comments.
        split; [reflexivity|]. split; [discriminate|].
        split; [discriminate | now split].
Qed.

Lemma not_offending_all (P : Pandas) (row1 row2 : option row) (cols : list string) :
  existsb (offending_field P row1 row2) cols = false
  <-> forall c, In c cols -> c <> "Noel" ->
        offending (field_outcome P (side_cell c row1) (side_cell c row2)) = false.
Proof.
  split.
  - intros H c Hc Hn.
    destruct (offending _) eqn:E; [|reflexivity].
    assert (Hex : existsb (offending_field P row1 row2) cols = true).
    { apply existsb_exists. exists c. split; [exact Hc|].
      unfold offending_field. rewrite E.
      apply String.eqb_neq in Hn. now rewrite Hn. }
    congruence.
  - intros H. destruct (existsb _ cols) eqn:E; [|reflexivity].
    apply existsb_exists in E as (c & Hc & Ho).
    unfold offending_field in Ho. apply andb_true_iff in Ho as (Hn & Ho).
    apply negb_true_iff, String.eqb_neq in Hn.
    rewrite (H c Hc Hn) in Ho. discriminate.
Qed.

(** ** BLOC A of coco9.py *)

Lemma cell_or_nan_side_cell (c : string) (r : option row) :
  Blocks9.cell_or_nan c r = side_cell c r.
Proof.
  unfold Blocks9.cell_or_nan, side_cell, dict_mem, dict_get.
  destruct r as [r|]; [|reflexivity].
  now destruct (dict_lookup c r).
Qed.

Lemma eqb_append_l (p a b : string) :
  String.eqb (p ++ a) (p ++ b) = String.eqb a b.
Proof.
  induction p as [|x p IH]; simpl; [reflexivity|].
  now rewrite Ascii.eqb_refl.
Qed.

Lemma fill_cells_get (prefix : string) (r : option row) (cols : list string)
    (b : dict) (c : string) :
  dict_get (prefix ++ c) VNaN (Blocks9.fill_cells prefix r cols b)
  = if mem_str c cols then side_cell c r else dict_get (prefix ++ c) VNaN b.
Proof.
  unfold Blocks9.fill_cells. revert b.
  induction cols as [|c' cols IH]; intros b; simpl; [reflexivity|].
  rewrite IH. destruct (mem_str c cols) eqn:E.
  - now rewrite orb_true_r.
  - rewrite orb_false_r. destruct (String.eqb c c') eqn:Ec.
    + apply String.eqb_eq in Ec. subst c'.
      rewrite dict_get_set_same. apply cell_or_nan_side_cell.
    + apply dict_get_set_other. rewrite eqb_append_l.
      now rewrite String.eqb_sym.
Qed.

Lemma fill_cells_get_other (p p' : string) (r : option row) (cols : list string)
    (b : dict) (c : string) :
  (forall c', String.eqb (p' ++ c') (p ++ c) = false) ->
  dict_get (p ++ c) VNaN (Blocks9.fill_cells p' r cols b) = dict_get (p ++ c) VNaN b.
Proof.
  intros Hne. unfold Blocks9.fill_cells. revert b.
  induction cols as [|c' cols IH]; intros b; simpl; [reflexivity|].
  rewrite IH. now apply dict_get_set_other.
Qed.

(** The cells [check_missing_core] and [has_mismatch] read from BLOC A. *)
Lemma blockA_cells (r1 r2 : option row) (core1 core2 : list string) (c : string) :
  let A0 := Blocks9.fill_cells "Table2_" r2 core2
              (Blocks9.fill_cells "Table1_" r1 core1 [("BLOC A", VNone)]) in
  dict_get ("Table1_" ++ c) VNaN A0
  = (if mem_str c core1 then side_cell c r1 else VNaN)
  /\ dict_get ("Table2_" ++ c) VNaN A0
     = (if mem_str c core2 then side_cell c r2 else VNaN).
Proof.
  intros A0. subst A0. split.
  - rewrite fill_cells_get_other by reflexivity.
    rewrite fill_cells_get. reflexivity.
  - rewrite fill_cells_get. destruct (mem_str c core2); [reflexivity|].
    rewrite fill_cells_get_other by reflexivity. reflexivity.
Qed.

Lemma missing_in_cells (prefix : string) (block : dict) (cols : list string)
    (r : option row) :
  (forall c, In c cols -> dict_get (prefix ++ c) VNaN block = side_cell c r) ->
  Blocks9.missing_in prefix block cols = filter (fun c => isna (side_cell c r)) cols.
Proof.
  intros H. unfold Blocks9.missing_in. apply filter_ext_in.
  intros c Hc. now rewrite H.
Qed.

Lemma has_mismatch_cells (P : Pandas) (block : dict) (cols1 cols2 : list string)
    (r1 r2 : option row) :
  (forall c, In c cols1 -> dict_get ("Table1_" ++ c) VNaN block = side_cell c r1) ->
  (forall c, In c cols2 -> dict_get ("Table2_" ++ c) VNaN block = side_cell c r2) ->
  Blocks9.has_mismatch P block cols1 cols2 "Table1_" "Table2_"
  = filter (mismatch_field P r1 r2 cols2) cols1.
Proof.
  intros H1 H2. unfold Blocks9.has_mismatch. apply filter_ext_in.
  intros c Hc. unfold mismatch_field.
  destruct (mem_str c cols2) eqn:E; [|reflexivity]. cbv zeta. cbn [andb].
  rewrite H1 by exact Hc. rewrite H2 by now apply mem_str_In.
  unfold field_outcome, notna.
  destruct (isna (side_cell c r1)), (isna (side_cell c r2)); simpl; try reflexivity.
  now destruct (String.eqb _ _).
Qed.

Lemma set_comments_lookup (k1 k2 k3 mt nmt : string)
    (m : list string * list string) (mm : list string) (b : dict) :
  String.eqb k2 k1 = false -> String.eqb k3 k1 = false -> String.eqb k3 k2 = false ->
  let out := Blocks9.set_comments k1 k2 k3 mt nmt m mm b in
  dict_lookup k1 out
  = Some (VStr (if Blocks9.nonempty (fst m) || Blocks9.nonempty (snd m) then mt
                else if Blocks9.nonempty mm then "GAP" else "MATCH"))
  /\ dict_lookup k3 out
     = Some (VStr (if Blocks9.nonempty mm
                   then "Mismatched columns: " ++ join ", " mm
                   else "No mismatch")).
Proof.
  intros H21 H31 H32 out. subst out. unfold Blocks9.set_comments.
  destruct m as [m1 m2]. simpl fst. simpl snd. split.
  - rewrite dict_lookup_set_other by exact H31.
    rewrite dict_lookup_set_other by exact H21.
    apply dict_lookup_set_same.
  - apply dict_lookup_set_same.
Qed.

(** The verdict of BLOC A, in terms of the cells of the two rows. *)
Lemma build_blockA_verdict (P : Pandas) (core1 core2 : list string)
    (r1 r2 : option row) :
  let m1 := filter (fun c => isna (side_cell c r1)) core1 in
  let m2 := filter (fun c => isna (side_cell c r2)) core2 in
  let mm := filter (mismatch_field P r1 r2 core2) core1 in
  let A := Blocks9.build_blockA P core1 core2 r1 r2 in
  dict_lookup "CommentA_1" A
  = Some (VStr (if Blocks9.nonempty m1 || Blocks9.nonempty m2
                then "Missing Core Data"
                else if Blocks9.nonempty mm then "GAP" else "MATCH"))
  /\ dict_lookup "CommentA_3" A
     = Some (VStr (if Blocks9.nonempty mm
                   then "Mismatched columns: " ++ join ", " mm
                   else "No mismatch")).
Proof.
  intros m1 m2 mm A. subst A. unfold Blocks9.build_blockA. cbv zeta.
  set (A0 := Blocks9.fill_cells "Table2_" r2 core2 _).
  assert (H1 : forall c, In c core1 -> dict_get ("Table1_" ++ c) VNaN A0 = side_cell c r1).
  { intros c Hc. subst A0. rewrite (proj1 (blockA_cells r1 r2 core1 core2 c)).
    apply mem_str_In in Hc. now rewrite Hc. }
  assert (H2 : forall c, In c core2 -> dict_get ("Table2_" ++ c) VNaN A0 = side_cell c r2).
  { intros c Hc. subst A0. rewrite (proj2 (blockA_cells r1 r2 core1 core2 c)).
    apply mem_str_In in Hc. now rewrite Hc. }
  unfold Blocks9.check_missing_core.
  rewrite (missing_in_cells "Table1_" A0 core1 r1 H1).
  rewrite (missing_in_cells "Table2_" A0 core2 r2 H2).
  rewrite (has_mismatch_cells P A0 core1 core2 r1 r2 H1 H2).
  apply set_comments_lookup; reflexivity.
Qed.

Lemma nonempty_filter_false {A : Type} (f : A -> bool) (l : list A) :
  Blocks9.nonempty (filter f l) = false <-> forall x, In x l -> f x = false.
Proof.
  induction l as [|x l IH]; simpl.
  - split; [intros _ y [] | reflexivity].
  - destruct (f x) eqn:E; simpl.
    + split; [discriminate|]. intros H. rewrite (H x) in E by now left. discriminate.
    + rewrite IH. split.
      * intros H y [<-|Hy]; [exact E | now apply H].
      * intros H y Hy. apply H. now right.
Qed.

(** ** BLOC 1 and BLOC 3 of coco21.py *)

Lemma build_block1_result (P : Pandas) (row1 row2 : option row) (m : bool)
    (n1 n2 : value) :
  Blocks21.item_or_nan "Noel" row1 = Ok n1 ->
  Blocks21.item_or_nan "Noel" row2 = Ok n2 ->
  Blocks21.build_block1 P row1 row2 m
  = Ok [ ("BLOC 1", VNone);
         ("Table1_Noel", n1);
         ("Table1_Daytona", side_cell "Daytona" row1);
         ("Table1_Elastic Daytona", side_cell "Elastic Daytona" row1);
         ("Table1_Status", side_cell "Status" row1);
         ("Table2_Noel", n2);
         ("Table2_Daytona", side_cell "Daytona" row2);
         ("Table2_Elastic Daytona", side_cell "Elastic Daytona" row2);
         ("Table2_Status", side_cell "Status" row2);
         ("Comment1_B1",
          VStr (join ", "
                  (app (if notna (side_cell "Status" row1)
                        then ["Table1 " ++ py_str P (side_cell "Status" row1)] else [])
                       (if notna (side_cell "Status" row2)
                        then ["Table2 " ++ py_str P (side_cell "Status" row2)] else []))));
         ("Comment2_B1",
          VStr (if m then "many-to-many" else Blocks21.presence_comment row1 row2)) ].
Proof.
  intros H1 H2. unfold Blocks21.build_block1. rewrite H1, H2. reflexivity.
Qed.

Lemma build_block1_ok (P : Pandas) (row1 row2 : option row) (m : bool) (b1 : dict) :
  Blocks21.build_block1 P row1 row2 m = Ok b1 ->
  exists n1 n2,
    Blocks21.item_or_nan "Noel" row1 = Ok n1
    /\ Blocks21.item_or_nan "Noel" row2 = Ok n2.
Proof.
  unfold Blocks21.build_block1. intros H.
  destruct (Blocks21.item_or_nan "Noel" row1) as [n1|]; [|discriminate].
  destruct (Blocks21.item_or_nan "Noel" row2) as [n2|]; [|discriminate].
  eauto.
Qed.

(** ** What [main] returns *)

Lemma group_rows21_Forall2 (P : Pandas) (t1 t2 : DataFrame) (k : string)
    (ys : list Main21.OutputRow) :
  Main21.group_rows P t1 t2 k = Ok ys ->
  Forall2 (fun p o => Main21.output_row P (Main21.many_to_many t2 (key p)) (sides p)
                      = Ok o)
          (group_of t1 t2 k) ys.
Proof.
  unfold Main21.group_rows, group_of. intros H.
  apply mapM_ok_Forall2 in H. apply Forall2_map_l. exact H.
Qed.

Lemma main21_inv (P : Pandas) (d1 d2 : DataFrame) (out : list Main21.OutputRow) :
  Main21.main P d1 d2 = Ok out ->
  exists t1 t2,
    Main21.enrich P d1 = Ok t1 /\ Main21.enrich P d2 = Ok t2
    /\ Forall2 (fun p o =>
                  Main21.output_row P (Main21.many_to_many t2 (key p)) (sides p) = Ok o)
               (keyed_pairs t1 t2) out.
Proof.
  unfold Main21.main. intros H.
  apply bind_ok in H as (a1 & Ha1 & H).
  apply bind_ok in H as (a2 & Ha2 & H).
  apply bind_ok in H as (t1 & Ht1 & H).
  apply bind_ok in H as (t2 & Ht2 & H).
  apply bind_ok in H as (per_key & Hk & H).
  inversion H; subst out.
  exists t1, t2. unfold Main21.enrich. rewrite Ha1, Ha2. simpl.
  split; [exact Ht1|]. split; [exact Ht2|].
  unfold keyed_pairs. apply Forall2_flat_map.
  apply mapM_ok_Forall2 in Hk.
  eapply Forall2_impl; [|exact Hk].
  intros k ys Hys. now apply group_rows21_Forall2.
Qed.

Lemma group_rows9_Forall2 (P : Pandas) (c1 c2 : list string) (t1 t2 : DataFrame)
    (k : string) (ys : list Main9.OutputRow) :
  Main9.group_rows P c1 c2 t1 t2 k = Ok ys ->
  Forall2 (fun p o => Main9.output_row P c1 c2 (index p) (sides p) = Ok o)
          (group_of t1 t2 k) ys.
Proof.
  unfold Main9.group_rows, group_of. intros H.
  apply mapM_ok_Forall2 in H. apply Forall2_map_l. exact H.
Qed.

Lemma main9_inv (P : Pandas) (d1 d2 : DataFrame) (out : list Main9.OutputRow) :
  Main9.main P d1 d2 = Ok out ->
  exists t1 t2,
    Main9.enrich P d1 = Ok t1 /\ Main9.enrich P d2 = Ok t2
    /\ Forall2 (fun p o =>
                  Main9.output_row P (columns d1) (columns d2) (index p) (sides p) = Ok o)
               (keyed_pairs t1 t2) out.
Proof.
  unfold Main9.main. intros H.
  apply bind_ok in H as (a1 & Ha1 & H).
  apply bind_ok in H as (a2 & Ha2 & H).
  apply bind_ok in H as (t1 & Ht1 & H).
  apply bind_ok in H as (t2 & Ht2 & H).
  apply bind_ok in H as (per_key & Hk & H).
  inversion H; subst out.
  exists t1, t2. unfold Main9.enrich. rewrite Ha1, Ha2. simpl.
  split; [exact Ht1|]. split; [exact Ht2|].
  unfold keyed_pairs. apply Forall2_flat_map.
  apply mapM_ok_Forall2 in Hk.
  eapply Forall2_impl; [|exact Hk].
  intros k ys Hys. now apply group_rows9_Forall2.
Qed.

Lemma enrich9_columns (P : Pandas) (df t : DataFrame) :
  Main9.enrich P df = Ok t -> mem_str "Noel" (columns df) = true /\ rows df <> [].
Proof.
  unfold Main9.enrich. intros H. apply bind_ok in H as (t0 & H0 & _).
  apply add_noel_columns_ok in H0. tauto.
Qed.

Lemma enrich21_keyed (P : Pandas) (df t : DataFrame) :
  Main21.enrich P df = Ok t -> keyed_frame t.
Proof.
  intros H r k Hr Hk. rewrite (enrich21_rows P df t H) in Hr.
  apply in_map_iff in Hr as (r0 & <- & _). now apply enriched_key_noel with k.
Qed.

Lemma enrich9_keyed (P : Pandas) (df t : DataFrame) :
  Main9.enrich P df = Ok t -> keyed_frame t.
Proof.
  intros H r k Hr Hk. rewrite (enrich9_rows P df t H) in Hr.
  apply in_map_iff in Hr as (r0 & <- & _). now apply enriched_key_noel with k.
Qed.

Lemma keyed_side_noel (t1 t2 : DataFrame) (p : AlignedPair) :
  keyed_frame t1 -> keyed_frame t2 -> In p (keyed_pairs t1 t2) ->
  (forall r, sideA p = Some r ->
     exists v, dict_lookup "Noel" r = Some v /\ isna v = false)
  /\ (forall r, sideB p = Some r ->
        exists v, dict_lookup "Noel" r = Some v /\ isna v = false).
Proof.
  intros K1 K2 Hp. apply keyed_pairs_In in Hp as (_ & _ & Hs).
  unfold sideA, sideB. rewrite Hs. split; intros r Hr.
  - apply pair_at_sideA in Hr as (Hin & Hk). eapply K1; eassumption.
  - apply pair_at_sideB in Hr as (Hin & Hk). eapply K2; eassumption.
Qed.

(** In the pairs of a run the identity is missing on a side exactly when
    the record of that side is absent. *)
Lemma keyed_identity_missing (t1 t2 : DataFrame) (p : AlignedPair) :
  keyed_frame t1 -> keyed_frame t2 -> In p (keyed_pairs t1 t2) ->
  identity_missing (sideA p) (sideB p) = true <-> sideA p = None \/ sideB p = None.
Proof.
  intros K1 K2 Hp.
  destruct (keyed_side_noel t1 t2 p K1 K2 Hp) as (HA & HB).
  unfold identity_missing, side_cell, dict_get.
  destruct (sideA p) as [ra|], (sideB p) as [rb|]; simpl.
  - destruct (HA ra eq_refl) as (va & -> & ->).
    destruct (HB rb eq_refl) as (vb & -> & ->).
    simpl. split; [discriminate | intros [H|H]; discriminate].
  - rewrite orb_true_r. split; auto.
  - split; auto.
  - split; auto.
Qed.

(** ** [main] returns on non-empty sources *)

Lemma add_status21_ok (P : Pandas) (df : DataFrame) :
  exists t, Main21.add_status P df = Ok t.
Proof. unfold Main21.add_status. rewrite add_status_rows. eauto. Qed.

Lemma enrich21_total (P : Pandas) (df : DataFrame) :
  mem_str "Noel" (columns df) = true -> rows df <> [] ->
  exists t, Main21.enrich P df = Ok t.
Proof.
  intros Hm Hne. unfold Main21.enrich.
  destruct (add_noel_columns_total P df Hm Hne) as (t0 & ->). simpl.
  apply add_status21_ok.
Qed.

Lemma main21_unfold (P : Pandas) (d1 d2 : DataFrame) :
  Main21.main P d1 d2
  = (t1 <- Main21.enrich P d1 ;;
     t2 <- Main21.enrich P d2 ;;
     per_key <- mapM (Main21.group_rows P t1 t2) (all_noels t1 t2) ;;
     Ok (concat per_key)).
Proof.
  unfold Main21.main, Main21.enrich.
  destruct (add_noel_columns P d1) as [a1|e1]; simpl; [|reflexivity].
  destruct (add_status21_ok P a1) as (t1 & E1).
  destruct (add_noel_columns P d2) as [a2|e2]; simpl.
  - now rewrite E1.
  - now rewrite E1.
Qed.

Lemma item_or_nan_keyed (side : option row) :
  (forall r, side = Some r -> exists v, dict_lookup "Noel" r = Some v /\ isna v = false) ->
  exists n, Blocks21.item_or_nan "Noel" side = Ok n /\ n = side_cell "Noel" side.
Proof.
  intros H. destruct side as [r|]; simpl.
  - destruct (H r eq_refl) as (v & Hv & _).
    unfold dict_getitem, dict_get. rewrite Hv. eauto.
  - eauto.
Qed.

Lemma output_row21_total (P : Pandas) (t1 t2 : DataFrame) (p : AlignedPair) (m : bool) :
  keyed_frame t1 -> keyed_frame t2 -> In p (keyed_pairs t1 t2) ->
  exists o, Main21.output_row P m (sides p) = Ok o.
Proof.
  intros K1 K2 Hp.
  destruct (keyed_side_noel t1 t2 p K1 K2 Hp) as (HA & HB).
  unfold sideA, sideB in *. destruct (sides p) as [row1 row2]. simpl in *.
  destruct (item_or_nan_keyed row1 HA) as (n1 & E1 & _).
  destruct (item_or_nan_keyed row2 HB) as (n2 & E2 & _).
  rewrite (build_block1_result P row1 row2 m n1 n2 E1 E2).
  destruct (build_block2_result P row1 row2) as (c1 & c2 & c3 & E & _).
  rewrite E. simpl. eauto.
Qed.

(** Every key group of a run of [coco21.py] is built without an exception. *)
Lemma group_rows21_total (P : Pandas) (t1 t2 : DataFrame) (k : string) :
  keyed_frame t1 -> keyed_frame t2 -> In k (all_noels t1 t2) ->
  exists ys, Main21.group_rows P t1 t2 k = Ok ys.
Proof.
  intros K1 K2 Hk. unfold Main21.group_rows. apply mapM_total.
  intros i Hi. apply in_seq in Hi.
  apply (output_row21_total P t1 t2
           {| key := k; index := i; sides := pair_at t1 t2 k i |}
           (Main21.many_to_many t2 k) K1 K2).
  apply keyed_pairs_In. simpl. repeat split; [assumption | lia].
Qed.

(** With at least one record in each source and a column "Noel" in each,
    [main] of [coco21.py] returns its rows. *)
Lemma main21_total (P : Pandas) (d1 d2 : DataFrame) :
  mem_str "Noel" (columns d1) = true -> rows d1 <> [] ->
  mem_str "Noel" (columns d2) = true -> rows d2 <> [] ->
  exists out, Main21.main P d1 d2 = Ok out.
Proof.
  intros M1 N1 M2 N2. rewrite main21_unfold.
  destruct (enrich21_total P d1 M1 N1) as (t1 & E1).
  destruct (enrich21_total P d2 M2 N2) as (t2 & E2).
  rewrite E1, E2. simpl.
  destruct (mapM_total (Main21.group_rows P t1 t2) (all_noels t1 t2)) as (pk & Epk).
  - intros k Hk. apply group_rows21_total; try assumption.
    + eapply enrich21_keyed; eassumption.
    + eapply enrich21_keyed; eassumption.
  - rewrite Epk. simpl. eauto.
Qed.

(** ** An empty source *)

(** C8, where the code departs from it.  A source sheet that has its header
    and no data row is a well-formed input, and on it both scripts raise:
    the two key columns are assigned by unpacking the unzipped results of
    [split_noel], and with no record there is nothing to unpack.  The same
    happens when the second source is the empty one. *)
Theorem C8_empty_source_raises (P : Pandas) (other : DataFrame) :
  let empty := {| columns := ["Noel"; "Daytona"; "Elastic Daytona"; "Land"];
                  rows := [] |} in
  let unpack := ValueError "not enough values to unpack (expected 2, got 0)" in
  Main21.main P empty other = Raise unpack
  /\ Main9.main P empty other = Raise unpack
  /\ (is_ok (add_noel_columns P other) = true ->
      Main21.main P other empty = Raise unpack
      /\ Main9.main P other empty = Raise unpack).
Proof.
  intros empty unpack. split; [reflexivity|]. split; [reflexivity|].
  intros Hok. unfold Main21.main, Main9.main.
  destruct (add_noel_columns P other) as [t|e]; [|discriminate].
  split; reflexivity.
Qed.

(** The second half of the statement above, on a concrete pair of sheets. *)
Lemma C8_empty_source_raises_witness :
  let A := Samples.frame ["Noel"; "Daytona"] [[VStr "Z_1"; VStr "open"]] in
  let empty := {| columns := ["Noel"; "Daytona"; "Elastic Daytona"; "Land"];
                  rows := [] |} in
  Main21.main Samples.P0 A empty
  = Raise (ValueError "not enough values to unpack (expected 2, got 0)").
Proof.
  intros A empty.
  apply (proj2 (proj2 (C8_empty_source_raises Samples.P0 A))).
  reflexivity.
Defined.

(** ** Pairing completeness *)




(** ** The many-to-many comment *)

Lemma Forall2_with_In {A B : Type} (R : A -> B -> Prop) (l : list A) (out : list B) :
  Forall2 R l out -> Forall2 (fun x y => In x l /\ R x y) l out.
Proof.
  induction 1 as [|x y l out HR H IH]; constructor.
  - split; [now left | exact HR].
  - eapply Forall2_impl; [|exact IH]. intros a b (Ha & Hab). split; [now right | exact Hab].
Qed.

Lemma build_block3_no_comment (row2 : option row) (k : string) :
  In k ["Comment1_B1"; "Comment2_B1"; "Comment2_B2"; "Comment3_B2"] ->
  dict_lookup k (Blocks21.build_block3 row2 Blocks21.block3_cols) = None.
Proof.
  simpl. intros [<-|[<-|[<-|[<-|[]]]]]; destruct row2; reflexivity.
Qed.

Lemma output_row21_parts (P : Pandas) (m : bool) (row1 row2 : option row)
    (o : Main21.OutputRow) :
  Main21.output_row P m (row1, row2) = Ok o ->
  exists b1 b2,
    Blocks21.build_block1 P row1 row2 m = Ok b1
    /\ Blocks21.build_block2 P row1 row2 = Ok b2
    /\ Main21.block1 o = b1 /\ Main21.block2 o = b2
    /\ Main21.block3 o = Blocks21.build_block3 row2 Blocks21.block3_cols
    /\ Main21.combined o
       = dict_merge (dict_merge b1 b2)
                    (Blocks21.build_block3 row2 Blocks21.block3_cols).
Proof.
  unfold Main21.output_row. intros H.
  apply bind_ok in H as (b1 & E1 & H).
  apply bind_ok in H as (b2 & E2 & H).
  inversion H; subst o; simpl. exists b1, b2. repeat split; assumption.
Qed.

Lemma block1_comment2 (P : Pandas) (row1 row2 : option row) (m : bool) (b1 : dict) :
  Blocks21.build_block1 P row1 row2 m = Ok b1 ->
  dict_lookup "Comment2_B1" b1
  = Some (VStr (if m then "many-to-many" else Blocks21.presence_comment row1 row2)).
Proof.
  intros H. destruct (build_block1_ok P row1 row2 m b1 H) as (n1 & n2 & E1 & E2).
  rewrite (build_block1_result P row1 row2 m n1 n2 E1 E2) in H.
  inversion H. reflexivity.
Qed.

Lemma block2_no_block1_comment (P : Pandas) (row1 row2 : option row) (b2 : dict)
    (k : string) :
  Blocks21.build_block2 P row1 row2 = Ok b2 ->
  In k ["Comment1_B1"; "Comment2_B1"] ->
  dict_lookup k b2 = None.
Proof.
  intros H Hk. destruct (build_block2_result P row1 row2) as (c1 & c2 & c3 & E & _).
  rewrite E in H. inversion H. simpl in Hk.
  destruct Hk as [<-|[<-|[]]]; reflexivity.
Qed.

(** C3.  When the many-to-many flag is passed, [build_block1] writes the
    fixed comment "many-to-many" whatever the two sides are, in place of
    "missing in Table1" / "missing in Table2" / "one-one"; in a run, every
    row of a flagged key group carries it, in BLOC 1 and in the combined
    row, whatever BLOC 2 says of the fields. *)
Theorem C3_many_to_many_overrides (P : Pandas) (d1 d2 : DataFrame) :
  (forall row1 row2 b1,
     Blocks21.build_block1 P row1 row2 true = Ok b1 ->
     dict_lookup "Comment2_B1" b1 = Some (VStr "many-to-many"))
  /\ (forall out, Main21.main P d1 d2 = Ok out ->
        exists t1 t2,
          Main21.enrich P d1 = Ok t1 /\ Main21.enrich P d2 = Ok t2
          /\ Forall2 (fun p o =>
                        Main21.many_to_many t2 (key p) = true ->
                        dict_lookup "Comment2_B1" (Main21.block1 o)
                        = Some (VStr "many-to-many")
                        /\ dict_lookup "Comment2_B1" (Main21.combined o)
                           = Some (VStr "many-to-many"))
                     (keyed_pairs t1 t2) out).
Proof.
  split.
  - intros row1 row2 b1 H. now rewrite (block1_comment2 P row1 row2 true b1 H).
  - intros out H. apply main21_inv in H as (t1 & t2 & E1 & E2 & HF).
    exists t1, t2. split; [exact E1|]. split; [exact E2|].
    eapply Forall2_impl; [|exact HF].
    intros p o Ho Hm. cbv beta in Ho. rewrite Hm in Ho.
    destruct (sides p) as [row1 row2].
    apply output_row21_parts in Ho as (b1 & b2 & B1 & B2 & -> & _ & _ & ->).
    assert (Hc : dict_lookup "Comment2_B1" b1 = Some (VStr "many-to-many"))
      by now rewrite (block1_comment2 P row1 row2 true b1 B1).
    split; [exact Hc|].
    rewrite dict_lookup_merge_absent
      by (apply build_block3_no_comment; simpl; tauto).
    rewrite dict_lookup_merge_absent
      by (apply (block2_no_block1_comment P row1 row2 b2); [exact B2 | simpl; tauto]).
    exact Hc.
Qed.

(** A pair whose A side is absent, built with the flag set: the comment is
    "many-to-many", not "missing in Table1". *)
Lemma C3_many_to_many_overrides_witness :
  let row2 := [("Noel", VStr "X_002"); ("Daytona", VStr "b")] in
  exists b1,
    Blocks21.build_block1 Samples.P0 None (Some row2) true = Ok b1
    /\ dict_lookup "Comment2_B1" b1 = Some (VStr "many-to-many")
    /\ Blocks21.presence_comment None (Some row2) = "missing in Table1".
Proof.
  intros row2. eexists. split; [reflexivity|]. split; [|reflexivity].
  apply (proj1 (C3_many_to_many_overrides Samples.P0
                  (Samples.frame [] []) (Samples.frame [] []))
               None (Some row2)).
  reflexivity.
Defined.

(** The scenario of the specification: one Source-A record "X" against two
    Source-B records "X_001" and "X_002".  Both rows say many-to-many, the
    second one with its A side absent. *)
Example many_to_many_scenario :
  let A := Samples.frame ["Noel"; "Daytona"] [[VStr "X"; VStr "a"]] in
  let B := Samples.frame ["Noel"; "Daytona"]
             [[VStr "X_001"; VStr "a"]; [VStr "X_002"; VStr "b"]] in
  exists out,
    Main21.main Samples.P0 A B = Ok out
    /\ map (fun o => dict_lookup "Comment2_B1" (Main21.combined o)) out
       = [Some (VStr "many-to-many"); Some (VStr "many-to-many")]
    /\ map (fun o => dict_lookup "Table1_Noel" (Main21.block1 o)) out
       = [Some (VStr "X"); Some VNaN].
Proof.
  intros A B. eexists. split; [vm_compute; reflexivity|].
  split; reflexivity.
Qed.

(** ** Block aggregates *)

Lemma block2_comment2 (row1 row2 : option row) (c1 c2 c3 : string) :
  dict_lookup "Comment2_B2"
    (app (block2_cells row1 row2)
         [("Comment1_B2", VStr c1); ("Comment2_B2", VStr c2); ("Comment3_B2", VStr c3)])
  = Some (VStr c2)
  /\ dict_lookup "Comment3_B2"
       (app (block2_cells row1 row2)
            [("Comment1_B2", VStr c1); ("Comment2_B2", VStr c2); ("Comment3_B2", VStr c3)])
     = Some (VStr c3).
Proof. split; reflexivity. Qed.

Lemma mismatch_field_none (P : Pandas) (r1 r2 : option row) (cols1 cols2 : list string) :
  Blocks9.nonempty (filter (mismatch_field P r1 r2 cols2) cols1) = false
  <-> forall c, In c cols1 -> In c cols2 ->
        field_outcome P (side_cell c r1) (side_cell c r2) <> Mismatch.
Proof.
  rewrite nonempty_filter_false. unfold mismatch_field. split.
  - intros H c H1 H2 E. specialize (H c H1).
    apply mem_str_In in H2. rewrite H2, E in H. discriminate.
  - intros H c H1. destruct (mem_str c cols2) eqn:E; [|reflexivity].
    apply mem_str_In in E. specialize (H c H1 E).
    destruct (field_outcome _ _ _); try reflexivity. now elim H.
Qed.

(** C4, as the code has it.  For a pair whose identity is present on both
    sides: in [coco21.py] the aggregate of BLOC 2 is "shared dimensions
    MATCH" if and only if no shared field other than the identity has
    outcome Mismatch, MissingInA or MissingInB, and "shared dimensions GAP"
    otherwise; in [coco9.py] the aggregate of BLOC A is "MATCH" if and only
    if no core cell of either record is null and no core column the two
    tables share, the identity included, is a Mismatch. *)
Theorem C4_block_aggregate (P : Pandas) (row1 row2 : option row)
    (core1 core2 : list string) :
  identity_missing row1 row2 = false ->
  (exists b2,
     Blocks21.build_block2 P row1 row2 = Ok b2
     /\ (dict_lookup "Comment2_B2" b2 = Some (VStr "shared dimensions MATCH")
         \/ dict_lookup "Comment2_B2" b2 = Some (VStr "shared dimensions GAP"))
     /\ (dict_lookup "Comment2_B2" b2 = Some (VStr "shared dimensions MATCH")
         <-> forall c, In c Blocks21.shared_cols -> c <> "Noel" ->
               offending (field_outcome P (side_cell c row1) (side_cell c row2))
               = false))
  /\ (dict_lookup "CommentA_1" (Blocks9.build_blockA P core1 core2 row1 row2)
      = Some (VStr "MATCH")
      <-> (forall c, In c core1 -> isna (side_cell c row1) = false)
          /\ (forall c, In c core2 -> isna (side_cell c row2) = false)
          /\ (forall c, In c core1 -> In c core2 ->
                field_outcome P (side_cell c row1) (side_cell c row2) <> Mismatch)).
Proof.
  intros Hid. split.
  - destruct (build_block2_result P row1 row2)
      as (c1 & c2 & c3 & E & _ & Hgap & Hmatch).
    eexists. split; [exact E|].
    destruct (block2_comment2 row1 row2 c1 c2 c3) as (L2 & _). rewrite L2.
    destruct (existsb (offending_field P row1 row2) Blocks21.shared_cols) eqn:Ex.
    + rewrite (Hgap Hid eq_refl). split; [now right|].
      split; [discriminate|].
      intros H. apply not_offending_all in H. congruence.
    + destruct (Hmatch Hid eq_refl) as (-> & _). split; [now left|].
      split; [|reflexivity]. intros _. now apply not_offending_all.
  - destruct (build_blockA_verdict P core1 core2 row1 row2) as (L1 & _).
    rewrite L1.
    rewrite <- mismatch_field_none.
    rewrite <- (nonempty_filter_false (fun c => isna (side_cell c row1)) core1).
    rewrite <- (nonempty_filter_false (fun c => isna (side_cell c row2)) core2).
    destruct (Blocks9.nonempty (filter (fun c => isna (side_cell c row1)) core1));
      simpl; [split; [discriminate | intros (H & _); discriminate]|].
    destruct (Blocks9.nonempty (filter (fun c => isna (side_cell c row2)) core2));
      simpl; [split; [discriminate | intros (_ & H & _); discriminate]|].
    destruct (Blocks9.nonempty (filter (mismatch_field P row1 row2 core2) core1));
      simpl; [split; [discriminate | intros (_ & _ & H); discriminate]|].
    split; [intros _; repeat split | reflexivity].
Qed.

(** The scenario of the specification: key "Y" with the same field on both
    sides gives the aggregate MATCH, in both scripts. *)
Lemma C4_block_aggregate_witness :
  let r := [("Noel", VStr "Y"); ("Daytona", VStr "foo")] in
  identity_missing (Some r) (Some r) = false
  /\ (exists b2,
        Blocks21.build_block2 Samples.P0 (Some r) (Some r) = Ok b2
        /\ dict_lookup "Comment2_B2" b2 = Some (VStr "shared dimensions MATCH"))
  /\ dict_lookup "CommentA_1"
       (Blocks9.build_blockA Samples.P0 ["Noel"; "Daytona"] ["Noel"; "Daytona"]
          (Some r) (Some r))
     = Some (VStr "MATCH").
Proof.
  intros r. split; [reflexivity|].
  destruct (C4_block_aggregate Samples.P0 (Some r) (Some r)
              ["Noel"; "Daytona"] ["Noel"; "Daytona"] eq_refl)
    as ((b2 & E & _ & Hiff) & HA).
  split.
  - exists b2. split; [exact E|]. apply Hiff.
    intros c Hc _. simpl in Hc.
    repeat (destruct Hc as [<-|Hc]; [reflexivity|]). contradiction.
  - apply HA. split; [|split].
    + intros c [<-|[<-|[]]]; reflexivity.
    + intros c [<-|[<-|[]]]; reflexivity.
    + intros c [<-|[<-|[]]] _; discriminate.
Defined.

(** C4 as stated fails on [coco9.py]: both records carry the identity "Y",
    the field "Daytona" is missing on both sides and "Land" matches, so no
    field other than the identity is a Mismatch, MissingInA or MissingInB;
    the aggregate of BLOC A is "Missing Core Data", not MATCH. *)
Lemma C4_counterexample_coco9_both_missing :
  let A := Samples.frame ["Noel"; "Daytona"; "Land"] [[VStr "Y"; VNaN; VStr "01"]] in
  let B := Samples.frame ["Noel"; "Daytona"; "Land"] [[VStr "Y"; VNaN; VStr "01"]] in
  exists t1 t2 r1 r2 o,
    Main9.enrich Samples.P0 A = Ok t1 /\ Main9.enrich Samples.P0 B = Ok t2
    /\ aligned_pairs t1 t2 = [(Some r1, Some r2)]
    /\ identity_missing (Some r1) (Some r2) = false
    /\ existsb (offending_field Samples.P0 (Some r1) (Some r2)) Blocks9.core_columns
       = false
    /\ field_outcome Samples.P0 (side_cell "Daytona" (Some r1))
                                (side_cell "Daytona" (Some r2)) = BothMissing
    /\ Main9.main Samples.P0 A B = Ok [o]
    /\ dict_lookup "CommentA_1" (Main9.blockA o) = Some (VStr "Missing Core Data").
Proof.
  intros A B. do 5 eexists.
  split; [vm_compute; reflexivity|].
  split; [vm_compute; reflexivity|].
  split; [vm_compute; reflexivity|].
  split; [vm_compute; reflexivity|].
  split; [vm_compute; reflexivity|].
  split; [vm_compute; reflexivity|].
  split; [vm_compute; reflexivity|].
  vm_compute. reflexivity.
Qed.

Lemma set_comments_lookup_missing (k1 k2 k3 mt nmt : string)
    (m : list string * list string) (mm : list string) (b : dict) :
  String.eqb k3 k2 = false ->
  dict_lookup k2 (Blocks9.set_comments k1 k2 k3 mt nmt m mm b)
  = Some (VStr (if Blocks9.nonempty (fst m) || Blocks9.nonempty (snd m)
                then "Table1 missing: " ++ join ", " (fst m) ++ Blocks9.newline
                     ++ "Table2 missing: " ++ join ", " (snd m)
                else nmt)).
Proof.
  intros H32. unfold Blocks9.set_comments.
  destruct m as [m1 m2]. simpl fst. simpl snd.
  rewrite dict_lookup_set_other by exact H32.
  apply dict_lookup_set_same.
Qed.

(** The list of missing columns BLOC A reports. *)
Lemma build_blockA_missing (P : Pandas) (core1 core2 : list string)
    (r1 r2 : option row) :
  let m1 := filter (fun c => isna (side_cell c r1)) core1 in
  let m2 := filter (fun c => isna (side_cell c r2)) core2 in
  dict_lookup "CommentA_2" (Blocks9.build_blockA P core1 core2 r1 r2)
  = Some (VStr (if Blocks9.nonempty m1 || Blocks9.nonempty m2
                then "Table1 missing: " ++ join ", " m1 ++ Blocks9.newline
                     ++ "Table2 missing: " ++ join ", " m2
                else "No missing in core")).
Proof.
  intros m1 m2. unfold Blocks9.build_blockA. cbv zeta.
  set (A0 := Blocks9.fill_cells "Table2_" r2 core2 _).
  assert (H1 : forall c, In c core1 -> dict_get ("Table1_" ++ c) VNaN A0 = side_cell c r1).
  { intros c Hc. subst A0. rewrite (proj1 (blockA_cells r1 r2 core1 core2 c)).
    apply mem_str_In in Hc. now rewrite Hc. }
  assert (H2 : forall c, In c core2 -> dict_get ("Table2_" ++ c) VNaN A0 = side_cell c r2).
  { intros c Hc. subst A0. rewrite (proj2 (blockA_cells r1 r2 core1 core2 c)).
    apply mem_str_In in Hc. now rewrite Hc. }
  unfold Blocks9.check_missing_core.
  rewrite (missing_in_cells "Table1_" A0 core1 r1 H1).
  rewrite (missing_in_cells "Table2_" A0 core2 r2 H2).
  rewrite set_comments_lookup_missing by reflexivity. reflexivity.
Qed.

Lemma filter_absent_side (cols : list string) :
  filter (fun c => isna (side_cell c None)) cols = cols.
Proof.
  induction cols as [|c cols IH]; simpl; [reflexivity | f_equal; exact IH].
Qed.

(** ** The identity guard *)

Lemma core_of_noel (cols : list string) :
  mem_str "Noel" cols = true -> In "Noel" (Main9.core_of cols).
Proof.
  intros H. unfold Main9.core_of. apply filter_In. split; [|exact H].
  simpl. now left.
Qed.

Lemma nonempty_In {A : Type} (x : A) (l : list A) :
  In x l -> Blocks9.nonempty l = true.
Proof. destruct l; [contradiction | reflexivity]. Qed.

Lemma blockA_absent_side (P : Pandas) (core1 core2 : list string)
    (r1 r2 : option row) :
  In "Noel" core1 -> In "Noel" core2 ->
  r1 = None \/ r2 = None ->
  dict_lookup "CommentA_1" (Blocks9.build_blockA P core1 core2 r1 r2)
  = Some (VStr "Missing Core Data")
  /\ dict_lookup "CommentA_2" (Blocks9.build_blockA P core1 core2 r1 r2)
     = Some (VStr ("Table1 missing: "
                   ++ join ", " (filter (fun c => isna (side_cell c r1)) core1)
                   ++ Blocks9.newline ++ "Table2 missing: "
                   ++ join ", " (filter (fun c => isna (side_cell c r2)) core2)))
  /\ dict_lookup "CommentA_3" (Blocks9.build_blockA P core1 core2 r1 r2)
     = Some (VStr "No mismatch").
Proof.
  intros N1 N2 Habs.
  destruct (build_blockA_verdict P core1 core2 r1 r2) as (L1 & L3).
  pose proof (build_blockA_missing P core1 core2 r1 r2) as L2. cbv zeta in L2.
  assert (Hmm : filter (mismatch_field P r1 r2 core2) core1 = []).
  { assert (H : Blocks9.nonempty (filter (mismatch_field P r1 r2 core2) core1) = false).
    { apply mismatch_field_none. intros c _ _.
      destruct Habs as [-> | ->]; unfold field_outcome; simpl.
      - destruct (isna (side_cell c r2)); discriminate.
      - destruct (isna (side_cell c r1)); discriminate. }
    destruct (filter (mismatch_field P r1 r2 core2) core1);
      [reflexivity | discriminate]. }
  assert (Hmiss : Blocks9.nonempty (filter (fun c => isna (side_cell c r1)) core1)
                  || Blocks9.nonempty (filter (fun c => isna (side_cell c r2)) core2)
                  = true).
  { destruct Habs as [-> | ->].
    - rewrite (nonempty_In "Noel"); [reflexivity|]. apply filter_In. now split.
    - rewrite (nonempty_In "Noel" (filter _ core2)); [apply orb_true_r|].
      apply filter_In. now split. }
  rewrite L1, L2, L3, Hmm, Hmiss. repeat split.
Qed.

Lemma output_row9_blockA (P : Pandas) (c1 c2 : list string) (i : nat)
    (r1 r2 : option row) (o : Main9.OutputRow) :
  Main9.output_row P c1 c2 i (r1, r2) = Ok o ->
  Main9.blockA o
  = Blocks9.build_blockA P (Main9.core_of c1) (Main9.core_of c2) r1 r2
  /\ Blocks9.build_blockB P r1 r2 i = Ok (Main9.blockB o).
Proof.
  unfold Main9.output_row. intros H.
  apply bind_ok in H as (b & Eb & H). inversion H; subst o; simpl. now split.
Qed.

(** C5, as the code has it.  When the identity is missing on a side, BLOC 2
    of [coco21.py] gets "N/A" both as its verdict and in place of its list
    of differing columns: no field is scanned.  BLOC A of [coco9.py] gets
    "Missing Core Data" and "No mismatch", no column being reported as
    mismatching, but its second comment still lists, table by table, the
    core columns whose cell is null: for an absent record, all of them.
    The first part holds of [build_block2] for any two sides, and so of
    every row of a run; the second of every row of a run, where a missing
    identity means an absent record. *)
Theorem C5_identity_guard (P : Pandas) (d1 d2 : DataFrame) :
  (forall row1 row2,
     identity_missing row1 row2 = true ->
     exists b2,
       Blocks21.build_block2 P row1 row2 = Ok b2
       /\ dict_lookup "Comment2_B2" b2 = Some (VStr "N/A")
       /\ dict_lookup "Comment3_B2" b2 = Some (VStr "N/A"))
  /\ (forall out, Main21.main P d1 d2 = Ok out ->
        exists t1 t2,
          Main21.enrich P d1 = Ok t1 /\ Main21.enrich P d2 = Ok t2
          /\ Forall2 (fun p o =>
                        identity_missing (sideA p) (sideB p) = true ->
                        dict_lookup "Comment2_B2" (Main21.block2 o) = Some (VStr "N/A")
                        /\ dict_lookup "Comment3_B2" (Main21.block2 o)
                           = Some (VStr "N/A"))
                     (keyed_pairs t1 t2) out)
  /\ (forall out, Main9.main P d1 d2 = Ok out ->
        exists t1 t2,
          Main9.enrich P d1 = Ok t1 /\ Main9.enrich P d2 = Ok t2
          /\ Forall2 (fun p o =>
                        identity_missing (sideA p) (sideB p) = true ->
                        (sideA p = None \/ sideB p = None)
                        /\ dict_lookup "CommentA_1" (Main9.blockA o)
                           = Some (VStr "Missing Core Data")
                        /\ dict_lookup "CommentA_3" (Main9.blockA o)
                           = Some (VStr "No mismatch")
                        /\ dict_lookup "CommentA_2" (Main9.blockA o)
                           = Some (VStr ("Table1 missing: "
                                 ++ join ", "
                                      (filter (fun c => isna (side_cell c (sideA p)))
                                              (Main9.core_of (columns d1)))
                                 ++ Blocks9.newline ++ "Table2 missing: "
                                 ++ join ", "
                                      (filter (fun c => isna (side_cell c (sideB p)))
                                              (Main9.core_of (columns d2)))))
                        /\ (sideA p = None ->
                            filter (fun c => isna (side_cell c (sideA p)))
                                   (Main9.core_of (columns d1))
                            = Main9.core_of (columns d1))
                        /\ (sideB p = None ->
                            filter (fun c => isna (side_cell c (sideB p)))
                                   (Main9.core_of (columns d2))
                            = Main9.core_of (columns d2)))
                     (keyed_pairs t1 t2) out).
Proof.
  assert (F : forall row1 row2,
     identity_missing row1 row2 = true ->
     exists b2,
       Blocks21.build_block2 P row1 row2 = Ok b2
       /\ dict_lookup "Comment2_B2" b2 = Some (VStr "N/A")
       /\ dict_lookup "Comment3_B2" b2 = Some (VStr "N/A")).
  { intros row1 row2 Hid.
    destruct (build_block2_result P row1 row2) as (c1 & c2 & c3 & E & Hna & _).
    destruct (Hna Hid) as (-> & ->).
    eexists. split; [exact E|]. apply block2_comment2. }
  split; [exact F|]. split.
  - intros out H. apply main21_inv in H as (t1 & t2 & E1 & E2 & HF).
    exists t1, t2. split; [exact E1|]. split; [exact E2|].
    eapply Forall2_impl; [|exact HF].
    intros p o Ho Hid. cbv beta in Ho. unfold sideA, sideB in Hid.
    destruct (sides p) as [row1 row2]. simpl in Hid.
    apply output_row21_parts in Ho as (b1 & b2 & _ & B2 & _ & -> & _).
    destruct (F row1 row2 Hid) as (b2' & B2' & L2 & L3).
    rewrite B2 in B2'. inversion B2'; subst b2'. now split.
  - intros out H. apply main9_inv in H as (t1 & t2 & E1 & E2 & HF).
    exists t1, t2. split; [exact E1|]. split; [exact E2|].
    apply Forall2_with_In in HF.
    eapply Forall2_impl; [|exact HF].
    intros p o (Hp & Ho) Hid. cbv beta in Ho.
    apply (keyed_identity_missing t1 t2 p) in Hid;
      [| eapply enrich9_keyed; eassumption | eapply enrich9_keyed; eassumption
       | exact Hp].
    split; [exact Hid|].
    unfold sideA, sideB in *.
    destruct (sides p) as [r1 r2]. simpl in *.
    apply output_row9_blockA in Ho as (-> & _).
    pose proof (core_of_noel _ (proj1 (enrich9_columns P d1 t1 E1))) as N1.
    pose proof (core_of_noel _ (proj1 (enrich9_columns P d2 t2 E2))) as N2.
    destruct (blockA_absent_side P _ _ r1 r2 N1 N2 Hid) as (L1 & L2 & L3).
    split; [exact L1|]. split; [exact L3|]. split; [exact L2|].
    split; intros ->; apply filter_absent_side.
Qed.

(** Key "Z" lives in Source A only: the identity is missing on the B side
    and BLOC 2 says "N/A" twice. *)
Lemma C5_identity_guard_witness :
  let r := [("Noel", VStr "Z"); ("Daytona", VStr "foo")] in
  identity_missing (Some r) None = true
  /\ exists b2,
       Blocks21.build_block2 Samples.P0 (Some r) None = Ok b2
       /\ dict_lookup "Comment2_B2" b2 = Some (VStr "N/A")
       /\ dict_lookup "Comment3_B2" b2 = Some (VStr "N/A").
Proof.
  intros r. split; [reflexivity|].
  apply (proj1 (C5_identity_guard Samples.P0 (Samples.frame [] []) (Samples.frame [] []))
               (Some r) None).
  reflexivity.
Defined.

(** C5 as stated fails on [coco9.py]: with key "Z" in Source A only, the
    identity is missing on the B side, and BLOC A still carries a list,
    field by field, of what is missing there. *)
Lemma C5_counterexample_coco9_missing_list :
  let A := Samples.frame ["Noel"; "Daytona"; "Land"]
             [[VStr "Z"; VStr "foo"; VStr "01"]] in
  let B := Samples.frame ["Noel"; "Daytona"] [[VStr "Y"; VStr "foo"]] in
  exists oY oZ,
    Main9.main Samples.P0 A B = Ok [oY; oZ]
    /\ dict_lookup "Table1_Noel" (Main9.blockA oZ) = Some (VStr "Z")
    /\ dict_lookup "Table2_Noel" (Main9.blockA oZ) = Some VNaN
    /\ dict_lookup "CommentA_1" (Main9.blockA oZ) = Some (VStr "Missing Core Data")
    /\ dict_lookup "CommentA_3" (Main9.blockA oZ) = Some (VStr "No mismatch")
    /\ dict_lookup "CommentA_2" (Main9.blockA oZ)
       = Some (VStr ("Table1 missing: " ++ Blocks9.newline
                     ++ "Table2 missing: Noel, Daytona")).
Proof.
  intros A B. do 2 eexists. split; [vm_compute; reflexivity|].
  repeat split.
Qed.

(** ** Records without an identifier *)

Lemma enrich_row_noel_get (P : Pandas) (st : row -> value) (r : row) :
  dict_get "Noel" VNaN (enrich_row P st r) = dict_get "Noel" VNaN r.
Proof. unfold dict_get. now rewrite enrich_row_noel. Qed.

Lemma enriched_rows_keys (P : Pandas) (st : row -> value) (d t : DataFrame) :
  rows t = map (enrich_row P st) (rows d) ->
  Forall2 (fun r0 r =>
             dict_get "Noel" VNaN r = dict_get "Noel" VNaN r0
             /\ (dict_get "NoelFirst" VNaN r, dict_get "NoelSecond" VNaN r)
                = split_noel P (dict_get "Noel" VNaN r0))
          (rows d) (rows t).
Proof.
  intros ->. induction (rows d) as [|r0 l IH]; simpl; constructor; [|exact IH].
  split; [apply enrich_row_noel_get|].
  rewrite enrich_row_first, enrich_row_second. now destruct (split_noel _ _).
Qed.

Lemma enriched_null_no_key (P : Pandas) (st : row -> value) (d t : DataFrame) (r : row) :
  rows t = map (enrich_row P st) (rows d) ->
  In r (rows t) -> isna (dict_get "Noel" VNaN r) = true ->
  dict_get "NoelFirst" VNaN r = VNone /\ dict_get "NoelSecond" VNaN r = VNone.
Proof.
  intros Hr Hin Hna. rewrite Hr in Hin.
  apply in_map_iff in Hin as (r0 & <- & _).
  rewrite enrich_row_noel_get in Hna.
  rewrite enrich_row_first, enrich_row_second, (split_noel_null P _ Hna).
  now split.
Qed.

Lemma no_key_not_grouped (t1 t2 : DataFrame) (r : row) :
  dict_get "NoelFirst" VNaN r = VNone ->
  (forall k, ~ In r (subframe k t1) /\ ~ In r (subframe k t2))
  /\ (forall p, In p (keyed_pairs t1 t2) -> sideA p <> Some r /\ sideB p <> Some r).
Proof.
  intros Hnone.
  assert (Hk : forall k, ~ has_key k r) by (intros k Hk; red in Hk; congruence).
  split.
  - intros k. split; intros Hin; apply subframe_In in Hin as (_ & H);
      now apply (Hk k).
  - intros p Hp. apply keyed_pairs_In in Hp as (_ & _ & Hs).
    unfold sideA, sideB. rewrite Hs. split; intros H.
    + apply pair_at_sideA in H as (_ & H). now apply (Hk (key p)).
    + apply pair_at_sideB in H as (_ & H). now apply (Hk (key p)).
Qed.

(** C7, as the code has it.  A null raw identifier ([None] or [nan]) gives
    a null primary key and no secondary key, and the record is left out of
    the grouping: its row of the enriched frame, which keeps the raw
    identifier, lies in the group of no key and is a side of no
    AlignedPair, in either script.  (An empty or blank string is not null:
    it is the key of a group of its own.) *)
Theorem C7_null_identifier_excluded (P : Pandas) (d1 d2 t1 t2 : DataFrame) :
  (Main21.enrich P d1 = Ok t1 /\ Main21.enrich P d2 = Ok t2)
  \/ (Main9.enrich P d1 = Ok t1 /\ Main9.enrich P d2 = Ok t2) ->
  (forall v, isna v = true -> split_noel P v = (VNone, VNone))
  /\ Forall2 (fun r0 r =>
                dict_get "Noel" VNaN r = dict_get "Noel" VNaN r0
                /\ (dict_get "NoelFirst" VNaN r, dict_get "NoelSecond" VNaN r)
                   = split_noel P (dict_get "Noel" VNaN r0))
             (rows d1) (rows t1)
  /\ Forall2 (fun r0 r =>
                dict_get "Noel" VNaN r = dict_get "Noel" VNaN r0
                /\ (dict_get "NoelFirst" VNaN r, dict_get "NoelSecond" VNaN r)
                   = split_noel P (dict_get "Noel" VNaN r0))
             (rows d2) (rows t2)
  /\ (forall r,
        In r (rows t1) \/ In r (rows t2) ->
        isna (dict_get "Noel" VNaN r) = true ->
        dict_get "NoelFirst" VNaN r = VNone
        /\ dict_get "NoelSecond" VNaN r = VNone
        /\ (forall k, ~ In r (subframe k t1) /\ ~ In r (subframe k t2))
        /\ (forall p, In p (keyed_pairs t1 t2) ->
              sideA p <> Some r /\ sideB p <> Some r)).
Proof.
  intros H.
  assert (Hrows : exists st,
             rows t1 = map (enrich_row P st) (rows d1)
             /\ rows t2 = map (enrich_row P st) (rows d2)).
  { destruct H as [(E1 & E2) | (E1 & E2)].
    - exists (Coco21.get_activity_status P).
      split; [now apply enrich21_rows | now apply enrich21_rows].
    - exists (Coco9.status_of_row P).
      split; [now apply enrich9_rows | now apply enrich9_rows]. }
  destruct Hrows as (st & R1 & R2).
  split; [apply split_noel_null|].
  split; [now apply enriched_rows_keys with st|].
  split; [now apply enriched_rows_keys with st|].
  intros r Hin Hna.
  assert (Hnone : dict_get "NoelFirst" VNaN r = VNone
                  /\ dict_get "NoelSecond" VNaN r = VNone).
  { destruct Hin as [Hin|Hin].
    - now apply (enriched_null_no_key P st d1 t1).
    - now apply (enriched_null_no_key P st d2 t2). }
  destruct Hnone as (H1 & H2).
  split; [exact H1|]. split; [exact H2|].
  now apply no_key_not_grouped.
Qed.

(** Source B holds a record without identifier next to the record "Q": the
    run has the single key "Q" and two rows for it; the record without
    identifier is in none of them. *)
Lemma C7_null_identifier_excluded_witness :
  let A := Samples.frame ["Noel"; "Daytona"] [[VStr "Q"; VStr "a"]; [VStr "Q"; VStr "b"]] in
  let B := Samples.frame ["Noel"; "Daytona"] [[VNaN; VStr "lost"]; [VStr "Q_1"; VStr "a"]] in
  exists t1 t2 r,
    Main21.enrich Samples.P0 A = Ok t1 /\ Main21.enrich Samples.P0 B = Ok t2
    /\ nth_error (rows t2) 0 = Some r
    /\ dict_get "Daytona" VNaN r = VStr "lost"
    /\ all_noels t1 t2 = ["Q"]
    /\ length (keyed_pairs t1 t2) = 2%nat
    /\ (forall p, In p (keyed_pairs t1 t2) -> sideA p <> Some r /\ sideB p <> Some r).
Proof.
  intros A B.
  destruct (enrich21_total Samples.P0 A eq_refl ltac:(discriminate)) as (t1 & E1).
  destruct (enrich21_total Samples.P0 B eq_refl ltac:(discriminate)) as (t2 & E2).
  pose proof (C7_null_identifier_excluded Samples.P0 A B t1 t2
                (or_introl (conj E1 E2))) as (_ & _ & _ & Hex).
  vm_compute in E1. vm_compute in E2.
  injection E1 as <-. injection E2 as <-.
  eexists. eexists. eexists.
  split; [reflexivity|]. split; [reflexivity|].
  split; [reflexivity|]. split; [reflexivity|].
  split; [reflexivity|]. split; [reflexivity|].
  apply Hex; [right; left; reflexivity | reflexivity].
Defined.

(** C7 as stated fails for the empty identifier: the key normalizer makes
    the empty string the primary key, not null, and the record is grouped
    and aligned under that key. *)
Lemma C7_counterexample_empty_identifier :
  let A := Samples.frame ["Noel"; "Daytona"] [[VStr EmptyString; VStr "a"]] in
  let B := Samples.frame ["Noel"; "Daytona"] [[VStr "Q"; VStr "b"]] in
  split_noel Samples.P0 (VStr EmptyString) = (VStr EmptyString, VNone)
  /\ exists t1 t2 r o1 o2,
       Main21.enrich Samples.P0 A = Ok t1 /\ Main21.enrich Samples.P0 B = Ok t2
       /\ subframe EmptyString t1 = [r]
       /\ dict_get "Noel" VNaN r = VStr EmptyString
       /\ all_noels t1 t2 = [EmptyString; "Q"]
       /\ aligned_pairs t1 t2 = [(Some r, None); (None, nth_error (rows t2) 0)]
       /\ Main21.main Samples.P0 A B = Ok [o1; o2]
       /\ dict_lookup "Table1_Noel" (Main21.block1 o1) = Some (VStr EmptyString)
       /\ dict_lookup "Table1_Daytona" (Main21.block1 o1) = Some (VStr "a").
Proof.
  intros A B. split; [reflexivity|].
  do 5 eexists.
  split; [vm_compute; reflexivity|].
  split; [vm_compute; reflexivity|].
  split; [vm_compute; reflexivity|].
  split; [vm_compute; reflexivity|].
  split; [vm_compute; reflexivity|].
  split; [vm_compute; reflexivity|].
  split; [vm_compute; reflexivity|].
  split; vm_compute; reflexivity.
Qed.

(** ** A key that lives in Source A only *)

Lemma enriched_status (P : Pandas) (st : row -> value) (r0 : row) :
  dict_lookup "Status" (enrich_row P st r0) = Some (st (noel_row P r0)).
Proof. unfold enrich_row. apply dict_lookup_set_same. Qed.

Lemma lone_pair (t1 t2 : DataFrame) (k : string) (r : row) :
  subframe k t1 = [r] -> subframe k t2 = [] ->
  max_count t1 t2 k = 1%nat /\ pair_at t1 t2 k 0 = (Some r, None)
  /\ group_pairs t1 t2 k = [(Some r, None)].
Proof.
  intros H1 H2. unfold group_pairs, max_count, pair_at. rewrite H1, H2.
  repeat split.
Qed.

Lemma lone_record (t1 : DataFrame) (k : string) (r : row) :
  subframe k t1 = [r] -> In r (rows t1) /\ has_key k r.
Proof.
  intros H. apply subframe_In. rewrite H. now left.
Qed.

Lemma block1_lone_A (P : Pandas) (r : row) (n : value) (s : string) :
  dict_lookup "Noel" r = Some n ->
  dict_lookup "Status" r = Some (VStr s) ->
  exists b1,
    Blocks21.build_block1 P (Some r) None false = Ok b1
    /\ dict_lookup "Comment2_B1" b1 = Some (VStr "missing in Table2")
    /\ dict_lookup "Table1_Status" b1 = Some (VStr s)
    /\ dict_lookup "Table2_Status" b1 = Some VNaN
    /\ dict_lookup "Comment1_B1" b1 = Some (VStr ("Table1 " ++ s)).
Proof.
  intros Hn Hs.
  assert (E1 : Blocks21.item_or_nan "Noel" (Some r) = Ok n)
    by (simpl; unfold dict_getitem; now rewrite Hn).
  assert (Hst : side_cell "Status" (Some r) = VStr s)
    by (simpl; unfold dict_get; now rewrite Hs).
  eexists. split.
  - apply (build_block1_result P (Some r) None false n VNaN E1 eq_refl).
  - rewrite Hst. repeat split.
Qed.

Lemma blockB_lone_A (P : Pandas) (r : row) (n l : value) (s : string) (i : nat) :
  dict_lookup "Noel" r = Some n -> isna n = false ->
  dict_lookup "Land" r = Some l ->
  dict_lookup "Status" r = Some (VStr s) ->
  s = "Active" \/ s = "Inactive" ->
  exists b,
    Blocks9.build_blockB P (Some r) None i = Ok b
    /\ dict_lookup "1-1 Comment" b
       = Some (VStr ("Row " ++ str_of_nat (i + 1) ++ ": T1 Noel=" ++ py_str P n
                     ++ ", T2 missing"))
    /\ dict_lookup "ActiveComment" b = Some (VStr "One or both missing").
Proof.
  intros Hn Hna Hl Hs Hrange.
  unfold Blocks9.build_blockB, Blocks9.item_or, dict_getitem.
  rewrite Hn, Hl, Hs. cbn [bind].
  eexists. split; [reflexivity|].
  split.
  - unfold Blocks9.make_one_to_one_comment, notna. rewrite Hna. reflexivity.
  - destruct Hrange as [-> | ->]; reflexivity.
Qed.

(** ** BLOC 3 depends on the Source-B record alone *)

Lemma dict_lookup_not_key (k : string) (d : dict) :
  ~ In k (map fst d) -> dict_lookup k d = None.
Proof.
  induction d as [|[k' v'] d IH]; simpl; intros H; [reflexivity|].
  destruct (String.eqb k' k) eqn:E.
  - apply String.eqb_eq in E. subst. exfalso. apply H. now left.
  - apply IH. intros Hin. apply H. now right.
Qed.

(** In [{**d1, **d2}] the entries of [d2] win. *)
Lemma dict_lookup_merge_present (k : string) (v : value) (d1 d2 : dict) :
  NoDup (map fst d2) -> dict_lookup k d2 = Some v ->
  dict_lookup k (dict_merge d1 d2) = Some v.
Proof.
  unfold dict_merge. revert d1.
  induction d2 as [|[k' v'] d2 IH]; intros d1 Hnd H; simpl in *; [discriminate|].
  inversion Hnd as [|? ? Hnotin Hnd']; subst.
  destruct (String.eqb k' k) eqn:E.
  - apply String.eqb_eq in E. subst k'. inversion H; subst v'.
    pose proof (dict_lookup_merge_absent k (dict_set k v d1) d2
                  (dict_lookup_not_key k d2 Hnotin)) as Hm.
    unfold dict_merge in Hm. rewrite Hm. apply dict_lookup_set_same.
  - now apply IH.
Qed.

Lemma build_block3_keys (row2 : option row) :
  map fst (Blocks21.build_block3 row2 Blocks21.block3_cols)
  = "BLOC 3" :: map (fun c => "Table2_" ++ c) Blocks21.block3_cols.
Proof. destruct row2; reflexivity. Qed.

Lemma build_block3_NoDup (row2 : option row) :
  NoDup (map fst (Blocks21.build_block3 row2 Blocks21.block3_cols)).
Proof.
  rewrite build_block3_keys. simpl.
  repeat (constructor; [simpl; intuition discriminate|]). constructor.
Qed.

Lemma build_block3_cell (row2 : option row) (c : string) :
  In c Blocks21.block3_cols ->
  dict_lookup ("Table2_" ++ c) (Blocks21.build_block3 row2 Blocks21.block3_cols)
  = Some (side_cell c row2).
Proof.
  intros Hc. simpl in Hc.
  repeat (destruct Hc as [<-|Hc]; [destruct row2; reflexivity|]).
  contradiction.
Qed.

(** C10.  BLOC 3 of an output row is [build_block3] of the B side of the
    pair: rows built from pairs with the same B side have the same BLOC 3
    and the same BLOC 3 cells in the combined row, whatever their A sides
    and their many-to-many flags are, each cell being the cell of the
    Source-B record; when the B side is absent every BLOC 3 cell is
    [nan]. *)
Theorem C10_block3_from_source_B_alone (P : Pandas) :
  (forall row1 row1' row2 m m' o o',
     Main21.output_row P m (row1, row2) = Ok o ->
     Main21.output_row P m' (row1', row2) = Ok o' ->
     Main21.block3 o = Main21.block3 o'
     /\ forall c, In c Blocks21.block3_cols ->
          dict_lookup ("Table2_" ++ c) (Main21.block3 o) = Some (side_cell c row2)
          /\ dict_lookup ("Table2_" ++ c) (Main21.combined o) = Some (side_cell c row2)
          /\ dict_lookup ("Table2_" ++ c) (Main21.combined o')
             = dict_lookup ("Table2_" ++ c) (Main21.combined o))
  /\ (forall row1 m o,
        Main21.output_row P m (row1, None) = Ok o ->
        Main21.block3 o
        = ("BLOC 3", VNone)
          :: map (fun c => ("Table2_" ++ c, VNaN)) Blocks21.block3_cols
        /\ forall c, In c Blocks21.block3_cols ->
             dict_lookup ("Table2_" ++ c) (Main21.block3 o) = Some VNaN
             /\ dict_lookup ("Table2_" ++ c) (Main21.combined o) = Some VNaN).
Proof.
  assert (F : forall row1 row2 m o c,
            Main21.output_row P m (row1, row2) = Ok o ->
            In c Blocks21.block3_cols ->
            dict_lookup ("Table2_" ++ c) (Main21.block3 o) = Some (side_cell c row2)
            /\ dict_lookup ("Table2_" ++ c) (Main21.combined o)
               = Some (side_cell c row2)).
  { intros row1 row2 m o c Ho Hc.
    apply output_row21_parts in Ho as (b1 & b2 & _ & _ & _ & _ & -> & ->).
    split; [now apply build_block3_cell|].
    apply dict_lookup_merge_present;
      [apply build_block3_NoDup | now apply build_block3_cell]. }
  split.
  - intros row1 row1' row2 m m' o o' Ho Ho'. split.
    + apply output_row21_parts in Ho as (? & ? & _ & _ & _ & _ & -> & _).
      apply output_row21_parts in Ho' as (? & ? & _ & _ & _ & _ & -> & _).
      reflexivity.
    + intros c Hc.
      destruct (F row1 row2 m o c Ho Hc) as (L1 & L2).
      destruct (F row1' row2 m' o' c Ho' Hc) as (_ & L2').
      split; [exact L1|]. split; [exact L2|]. now rewrite L2, L2'.
  - intros row1 m o Ho. split.
    + apply output_row21_parts in Ho as (? & ? & _ & _ & _ & _ & -> & _).
      reflexivity.
    + intros c Hc. exact (F row1 None m o c Ho Hc).
Qed.

(** Two pairs with the same Source-B record, one with its A side absent and
    the many-to-many flag set, the other with a foreign A record: the same
    BLOC 3. *)
Lemma C10_block3_from_source_B_alone_witness :
  let b := [("Noel", VStr "X_1"); ("Fresca Ana", VInt 3); ("Right", VStr "yes")] in
  let a := [("Noel", VStr "X"); ("Fresca Ana", VInt 99); ("Right", VStr "no")] in
  exists o o',
    Main21.output_row Samples.P0 true (None, Some b) = Ok o
    /\ Main21.output_row Samples.P0 false (Some a, Some b) = Ok o'
    /\ Main21.block3 o = Main21.block3 o'
    /\ dict_lookup "Table2_Fresca Ana" (Main21.combined o') = Some (VInt 3)
    /\ dict_lookup "Table2_Fusion Core" (Main21.combined o') = Some VNaN.
Proof.
  intros b a.
  assert (E : exists o, Main21.output_row Samples.P0 true (None, Some b) = Ok o)
    by (eexists; vm_compute; reflexivity).
  assert (E' : exists o, Main21.output_row Samples.P0 false (Some a, Some b) = Ok o)
    by (eexists; vm_compute; reflexivity).
  destruct E as (o & E). destruct E' as (o' & E').
  exists o, o'. split; [exact E|]. split; [exact E'|].
  destruct (proj1 (C10_block3_from_source_B_alone Samples.P0)
              None (Some a) (Some b) true false o o' E E')
    as (Heq & Hcells).
  split; [exact Heq|].
  split.
  - destruct (Hcells "Fresca Ana" ltac:(simpl; tauto)) as (_ & L & L').
    etransitivity; [exact L' | exact L].
  - destruct (Hcells "Fusion Core" ltac:(simpl; tauto)) as (_ & L & L').
    etransitivity; [exact L' | exact L].
Defined.

(** Two Source-B records under the key "X", both without a secondary key:
    the group is flagged. *)
Lemma C1_many_to_many_counts_records_witness :
  let t2 := {| columns := ["Noel"; "NoelFirst"; "NoelSecond"];
               rows := [ [("Noel", VStr "X"); ("NoelFirst", VStr "X");
                          ("NoelSecond", VNone)];
                         [("Noel", VStr "X"); ("NoelFirst", VStr "X");
                          ("NoelSecond", VNone)] ] |} in
  Main21.many_to_many t2 "X" = true.
Proof.
  intros t2. apply (proj2 (C1_many_to_many_counts_records t2 "X")).
  simpl. lia.
Defined.

(** ** [main] of coco9.py returns on non-empty sources with a "Land" column *)

Lemma enrich_row_land (P : Pandas) (st : row -> value) (r : row) :
  dict_lookup "Land" (enrich_row P st r) = dict_lookup "Land" r.
Proof.
  unfold enrich_row, noel_row.
  now rewrite !dict_lookup_set_other by reflexivity.
Qed.

Lemma enrich9_total (P : Pandas) (df : DataFrame) :
  mem_str "Noel" (columns df) = true -> rows df <> [] ->
  exists t, Main9.enrich P df = Ok t.
Proof.
  intros Hm Hne. unfold Main9.enrich.
  destruct (add_noel_columns_total P df Hm Hne) as (t0 & ->). simpl.
  unfold Main9.add_status. rewrite add_status_rows. eauto.
Qed.

Lemma main9_unfold (P : Pandas) (d1 d2 : DataFrame) :
  Main9.main P d1 d2
  = (t1 <- Main9.enrich P d1 ;;
     t2 <- Main9.enrich P d2 ;;
     per_key <- mapM (Main9.group_rows P (columns d1) (columns d2) t1 t2)
                     (all_noels t1 t2) ;;
     Ok (concat per_key)).
Proof.
  unfold Main9.main, Main9.enrich, Main9.add_status.
  destruct (add_noel_columns P d1) as [a1|e1]; simpl; [|reflexivity].
  destruct (add_noel_columns P d2) as [a2|e2]; simpl.
  - now rewrite !add_status_rows.
  - now rewrite !add_status_rows.
Qed.

Lemma item_or_present (c : string) (dflt : value) (side : option row) :
  (forall r, side = Some r -> exists v, dict_lookup c r = Some v) ->
  exists v, Blocks9.item_or c dflt side = Ok v.
Proof.
  intros H. destruct side as [r|]; simpl; [|eauto].
  destruct (H r eq_refl) as (v & Hv). unfold dict_getitem. rewrite Hv. eauto.
Qed.

Lemma build_blockB_total (P : Pandas) (r1 r2 : option row) (i : nat) :
  (forall r c, In c ["Noel"; "Land"; "Status"] -> r1 = Some r ->
     exists v, dict_lookup c r = Some v) ->
  (forall r c, In c ["Noel"; "Status"] -> r2 = Some r ->
     exists v, dict_lookup c r = Some v) ->
  exists b, Blocks9.build_blockB P r1 r2 i = Ok b.
Proof.
  intros H1 H2. unfold Blocks9.build_blockB.
  destruct (item_or_present "Noel" VNaN r1) as (n1 & ->);
    [intros r; apply H1; simpl; tauto|].
  destruct (item_or_present "Land" VNaN r1) as (l1 & ->);
    [intros r; apply H1; simpl; tauto|].
  destruct (item_or_present "Status" (VStr "Missing") r1) as (s1 & ->);
    [intros r; apply H1; simpl; tauto|].
  destruct (item_or_present "Noel" VNaN r2) as (n2 & ->);
    [intros r; apply H2; simpl; tauto|].
  destruct (item_or_present "Status" (VStr "Missing") r2) as (s2 & ->);
    [intros r; apply H2; simpl; tauto|].
  cbn [bind]. eauto.
Qed.

(** With at least one record in each source, a column "Noel" in each and a
    "Land" cell in every Source-A record, [main] of [coco9.py] returns its
    rows. *)
Lemma main9_total (P : Pandas) (d1 d2 : DataFrame) :
  mem_str "Noel" (columns d1) = true -> rows d1 <> [] ->
  mem_str "Noel" (columns d2) = true -> rows d2 <> [] ->
  (forall r, In r (rows d1) -> dict_mem "Land" r = true) ->
  exists out, Main9.main P d1 d2 = Ok out.
Proof.
  intros M1 N1 M2 N2 Hland. rewrite main9_unfold.
  destruct (enrich9_total P d1 M1 N1) as (t1 & E1).
  destruct (enrich9_total P d2 M2 N2) as (t2 & E2).
  rewrite E1, E2. simpl.
  pose proof (enrich9_keyed P d1 t1 E1) as K1.
  pose proof (enrich9_keyed P d2 t2 E2) as K2.
  pose proof (enrich9_rows P d1 t1 E1) as R1.
  pose proof (enrich9_rows P d2 t2 E2) as R2.
  destruct (mapM_total (Main9.group_rows P (columns d1) (columns d2) t1 t2)
              (all_noels t1 t2)) as (pk & Epk).
  - intros k Hk. unfold Main9.group_rows. apply mapM_total.
    intros i Hi. apply in_seq in Hi. unfold Main9.output_row.
    destruct (pair_at t1 t2 k i) as [r1 r2] eqn:Hp.
    destruct (build_blockB_total P r1 r2 i) as (b & ->).
    + intros r c Hc ->.
      assert (HA : fst (pair_at t1 t2 k i) = Some r) by now rewrite Hp.
      apply pair_at_sideA in HA as (Hin & Hkey).
      destruct (K1 r k Hin Hkey) as (v & Hv & _).
      rewrite R1 in Hin. apply in_map_iff in Hin as (r0 & <- & Hin0).
      simpl in Hc. destruct Hc as [<-|[<-|[<-|[]]]].
      * eauto.
      * rewrite enrich_row_land. specialize (Hland r0 Hin0).
        unfold dict_mem in Hland. destruct (dict_lookup "Land" r0); [eauto|discriminate].
      * rewrite enriched_status. eauto.
    + intros r c Hc ->.
      assert (HB : snd (pair_at t1 t2 k i) = Some r) by now rewrite Hp.
      apply pair_at_sideB in HB as (Hin & Hkey).
      destruct (K2 r k Hin Hkey) as (v & Hv & _).
      rewrite R2 in Hin. apply in_map_iff in Hin as (r0 & <- & Hin0).
      simpl in Hc. destruct Hc as [<-|[<-|[]]].
      * eauto.
      * rewrite enriched_status. eauto.
    + cbn [bind]. eauto.
  - rewrite Epk. simpl. eauto.
Qed.

(* ================================================================== *)
(** * Further properties of the code *)

(** ** The key normalizer splits at the first separator *)

Lemma split1_spec (sep : ascii) (s : string) :
  py_in (String sep EmptyString) s = true ->
  s = fst (split1 sep s) ++ String sep (snd (split1 sep s))
  /\ py_in (String sep EmptyString) (fst (split1 sep s)) = false.
Proof.
  induction s as [|c s IH]; simpl; [discriminate|].
  destruct (Ascii.eqb c sep) eqn:E; simpl.
  - apply Ascii.eqb_eq in E. subst c. intros _. split; reflexivity.
  - intros H. rewrite (Ascii.eqb_sym sep c), E in H. simpl in H.
    destruct (IH H) as (Hs & Hl).
    destruct (split1 sep s) as [l r]. simpl in *.
    split; [now rewrite <- Hs|].
    rewrite (Ascii.eqb_sym sep c), E. simpl. exact Hl.
Qed.

(** A non-null identifier is trimmed and cut at its first "_": the primary
    key holds no "_", and primary key, "_" and secondary key put together
    give the trimmed text back, so that leading zeros and any further "_"
    of the secondary key survive; without "_" the whole trimmed text is the
    primary key and there is no secondary key.  A null identifier gives two
    nulls. *)
Theorem split_noel_round_trip (P : Pandas) (v : value) :
  (isna v = true /\ split_noel P v = (VNone, VNone))
  \/ (isna v = false
      /\ exists left right,
           split_noel P v = (VStr left, VStr right)
           /\ strip (py_str P v) = left ++ "_" ++ right
           /\ ~ Contains "_" left)
  \/ (isna v = false
      /\ split_noel P v = (VStr (strip (py_str P v)), VNone)
      /\ ~ Contains "_" (strip (py_str P v))).
Proof.
  unfold split_noel. destruct (isna v) eqn:Hna; [left; now split|].
  right. destruct (py_in "_" (strip (py_str P v))) eqn:Hin.
  - left. split; [reflexivity|].
    destruct (split1_spec "_"%char _ Hin) as (Hs & Hl).
    destruct (split1 "_"%char (strip (py_str P v))) as [l r]. simpl in *.
    exists l, r. split; [reflexivity|]. split; [exact Hs|].
    now apply py_in_false.
  - right. split; [reflexivity|]. split; [reflexivity|]. now apply py_in_false.
Qed.

(** ** Coverage: every keyed record is a side of exactly one pair *)















(** ** Invariants of the pairs of a run *)



(** ** BLOC 2 in full *)

Lemma offending_field_step (P : Pandas) (row1 row2 : option row) (c : string) :
  String.eqb c "Noel" = false ->
  offending_field P row1 row2 c
  = offending (field_outcome P (side_cell c row1) (side_cell c row2)).
Proof. intros H. unfold offending_field. now rewrite H. Qed.

Lemma scan_step_exact (P : Pandas) (b2 : dict) (row1 row2 : option row)
    (c : string) (st : bool * list string) :
  dict_getitem ("Table1_" ++ c) b2 = Ok (side_cell c row1) ->
  dict_getitem ("Table2_" ++ c) b2 = Ok (side_cell c row2) ->
  Blocks21.scan_step P b2 c st
  = Ok (if offending_field P row1 row2 c
        then (true, app (snd st) [diff_entry P row1 row2 c])
        else st).
Proof.
  intros H1 H2. unfold Blocks21.scan_step, offending_field, diff_entry.
  destruct (String.eqb c "Noel") eqn:Hc; [reflexivity|].
  rewrite H1, H2. cbn [bind negb andb].
  unfold field_outcome, Blocks21.safe_str, notna.
  destruct (isna (side_cell c row1)), (isna (side_cell c row2)); try reflexivity.
  cbn [negb andb].
  destruct (String.eqb (strip (py_str P (side_cell c row1)))
                       (strip (py_str P (side_cell c row2)))); reflexivity.
Qed.

Lemma scan_columns_exact (P : Pandas) (b2 : dict) (row1 row2 : option row)
    (cols : list string) (st : bool * list string) :
  (forall c, In c cols ->
     dict_getitem ("Table1_" ++ c) b2 = Ok (side_cell c row1)
     /\ dict_getitem ("Table2_" ++ c) b2 = Ok (side_cell c row2)) ->
  Blocks21.scan_columns P b2 cols st
  = Ok (fst st || existsb (offending_field P row1 row2) cols,
        app (snd st)
            (map (diff_entry P row1 row2) (filter (offending_field P row1 row2) cols))).
Proof.
  revert st. induction cols as [|c cols IH]; intros st Hread; simpl.
  - rewrite orb_false_r, app_nil_r. now destruct st.
  - destruct (Hread c (or_introl eq_refl)) as (H1 & H2).
    rewrite (scan_step_exact P b2 row1 row2 c st H1 H2). cbn [bind].
    rewrite IH by (intros; apply Hread; now right).
    destruct (offending_field P row1 row2 c); simpl.
    + rewrite orb_true_r, <- app_assoc. reflexivity.
    + reflexivity.
Qed.

Lemma filter_nil_existsb {A : Type} (f : A -> bool) (l : list A) :
  existsb f l = false <-> filter f l = [].
Proof.
  induction l as [|x l IH]; simpl; [tauto|].
  destruct (f x); simpl; [split; discriminate | exact IH].
Qed.

(** What [build_block2] returns, cell by cell and comment by comment. *)
Lemma build_block2_exact (P : Pandas) (row1 row2 : option row) :
  Blocks21.build_block2 P row1 row2
  = Ok (app (block2_cells row1 row2)
            [("Comment1_B2",
              VStr (presence_text (side_cell "Noel" row1) (side_cell "Noel" row2)));
             ("Comment2_B2",
              VStr (if identity_missing row1 row2 then "N/A"
                    else if existsb (offending_field P row1 row2) Blocks21.shared_cols
                         then "shared dimensions GAP"
                         else "shared dimensions MATCH"));
             ("Comment3_B2",
              VStr (if identity_missing row1 row2 then "N/A"
                    else match map (diff_entry P row1 row2)
                                   (filter (offending_field P row1 row2)
                                           Blocks21.shared_cols) with
                         | [] => "No differences"
                         | es => "Diff columns: " ++ join ", " es
                         end))]).
Proof.
  unfold Blocks21.build_block2. cbv zeta. rewrite block2_filled.
  rewrite (proj1 (block2_read_noel row1 row2)),
          (proj2 (block2_read_noel row1 row2)).
  cbn [bind]. unfold identity_missing.
  fold (presence_text (side_cell "Noel" row1) (side_cell "Noel" row2)).
  destruct (isna (side_cell "Noel" row1) || isna (side_cell "Noel" row2)) eqn:Hid.
  - now rewrite block2_set_comments.
  - rewrite (scan_columns_exact P _ row1 row2 Blocks21.shared_cols (false, []))
      by (intros c Hc; now apply block2_read).
    cbn [bind fst snd orb app].
    destruct (existsb (offending_field P row1 row2) Blocks21.shared_cols) eqn:Ex.
    + destruct (filter (offending_field P row1 row2) Blocks21.shared_cols)
        as [|c0 cs] eqn:Ef.
      * apply filter_nil_existsb in Ef. congruence.
      * cbn [map]. now rewrite block2_set_comments.
    + apply filter_nil_existsb in Ex. rewrite Ex. cbn [map].
      now rewrite block2_set_comments.
Qed.

(** [build_block2] never raises, and its third comment is "N/A" when the
    identity is missing on a side, "No differences" when no shared field
    differs, and otherwise "Diff columns: " followed by one entry for each
    differing field, in the order of the shared columns, each entry naming
    its field and how it differs.  The fall-back text "Diff columns: ???"
    of the source is never written. *)
Theorem block2_lists_the_differing_fields (P : Pandas) (row1 row2 : option row) :
  exists b2,
    Blocks21.build_block2 P row1 row2 = Ok b2
    /\ dict_lookup "Comment3_B2" b2
       = Some (VStr (if identity_missing row1 row2 then "N/A"
                     else match map (diff_entry P row1 row2)
                                    (filter (offending_field P row1 row2)
                                            Blocks21.shared_cols) with
                          | [] => "No differences"
                          | es => "Diff columns: " ++ join ", " es
                          end))
    /\ (dict_lookup "Comment2_B2" b2 = Some (VStr "shared dimensions GAP") <->
        identity_missing row1 row2 = false
        /\ filter (offending_field P row1 row2) Blocks21.shared_cols <> []).
Proof.
  eexists. split; [apply build_block2_exact|].
  split; [reflexivity|].
  change (dict_lookup "Comment2_B2" _)
    with (Some (VStr (if identity_missing row1 row2 then "N/A"
                      else if existsb (offending_field P row1 row2) Blocks21.shared_cols
                           then "shared dimensions GAP"
                           else "shared dimensions MATCH"))).
  destruct (identity_missing row1 row2).
  - split; [discriminate | intros (H & _); discriminate].
  - destruct (existsb (offending_field P row1 row2) Blocks21.shared_cols) eqn:Ex.
    + split; [|reflexivity]. intros _. split; [reflexivity|].
      intros Hf. apply filter_nil_existsb in Hf. congruence.
    + split; [discriminate|]. intros (_ & Hf).
      apply filter_nil_existsb in Ex. contradiction.
Qed.

Lemma offending_field_swap (P : Pandas) (row1 row2 : option row) (c : string) :
  offending_field P row1 row2 c = offending_field P row2 row1 c.
Proof.
  unfold offending_field, field_outcome.
  destruct (String.eqb c "Noel"); [reflexivity|]. simpl.
  destruct (isna (side_cell c row1)), (isna (side_cell c row2)); try reflexivity.
  rewrite String.eqb_sym. reflexivity.
Qed.

(** The verdict of BLOC 2 does not depend on which source is called Table1:
    with the two sides exchanged, "N/A", GAP and MATCH stay what they are. *)
Theorem block2_verdict_symmetric (P : Pandas) (row1 row2 : option row) :
  exists b b',
    Blocks21.build_block2 P row1 row2 = Ok b
    /\ Blocks21.build_block2 P row2 row1 = Ok b'
    /\ dict_lookup "Comment2_B2" b = dict_lookup "Comment2_B2" b'.
Proof.
  do 2 eexists. split; [apply build_block2_exact|].
  split; [apply build_block2_exact|].
  change (Some (VStr (if identity_missing row1 row2 then "N/A"
                      else if existsb (offending_field P row1 row2) Blocks21.shared_cols
                           then "shared dimensions GAP"
                           else "shared dimensions MATCH"))
          = Some (VStr (if identity_missing row2 row1 then "N/A"
                        else if existsb (offending_field P row2 row1) Blocks21.shared_cols
                             then "shared dimensions GAP"
                             else "shared dimensions MATCH"))).
  assert (Hid : identity_missing row1 row2 = identity_missing row2 row1)
    by (unfold identity_missing; apply orb_comm).
  assert (Hex : existsb (offending_field P row1 row2) Blocks21.shared_cols
                = existsb (offending_field P row2 row1) Blocks21.shared_cols).
  { induction Blocks21.shared_cols as [|c l IH]; simpl; [reflexivity|].
    now rewrite IH, offending_field_swap. }
  now rewrite Hid, Hex.
Qed.

(** ** The presence comments of a run *)

Lemma presence_text_keyed (sA sB : option row) :
  (forall r, sA = Some r -> exists v, dict_lookup "Noel" r = Some v /\ isna v = false) ->
  (forall r, sB = Some r -> exists v, dict_lookup "Noel" r = Some v /\ isna v = false) ->
  sA <> None \/ sB <> None ->
  presence_text (side_cell "Noel" sA) (side_cell "Noel" sB)
  = match sA, sB with
    | Some _, Some _ => "Both present"
    | None, _ => "Missing in Table1"
    | Some _, None => "Missing in Table2"
    end.
Proof.
  intros HA HB Hsome. unfold presence_text, side_cell, dict_get, notna.
  destruct sA as [ra|], sB as [rb|].
  - destruct (HA ra eq_refl) as (va & -> & ->).
    destruct (HB rb eq_refl) as (vb & -> & ->). reflexivity.
  - destruct (HA ra eq_refl) as (va & -> & ->). reflexivity.
  - destruct (HB rb eq_refl) as (vb & -> & ->). reflexivity.
  - destruct Hsome as [H|H]; now elim H.
Qed.

(** In a run of [coco21.py] the presence comment of BLOC 2 follows the
    sides of the pair: "Both present", "Missing in Table1" or "Missing in
    Table2"; the text "No Noel in both?" is never written, since no pair
    lacks both sides and a present record has its identifier.  The comment
    of BLOC 1 is "many-to-many" for the groups with two or more Source-B
    records and otherwise "one-one", "missing in Table1" or "missing in
    Table2" by the same sides. *)
Theorem presence_comments_of_a_run (P : Pandas) (d1 d2 : DataFrame)
    (out : list Main21.OutputRow) :
  Main21.main P d1 d2 = Ok out ->
  exists t1 t2,
    Main21.enrich P d1 = Ok t1 /\ Main21.enrich P d2 = Ok t2
    /\ Forall2 (fun p o =>
                  (sideA p <> None \/ sideB p <> None)
                  /\ dict_lookup "Comment1_B2" (Main21.block2 o)
                     = Some (VStr match sideA p, sideB p with
                                  | Some _, Some _ => "Both present"
                                  | None, _ => "Missing in Table1"
                                  | Some _, None => "Missing in Table2"
                                  end)
                  /\ dict_lookup "Comment2_B1" (Main21.block1 o)
                     = Some (VStr (if (2 <=? length (subframe (key p) t2))%nat
                                   then "many-to-many"
                                   else match sideA p, sideB p with
                                        | Some _, Some _ => "one-one"
                                        | None, _ => "missing in Table1"
                                        | Some _, None => "missing in Table2"
                                        end)))
               (keyed_pairs t1 t2) out.
Proof.
  intros H. apply main21_inv in H as (t1 & t2 & E1 & E2 & HF).
  exists t1, t2. split; [exact E1|]. split; [exact E2|].
  apply Forall2_with_In in HF. eapply Forall2_impl; [|exact HF].
  intros p o (Hp & Ho). cbv beta in Ho.
  pose proof (enrich21_keyed P d1 t1 E1) as K1.
  pose proof (enrich21_keyed P d2 t2 E2) as K2.
  destruct (keyed_side_noel t1 t2 p K1 K2 Hp) as (HA & HB).
  assert (Hsome : sideA p <> None \/ sideB p <> None).
  { apply keyed_pairs_In in Hp as (_ & Hi & Hs).
    pose proof (pair_at_not_both_absent t1 t2 (key p) (index p) Hi) as Hnb.
    unfold sideA, sideB. rewrite Hs.
    destruct (pair_at t1 t2 (key p) (index p)) as [[a|] [b|]]; simpl;
      try (left; discriminate); try (right; discriminate).
    now elim Hnb. }
  split; [exact Hsome|].
  rewrite many_to_many_count in Ho.
  change (1 <? length (subframe (key p) t2))%nat
    with (2 <=? length (subframe (key p) t2))%nat in Ho.
  remember (2 <=? length (subframe (key p) t2))%nat as flag eqn:Hflag.
  clear Hflag. unfold sideA, sideB in *.
  destruct (sides p) as [row1 row2]. cbn [fst snd] in *.
  apply output_row21_parts in Ho as (b1 & b2 & B1 & B2 & -> & -> & _).
  split.
  - assert (L : dict_lookup "Comment1_B2" b2
                 = Some (VStr (presence_text (side_cell "Noel" row1)
                                             (side_cell "Noel" row2)))).
    { rewrite build_block2_exact in B2. injection B2 as <-. reflexivity. }
    now rewrite L, (presence_text_keyed row1 row2 HA HB Hsome).
  - rewrite (block1_comment2 P row1 row2 flag b1 B1).
    destruct flag; [reflexivity|].
    destruct row1, row2; try reflexivity.
    destruct Hsome as [H|H]; now elim H.
Qed.

(** A run with the keys "X" (one record against two) and "Z" (Source A
    only). *)
Lemma presence_comments_of_a_run_witness :
  let A := Samples.frame ["Noel"; "Daytona"]
             [[VStr "X"; VStr "open"]; [VStr "Z"; VStr "open"]] in
  let B := Samples.frame ["Noel"; "Daytona"]
             [[VStr "X_001"; VStr "open"]; [VStr "X_002"; VStr "closed"]] in
  exists out,
    Main21.main Samples.P0 A B = Ok out
    /\ map (fun o => dict_lookup "Comment1_B2" (Main21.block2 o)) out
       = [Some (VStr "Both present"); Some (VStr "Missing in Table1");
          Some (VStr "Missing in Table2")]
    /\ map (fun o => dict_lookup "Comment2_B1" (Main21.block1 o)) out
       = [Some (VStr "many-to-many"); Some (VStr "many-to-many");
          Some (VStr "missing in Table2")].
Proof.
  intros A B.
  destruct (main21_total Samples.P0 A B eq_refl ltac:(discriminate)
              eq_refl ltac:(discriminate)) as (out & Hout).
  destruct (presence_comments_of_a_run Samples.P0 A B out Hout)
    as (t1 & t2 & E1 & E2 & HF).
  exists out. split; [exact Hout|].
  vm_compute in Hout. injection Hout as <-.
  split; reflexivity.
Defined.

(** ** The layout of the output rows *)

Lemma keys_dict_set (k : string) (v : value) (d : dict) :
  map fst (dict_set k v d) = add_key k (map fst d).
Proof.
  unfold add_key. induction d as [|[k' v'] d IH]; simpl; [reflexivity|].
  rewrite (String.eqb_sym k k').
  destruct (String.eqb k' k) eqn:E; simpl; [reflexivity|].
  rewrite IH. unfold mem_str. now destruct (existsb (String.eqb k) (map fst d)).
Qed.

Lemma keys_dict_merge (d1 d2 : dict) :
  map fst (dict_merge d1 d2) = merge_keys (map fst d1) (map fst d2).
Proof.
  unfold dict_merge, merge_keys. revert d1.
  induction d2 as [|[k v] d2 IH]; intros d1; simpl; [reflexivity|].
  now rewrite IH, keys_dict_set.
Qed.

Lemma nodupb_NoDup (l : list string) : nodupb l = true -> NoDup l.
Proof.
  induction l as [|x l IH]; simpl; intros H; constructor.
  - apply andb_true_iff in H as (H & _). apply negb_true_iff in H.
    intros Hin. apply mem_str_In in Hin. congruence.
  - apply IH. now apply andb_true_iff in H as (_ & H).
Qed.

(** In [{**d1, **d2}] a key of [d2] has the cell of [d2], any other key the
    cell of [d1]. *)
Lemma dict_lookup_merge (k : string) (d1 d2 : dict) :
  NoDup (map fst d2) ->
  dict_lookup k (dict_merge d1 d2)
  = match dict_lookup k d2 with
    | Some v => Some v
    | None => dict_lookup k d1
    end.
Proof.
  intros Hnd. destruct (dict_lookup k d2) as [v|] eqn:E.
  - now apply dict_lookup_merge_present.
  - now apply dict_lookup_merge_absent.
Qed.

Lemma item_or_nan_side_cell (c : string) (r : option row) (n : value) :
  Blocks21.item_or_nan c r = Ok n -> n = side_cell c r.
Proof.
  destruct r as [r|]; simpl; [|congruence].
  unfold dict_getitem, dict_get. destruct (dict_lookup c r); congruence.
Qed.

Lemma block2_keys (P : Pandas) (row1 row2 : option row) (b2 : dict) :
  Blocks21.build_block2 P row1 row2 = Ok b2 -> map fst b2 = block2_header.
Proof.
  rewrite build_block2_exact. intros H. injection H as <-. reflexivity.
Qed.

Lemma block1_keys (P : Pandas) (row1 row2 : option row) (m : bool) (b1 : dict) :
  Blocks21.build_block1 P row1 row2 m = Ok b1 -> map fst b1 = block1_header.
Proof.
  intros H. destruct (build_block1_ok P row1 row2 m b1 H) as (n1 & n2 & E1 & E2).
  rewrite (build_block1_result P row1 row2 m n1 n2 E1 E2) in H.
  injection H as <-. reflexivity.
Qed.

Lemma block1_shape_lookups (a1 a2 a3 a4 b1 b2 b3 b4 c1 c2 : value) :
  let d := [ ("BLOC 1", VNone);
             ("Table1_Noel", a1); ("Table1_Daytona", a2);
             ("Table1_Elastic Daytona", a3); ("Table1_Status", a4);
             ("Table2_Noel", b1); ("Table2_Daytona", b2);
             ("Table2_Elastic Daytona", b3); ("Table2_Status", b4);
             ("Comment1_B1", c1); ("Comment2_B1", c2) ] in
  dict_lookup "Table1_Noel" d = Some a1
  /\ dict_lookup "Table1_Daytona" d = Some a2
  /\ dict_lookup "Table1_Elastic Daytona" d = Some a3
  /\ dict_lookup "Table2_Noel" d = Some b1
  /\ dict_lookup "Table2_Daytona" d = Some b2
  /\ dict_lookup "Table2_Elastic Daytona" d = Some b3.
Proof. repeat split. Qed.

Lemma block1_shared_cells (P : Pandas) (row1 row2 : option row) (m : bool) (b1 : dict) :
  Blocks21.build_block1 P row1 row2 m = Ok b1 ->
  dict_lookup "Table1_Noel" b1 = Some (side_cell "Noel" row1)
  /\ dict_lookup "Table1_Daytona" b1 = Some (side_cell "Daytona" row1)
  /\ dict_lookup "Table1_Elastic Daytona" b1 = Some (side_cell "Elastic Daytona" row1)
  /\ dict_lookup "Table2_Noel" b1 = Some (side_cell "Noel" row2)
  /\ dict_lookup "Table2_Daytona" b1 = Some (side_cell "Daytona" row2)
  /\ dict_lookup "Table2_Elastic Daytona" b1 = Some (side_cell "Elastic Daytona" row2).
Proof.
  intros H. destruct (build_block1_ok P row1 row2 m b1 H) as (n1 & n2 & E1 & E2).
  pose proof (build_block1_result P row1 row2 m n1 n2 E1 E2) as R.
  rewrite R in H. injection H as H. rewrite <- H.
  apply item_or_nan_side_cell in E1. apply item_or_nan_side_cell in E2.
  rewrite <- E1, <- E2. apply block1_shape_lookups.
Qed.

Lemma block2_shape_lookups (row1 row2 : option row) (c1 c2 c3 : value) :
  let d := app (block2_cells row1 row2)
               [("Comment1_B2", c1); ("Comment2_B2", c2); ("Comment3_B2", c3)] in
  dict_lookup "Table1_Noel" d = Some (side_cell "Noel" row1)
  /\ dict_lookup "Table1_Daytona" d = Some (side_cell "Daytona" row1)
  /\ dict_lookup "Table1_Elastic Daytona" d = Some (side_cell "Elastic Daytona" row1)
  /\ dict_lookup "Table2_Noel" d = Some (side_cell "Noel" row2)
  /\ dict_lookup "Table2_Daytona" d = Some (side_cell "Daytona" row2)
  /\ dict_lookup "Table2_Elastic Daytona" d = Some (side_cell "Elastic Daytona" row2).
Proof. repeat split. Qed.

Lemma block2_shared_cells (P : Pandas) (row1 row2 : option row) (b2 : dict) :
  Blocks21.build_block2 P row1 row2 = Ok b2 ->
  dict_lookup "Table1_Noel" b2 = Some (side_cell "Noel" row1)
  /\ dict_lookup "Table1_Daytona" b2 = Some (side_cell "Daytona" row1)
  /\ dict_lookup "Table1_Elastic Daytona" b2 = Some (side_cell "Elastic Daytona" row1)
  /\ dict_lookup "Table2_Noel" b2 = Some (side_cell "Noel" row2)
  /\ dict_lookup "Table2_Daytona" b2 = Some (side_cell "Daytona" row2)
  /\ dict_lookup "Table2_Elastic Daytona" b2 = Some (side_cell "Elastic Daytona" row2).
Proof.
  rewrite build_block2_exact. intros H. injection H as H. rewrite <- H.
  apply block2_shape_lookups.
Qed.

(** Every output row of [coco21.py] has the same columns in the same order,
    whatever the two records are: the three blocks have their fixed
    headers, and the combined row has the 43 columns of the "Comparison"
    sheet, each once.  In the combined row a later block overwrites an
    earlier one; the only cells two blocks share are the six cells "Noel",
    "Daytona" and "Elastic Daytona" of either table, which BLOC 1 and
    BLOC 2 both hold with the same content, so they appear once, at their
    place in BLOC 1, and nothing is lost. *)
Theorem comparison_row_layout (P : Pandas) (m : bool) (row1 row2 : option row)
    (o : Main21.OutputRow) :
  Main21.output_row P m (row1, row2) = Ok o ->
  map fst (Main21.block1 o) = block1_header
  /\ map fst (Main21.block2 o) = block2_header
  /\ map fst (Main21.block3 o) = block3_header
  /\ map fst (Main21.combined o) = comparison_header
  /\ comparison_header
     = [ "BLOC 1"; "Table1_Noel"; "Table1_Daytona"; "Table1_Elastic Daytona";
         "Table1_Status"; "Table2_Noel"; "Table2_Daytona";
         "Table2_Elastic Daytona"; "Table2_Status"; "Comment1_B1"; "Comment2_B1";
         "BLOC 2"; "Table1_No Thing"; "Table1_Pizza"; "Table1_Pizza No Thing";
         "Table1_Thing Noel"; "Table1_Pizza Coco Daytona"; "Table1_Sun Daytona";
         "Table1_Hero Rome"; "Table1_Coco Copo Opa Noel";
         "Table1_Coco Coco Opa Elastic Noel"; "Table2_No Thing"; "Table2_Pizza";
         "Table2_Pizza No Thing"; "Table2_Thing Noel"; "Table2_Pizza Coco Daytona";
         "Table2_Sun Daytona"; "Table2_Hero Rome"; "Table2_Coco Copo Opa Noel";
         "Table2_Coco Coco Opa Elastic Noel"; "Comment1_B2"; "Comment2_B2";
         "Comment3_B2"; "BLOC 3"; "Table2_Fresca Ana"; "Table2_Fusion Core";
         "Table2_Commercial Coco"; "Table2_Super Resort"; "Table2_Italy Coco Coco";
         "Table2_Virtual America"; "Table2_Fun Coco Elastic";
         "Table2_Fun Coco Fun Noel"; "Table2_Right" ]
  /\ NoDup comparison_header
  /\ (forall k,
        dict_lookup k (Main21.combined o)
        = match dict_lookup k (Main21.block3 o) with
          | Some v => Some v
          | None => match dict_lookup k (Main21.block2 o) with
                    | Some v => Some v
                    | None => dict_lookup k (Main21.block1 o)
                    end
          end)
  /\ (forall k, In k block1_header -> In k block2_header ->
        In k [ "Table1_Noel"; "Table1_Daytona"; "Table1_Elastic Daytona";
               "Table2_Noel"; "Table2_Daytona"; "Table2_Elastic Daytona" ])
  /\ (forall k, In k block3_header ->
        ~ In k block1_header /\ ~ In k block2_header)
  /\ (forall c, In c ["Noel"; "Daytona"; "Elastic Daytona"] ->
        dict_lookup ("Table1_" ++ c) (Main21.block1 o) = Some (side_cell c row1)
        /\ dict_lookup ("Table1_" ++ c) (Main21.block2 o) = Some (side_cell c row1)
        /\ dict_lookup ("Table2_" ++ c) (Main21.block1 o) = Some (side_cell c row2)
        /\ dict_lookup ("Table2_" ++ c) (Main21.block2 o) = Some (side_cell c row2)).
Proof.
  intros Ho.
  apply output_row21_parts in Ho as (b1 & b2 & B1 & B2 & -> & -> & -> & ->).
  pose proof (block1_keys P row1 row2 m b1 B1) as K1.
  pose proof (block2_keys P row1 row2 b2 B2) as K2.
  pose proof (build_block3_keys row2) as K3.
  assert (Hnd2 : NoDup (map fst b2))
    by (rewrite K2; apply nodupb_NoDup; reflexivity).
  split; [exact K1|]. split; [exact K2|]. split; [exact K3|].
  split; [now rewrite !keys_dict_merge, K1, K2, K3|].
  split; [reflexivity|].
  split; [apply nodupb_NoDup; reflexivity|].
  split.
  { intros k. rewrite dict_lookup_merge by apply build_block3_NoDup.
    now rewrite dict_lookup_merge by exact Hnd2. }
  split.
  { intros k H1 H2. simpl in H1.
    repeat (destruct H1 as [<-|H1];
            [first [ simpl; tauto
                   | exfalso; simpl in H2; intuition discriminate ]|]).
    contradiction. }
  split.
  { intros k H3. simpl in H3.
    repeat (destruct H3 as [<-|H3];
            [split; simpl; intuition discriminate|]).
    contradiction. }
  intros c Hc.
  destruct (block1_shared_cells P row1 row2 m b1 B1)
    as (A1 & A2 & A3 & A4 & A5 & A6).
  destruct (block2_shared_cells P row1 row2 b2 B2)
    as (C1 & C2 & C3 & C4 & C5 & C6).
  simpl in Hc. destruct Hc as [<-|[<-|[<-|[]]]].
  - split; [exact A1|]. split; [exact C1|]. split; [exact A4 | exact C4].
  - split; [exact A2|]. split; [exact C2|]. split; [exact A5 | exact C5].
  - split; [exact A3|]. split; [exact C3|]. split; [exact A6 | exact C6].
Qed.

(** A pair of two records: the combined row has its 43 columns. *)
Lemma comparison_row_layout_witness :
  let a := [("Noel", VStr "X"); ("Daytona", VStr "open")] in
  let b := [("Noel", VStr "X_1"); ("Daytona", VStr "shut"); ("Right", VInt 7)] in
  exists o,
    Main21.output_row Samples.P0 false (Some a, Some b) = Ok o
    /\ map fst (Main21.combined o) = comparison_header
    /\ length (Main21.combined o) = 43%nat.
Proof.
  intros a b.
  assert (E : exists o, Main21.output_row Samples.P0 false (Some a, Some b) = Ok o)
    by (eexists; vm_compute; reflexivity).
  destruct E as (o & E). exists o. split; [exact E|].
  destruct (comparison_row_layout Samples.P0 false (Some a) (Some b) o E)
    as (_ & _ & _ & Hk & _).
  split; [exact Hk|].
  rewrite <- (length_map fst), Hk. reflexivity.
Defined.

(** ** The two status classifiers compared *)

Lemma Contains_closed_close (s : string) :
  Contains "closed" s -> Contains "close" s.
Proof.
  intros (a & b & ->). exists a, ("d" ++ b). reflexivity.
Qed.

(** Whatever [coco9.py] classifies Inactive, [coco21.py] classifies
    Inactive too: a status text with "closed" has "close", and the date
    rule is the same. *)
Theorem inactive_in_coco9_is_inactive_in_coco21 (P : Pandas) (r : row) :
  Coco9.status_of_row P r = VStr "Inactive" ->
  Coco21.get_activity_status P r = VStr "Inactive".
Proof.
  unfold Coco9.status_of_row, Coco9.is_inactive. intros H.
  set (d := dict_get "Daytona" (VStr EmptyString) r) in *.
  set (e := dict_get "Elastic Daytona" (VStr EmptyString) r) in *.
  destruct (isinstance_str d && py_in "closed" (lower (py_str P d))) eqn:Et.
  - apply is_inactive_text in Et as (s & Hd & Hc).
    apply get_activity_status_close. fold d. rewrite Hd. simpl.
    now apply Contains_closed_close.
  - destruct (try_except (before_now P e) false) eqn:Ed; [|discriminate].
    unfold Coco21.get_activity_status. fold d e.
    destruct (py_in "close" (lower (py_str P d))); [reflexivity|].
    apply before_now_true in Ed. apply guarded_before_now in Ed.
    now rewrite Ed.
Qed.

(** A record closed long ago. *)
Lemma inactive_in_coco9_is_inactive_in_coco21_witness :
  let r := [("Daytona", VStr "Closed 2019"); ("Elastic Daytona", VNaN)] in
  Coco9.status_of_row Samples.P0 r = VStr "Inactive"
  /\ Coco21.get_activity_status Samples.P0 r = VStr "Inactive".
Proof.
  intros r. split; [reflexivity|].
  apply (inactive_in_coco9_is_inactive_in_coco21 Samples.P0 r). reflexivity.
Defined.

(** ** When [main] returns and when it raises *)

Lemma add_noel_columns_error (P : Pandas) (df : DataFrame) (e : exn) :
  source_error df = Some e -> add_noel_columns P df = Raise e.
Proof.
  unfold source_error, add_noel_columns, df_getitem.
  destruct (mem_str "Noel" (columns df)); simpl; [|congruence].
  destruct (rows df); simpl; congruence.
Qed.

Lemma source_error_none (df : DataFrame) :
  source_error df = None <-> mem_str "Noel" (columns df) = true /\ rows df <> [].
Proof.
  unfold source_error. destruct (mem_str "Noel" (columns df)); simpl.
  - destruct (rows df) as [|r0 l].
    + split; [discriminate | intros (_ & H); now elim H].
    + split; [intros _; split; [reflexivity | discriminate] | reflexivity].
  - split; [discriminate | intros (H & _); discriminate].
Qed.







(** ** BLOC B of coco9.py in a run *)

Lemma build_blockB_result (P : Pandas) (r1 r2 : option row) (i : nat)
    (n1 l1 s1 n2 s2 : value) :
  Blocks9.item_or "Noel" VNaN r1 = Ok n1 ->
  Blocks9.item_or "Land" VNaN r1 = Ok l1 ->
  Blocks9.item_or "Status" (VStr "Missing") r1 = Ok s1 ->
  Blocks9.item_or "Noel" VNaN r2 = Ok n2 ->
  Blocks9.item_or "Status" (VStr "Missing") r2 = Ok s2 ->
  Blocks9.build_blockB P r1 r2 i
  = Ok [ ("BLOC B", VNone);
         ("Noel(Table1)", n1); ("Land(Table1)", l1); ("Noel(Table2)", n2);
         ("1-1 Comment",
          VStr (Blocks9.make_one_to_one_comment P n1 n2 s1 s2 (i + 1)));
         ("Daytona(Table1)", side_cell "Daytona" r1);
         ("Daytona(Table2)", side_cell "Daytona" r2);
         ("Elastic (Table1)", side_cell "Elastic Daytona" r1);
         ("Elastic (Table2)", side_cell "Elastic Daytona" r2);
         ("ActiveComment", VStr (Blocks9.make_active_comment s1 s2)) ].
Proof.
  intros H1 H2 H3 H4 H5. unfold Blocks9.build_blockB.
  rewrite H1, H2, H3, H4, H5. cbn [bind].
  rewrite !cell_or_nan_side_cell. reflexivity.
Qed.

Lemma build_blockB_ok (P : Pandas) (r1 r2 : option row) (i : nat) (b : dict) :
  Blocks9.build_blockB P r1 r2 i = Ok b ->
  exists n1 l1 s1 n2 s2,
    Blocks9.item_or "Noel" VNaN r1 = Ok n1
    /\ Blocks9.item_or "Land" VNaN r1 = Ok l1
    /\ Blocks9.item_or "Status" (VStr "Missing") r1 = Ok s1
    /\ Blocks9.item_or "Noel" VNaN r2 = Ok n2
    /\ Blocks9.item_or "Status" (VStr "Missing") r2 = Ok s2.
Proof.
  unfold Blocks9.build_blockB. intros H.
  apply bind_ok in H as (n1 & H1 & H).
  apply bind_ok in H as (l1 & H2 & H).
  apply bind_ok in H as (s1 & H3 & H).
  apply bind_ok in H as (n2 & H4 & H).
  apply bind_ok in H as (s2 & H5 & H).
  exists n1, l1, s1, n2, s2. tauto.
Qed.

Lemma enriched9_status (P : Pandas) (d t : DataFrame) (r : row) :
  Main9.enrich P d = Ok t -> In r (rows t) ->
  exists s, dict_lookup "Status" r = Some (VStr s)
            /\ (s = "Active" \/ s = "Inactive").
Proof.
  intros E Hin. rewrite (enrich9_rows P d t E) in Hin.
  apply in_map_iff in Hin as (r0 & <- & _). rewrite enriched_status.
  destruct (status_of_row_range P (noel_row P r0)) as [-> | ->]; eauto.
Qed.

Lemma item_or_some (c : string) (dflt v : value) (r : row) :
  dict_lookup c r = Some v -> Blocks9.item_or c dflt (Some r) = Ok v.
Proof. intros H. simpl. unfold dict_getitem. now rewrite H. Qed.

Lemma active_comment_statuses (sa sb : string) :
  sa = "Active" \/ sa = "Inactive" -> sb = "Active" \/ sb = "Inactive" ->
  Blocks9.make_active_comment (VStr sa) (VStr sb)
  = if String.eqb sa sb then "Both " ++ sa else "T1 " ++ sa ++ ", T2 " ++ sb.
Proof. intros [-> | ->] [-> | ->]; reflexivity. Qed.

(** In a run of [coco9.py] the two comments of BLOC B follow the sides of
    the pair.  With both records present the activity comment is "Both s"
    when the two statuses are the same [s] and "T1 s, T2 s'" otherwise, and
    the row comment names both identifiers and repeats it; with a side
    absent the activity comment is "One or both missing" and the row
    comment names the identifier of the present record and the missing
    table.  The row number of the row comment is the rank of the pair
    within its key group, counted from 1, and the text "both missing" is
    never written. *)
Theorem blockB_comments_of_a_run (P : Pandas) (d1 d2 : DataFrame)
    (out : list Main9.OutputRow) :
  Main9.main P d1 d2 = Ok out ->
  exists t1 t2,
    Main9.enrich P d1 = Ok t1 /\ Main9.enrich P d2 = Ok t2
    /\ Forall2 (fun p o =>
         let row := "Row " ++ str_of_nat (index p + 1) in
         match sideA p, sideB p with
         | Some a, Some b =>
             exists na nb sa sb,
               dict_lookup "Noel" a = Some na /\ dict_lookup "Noel" b = Some nb
               /\ dict_lookup "Status" a = Some (VStr sa)
               /\ dict_lookup "Status" b = Some (VStr sb)
               /\ dict_lookup "ActiveComment" (Main9.blockB o)
                  = Some (VStr (if String.eqb sa sb then "Both " ++ sa
                                else "T1 " ++ sa ++ ", T2 " ++ sb))
               /\ dict_lookup "1-1 Comment" (Main9.blockB o)
                  = Some (VStr (row ++ ": T1 Noel=" ++ py_str P na
                                ++ ", T2 Noel=" ++ py_str P nb ++ ", "
                                ++ (if String.eqb sa sb then "Both " ++ sa
                                    else "T1 " ++ sa ++ ", T2 " ++ sb)))
         | Some a, None =>
             exists na,
               dict_lookup "Noel" a = Some na
               /\ dict_lookup "ActiveComment" (Main9.blockB o)
                  = Some (VStr "One or both missing")
               /\ dict_lookup "1-1 Comment" (Main9.blockB o)
                  = Some (VStr (row ++ ": T1 Noel=" ++ py_str P na ++ ", T2 missing"))
         | None, Some b =>
             exists nb,
               dict_lookup "Noel" b = Some nb
               /\ dict_lookup "ActiveComment" (Main9.blockB o)
                  = Some (VStr "One or both missing")
               /\ dict_lookup "1-1 Comment" (Main9.blockB o)
                  = Some (VStr (row ++ ": T2 Noel=" ++ py_str P nb ++ ", T1 missing"))
         | None, None => False
         end)
       (keyed_pairs t1 t2) out.
Proof.
  intros H. apply main9_inv in H as (t1 & t2 & E1 & E2 & HF).
  exists t1, t2. split; [exact E1|]. split; [exact E2|].
  apply Forall2_with_In in HF. eapply Forall2_impl; [|exact HF].
  intros p o (Hp & Ho). cbv beta in Ho. cbv zeta.
  pose proof (enrich9_keyed P d1 t1 E1) as K1.
  pose proof (enrich9_keyed P d2 t2 E2) as K2.
  destruct (keyed_side_noel t1 t2 p K1 K2 Hp) as (HA & HB).
  assert (Hin : (forall r, sideA p = Some r -> In r (rows t1))
                /\ (forall r, sideB p = Some r -> In r (rows t2))
                /\ (sideA p <> None \/ sideB p <> None)).
  { pose proof Hp as Hp'. apply keyed_pairs_In in Hp' as (_ & Hi & Hs).
    pose proof (pair_at_not_both_absent t1 t2 (key p) (index p) Hi) as Hnb.
    unfold sideA, sideB. rewrite Hs. split; [|split].
    - intros r Hr. now apply pair_at_sideA in Hr.
    - intros r Hr. now apply pair_at_sideB in Hr.
    - destruct (pair_at t1 t2 (key p) (index p)) as [[a|] [b|]]; simpl;
        try (left; discriminate); try (right; discriminate).
      now elim Hnb. }
  destruct Hin as (InA & InB & Hsome).
  unfold sideA, sideB in *. destruct (sides p) as [r1 r2]. cbn [fst snd] in *.
  apply output_row9_blockA in Ho as (_ & Hb).
  destruct (build_blockB_ok P r1 r2 (index p) _ Hb) as (n1 & l1 & s1 & n2 & s2 & I1 & I2 & I3 & I4 & I5).
  rewrite (build_blockB_result P r1 r2 (index p) n1 l1 s1 n2 s2 I1 I2 I3 I4 I5) in Hb.
  injection Hb as Hb. rewrite <- Hb. clear Hb.
  destruct r1 as [a|], r2 as [b|].
  - destruct (HA a eq_refl) as (na & Hna & Na).
    destruct (HB b eq_refl) as (nb & Hnb & Nb).
    destruct (enriched9_status P d1 t1 a E1 (InA a eq_refl)) as (sa & Hsa & Ra).
    destruct (enriched9_status P d2 t2 b E2 (InB b eq_refl)) as (sb & Hsb & Rb).
    rewrite (item_or_some _ _ _ _ Hna) in I1. injection I1 as <-.
    rewrite (item_or_some _ _ _ _ Hnb) in I4. injection I4 as <-.
    rewrite (item_or_some _ _ _ _ Hsa) in I3. injection I3 as <-.
    rewrite (item_or_some _ _ _ _ Hsb) in I5. injection I5 as <-.
    exists na, nb, sa, sb.
    split; [exact Hna|]. split; [exact Hnb|]. split; [exact Hsa|]. split; [exact Hsb|].
    split.
    + cbn [dict_lookup String.eqb Ascii.eqb Bool.eqb].
      now rewrite (active_comment_statuses sa sb Ra Rb).
    + cbn [dict_lookup String.eqb Ascii.eqb Bool.eqb].
      unfold Blocks9.make_one_to_one_comment, notna. rewrite Na, Nb.
      cbn [negb andb]. now rewrite (active_comment_statuses sa sb Ra Rb).
  - destruct (HA a eq_refl) as (na & Hna & Na).
    rewrite (item_or_some _ _ _ _ Hna) in I1. injection I1 as <-.
    simpl in I4, I5. injection I4 as <-. injection I5 as <-.
    destruct (enriched9_status P d1 t1 a E1 (InA a eq_refl)) as (sa & Hsa & Ra).
    rewrite (item_or_some _ _ _ _ Hsa) in I3. injection I3 as <-.
    exists na. split; [exact Hna|]. split.
    + cbn [dict_lookup String.eqb Ascii.eqb Bool.eqb].
      destruct Ra as [-> | ->]; reflexivity.
    + cbn [dict_lookup String.eqb Ascii.eqb Bool.eqb].
      unfold Blocks9.make_one_to_one_comment, notna. rewrite Na. reflexivity.
  - destruct (HB b eq_refl) as (nb & Hnb & Nb).
    rewrite (item_or_some _ _ _ _ Hnb) in I4. injection I4 as <-.
    simpl in I1, I3. injection I1 as <-. injection I3 as <-.
    destruct (enriched9_status P d2 t2 b E2 (InB b eq_refl)) as (sb & Hsb & Rb).
    rewrite (item_or_some _ _ _ _ Hsb) in I5. injection I5 as <-.
    exists nb. split; [exact Hnb|]. split.
    + cbn [dict_lookup String.eqb Ascii.eqb Bool.eqb].
      destruct Rb as [-> | ->]; reflexivity.
    + cbn [dict_lookup String.eqb Ascii.eqb Bool.eqb].
      unfold Blocks9.make_one_to_one_comment, notna. rewrite Nb. reflexivity.
  - destruct Hsome as [H|H]; now elim H.
Qed.

(** A run with the key "X" (one record of Source A against two of Source B)
    and the key "Z" (Source A only). *)
Lemma blockB_comments_of_a_run_witness :
  let A := Samples.frame ["Noel"; "Land"; "Elastic Daytona"]
             [[VStr "X"; VStr "FR"; VStr "2020-01-01"]; [VStr "Z"; VStr "DE"; VNaN]] in
  let B := Samples.frame ["Noel"; "Daytona"]
             [[VStr "X_001"; VStr "open"]; [VStr "X_002"; VStr "closed"]] in
  exists out,
    Main9.main Samples.P0 A B = Ok out
    /\ map (fun o => dict_lookup "1-1 Comment" (Main9.blockB o)) out
       = [Some (VStr "Row 1: T1 Noel=X, T2 Noel=X_001, T1 Inactive, T2 Active");
          Some (VStr "Row 2: T2 Noel=X_002, T1 missing");
          Some (VStr "Row 1: T1 Noel=Z, T2 missing")]
    /\ map (fun o => dict_lookup "ActiveComment" (Main9.blockB o)) out
       = [Some (VStr "T1 Inactive, T2 Active");
          Some (VStr "One or both missing");
          Some (VStr "One or both missing")].
Proof.
  intros A B.
  assert (Hland : forall r, In r (rows A) -> dict_mem "Land" r = true).
  { intros r [<-|[<-|[]]]; reflexivity. }
  destruct (main9_total Samples.P0 A B eq_refl ltac:(discriminate)
              eq_refl ltac:(discriminate) Hland) as (out & Hout).
  destruct (blockB_comments_of_a_run Samples.P0 A B out Hout)
    as (t1 & t2 & E1 & E2 & HF).
  exists out. split; [exact Hout|].
  vm_compute in Hout. injection Hout as <-.
  split; reflexivity.
Defined.

(** ** When [main] of coco9.py returns and when it raises *)

Lemma mapM_raise {A B : Type} (f : A -> result B) (l : list A) (e : exn) :
  (forall x, In x l -> (exists y, f x = Ok y) \/ f x = Raise e) ->
  (exists x, In x l /\ f x = Raise e) ->
  mapM f l = Raise e.
Proof.
  induction l as [|a l IH]; intros H (x & Hin & Hx); [destruct Hin|].
  simpl. destruct (H a (or_introl eq_refl)) as [(y & Hy) | Hr].
  - rewrite Hy. cbn [bind]. destruct Hin as [<- | Hin]; [congruence|].
    rewrite IH; [reflexivity | intros z Hz; apply H; now right | eauto].
  - now rewrite Hr.
Qed.

Lemma mapM_ok_or_raise {A B : Type} (f : A -> result B) (l : list A) (e : exn) :
  (forall x, In x l -> (exists y, f x = Ok y) \/ f x = Raise e) ->
  (exists out, mapM f l = Ok out) \/ mapM f l = Raise e.
Proof.
  induction l as [|a l IH]; intros H; simpl; [left; eauto|].
  destruct (H a (or_introl eq_refl)) as [(y & ->) | ->]; [|now right].
  cbn [bind]. destruct IH as [(ys & ->) | ->];
    [intros z Hz; apply H; now right | left; simpl; eauto | now right].
Qed.

Lemma keyed_record_key (P : Pandas) (st : row -> value) (r : row) :
  notna (dict_get "Noel" VNaN r) = true ->
  exists k, has_key k (enrich_row P st r).
Proof.
  unfold notna. rewrite negb_true_iff. intros H.
  destruct (split_noel_present P _ H) as (k & Hk).
  exists k. unfold has_key. now rewrite enrich_row_first.
Qed.

Lemma key_record_keyed (P : Pandas) (st : row -> value) (r : row) (k : string) :
  has_key k (enrich_row P st r) -> notna (dict_get "Noel" VNaN r) = true.
Proof.
  unfold has_key. rewrite enrich_row_first. intros H.
  apply split_noel_key_notna in H. unfold notna. now rewrite H.
Qed.

(** BLOC B of a pair of enriched records either is built or fails on the
    "Land" cell of the record of Source A. *)
Lemma build_blockB_ok_or_land (P : Pandas) (st1 st2 : row -> value)
    (r1 r2 : option row) (i : nat) :
  (forall r, r1 = Some r -> exists r0 k, r = enrich_row P st1 r0 /\ has_key k r) ->
  (forall r, r2 = Some r -> exists r0 k, r = enrich_row P st2 r0 /\ has_key k r) ->
  match r1 with
  | Some r => if dict_mem "Land" r
              then exists b, Blocks9.build_blockB P r1 r2 i = Ok b
              else Blocks9.build_blockB P r1 r2 i = Raise (KeyError "Land")
  | None => exists b, Blocks9.build_blockB P r1 r2 i = Ok b
  end.
Proof.
  intros H1 H2.
  assert (N2 : exists v, Blocks9.item_or "Noel" VNaN r2 = Ok v).
  { apply item_or_present. intros r Hr.
    destruct (H2 r Hr) as (r0 & k & -> & Hk).
    destruct (enriched_key_noel P st2 r0 k Hk) as (v & Hv & _). eauto. }
  assert (S2 : exists v, Blocks9.item_or "Status" (VStr "Missing") r2 = Ok v).
  { apply item_or_present. intros r Hr.
    destruct (H2 r Hr) as (r0 & k & -> & Hk). rewrite enriched_status. eauto. }
  destruct N2 as (n2 & N2). destruct S2 as (s2 & S2).
  destruct r1 as [r|].
  - destruct (H1 r eq_refl) as (r0 & k & -> & Hk).
    destruct (enriched_key_noel P st1 r0 k Hk) as (v & Hv & _).
    unfold Blocks9.build_blockB.
    rewrite (item_or_some "Noel" VNaN v _ Hv). cbn [bind].
    unfold dict_mem. destruct (dict_lookup "Land" (enrich_row P st1 r0)) as [l|] eqn:El.
    + rewrite (item_or_some "Land" VNaN l _ El). cbn [bind].
      rewrite (item_or_some "Status" (VStr "Missing") _ _ (enriched_status P st1 r0)).
      cbn [bind]. rewrite N2, S2. cbn [bind]. eauto.
    + cbn [Blocks9.item_or]. unfold dict_getitem at 1. rewrite El. reflexivity.
  - unfold Blocks9.build_blockB. cbn [Blocks9.item_or bind].
    rewrite N2, S2. cbn [bind]. eauto.
Qed.

Lemma subframe_nth (t : DataFrame) (k : string) (r : row) :
  In r (rows t) -> has_key k r ->
  exists i, (i < length (subframe k t))%nat /\ row_at (subframe k t) i = Some r.
Proof.
  intros Hin Hk.
  assert (H : In r (subframe k t)) by now apply subframe_In.
  apply In_nth_error in H as (i & Hi). exists i.
  split; [apply nth_error_Some; congruence | now rewrite row_at_nth].
Qed.

Lemma main9_sound_sources (P : Pandas) (d1 d2 : DataFrame) :
  source_error d1 = None -> source_error d2 = None ->
  if existsb lacks_land (rows d1)
  then Main9.main P d1 d2 = Raise (KeyError "Land")
  else exists out, Main9.main P d1 d2 = Ok out.
Proof.
  intros H1 H2. apply source_error_none in H1 as (M1 & N1).
  apply source_error_none in H2 as (M2 & N2).
  rewrite main9_unfold.
  destruct (enrich9_total P d1 M1 N1) as (t1 & E1).
  destruct (enrich9_total P d2 M2 N2) as (t2 & E2).
  rewrite E1, E2. cbn [bind].
  pose proof (enrich9_rows P d1 t1 E1) as R1.
  pose proof (enrich9_rows P d2 t2 E2) as R2.
  set (st := Coco9.status_of_row P) in *.
  assert (Hrow : forall k i,
    match fst (pair_at t1 t2 k i) with
    | Some r => if dict_mem "Land" r
                then exists o, Main9.output_row P (columns d1) (columns d2) i
                                 (pair_at t1 t2 k i) = Ok o
                else Main9.output_row P (columns d1) (columns d2) i
                       (pair_at t1 t2 k i) = Raise (KeyError "Land")
    | None => exists o, Main9.output_row P (columns d1) (columns d2) i
                          (pair_at t1 t2 k i) = Ok o
    end).
  { intros k i.
    pose proof (pair_at_sideA t1 t2 k i) as SA.
    pose proof (pair_at_sideB t1 t2 k i) as SB.
    destruct (pair_at t1 t2 k i) as [r1 r2]. cbn [fst snd] in *.
    pose proof (build_blockB_ok_or_land P st st r1 r2 i) as HB.
    unfold Main9.output_row.
    assert (HB' : match r1 with
      | Some r => if dict_mem "Land" r
                  then exists b, Blocks9.build_blockB P r1 r2 i = Ok b
                  else Blocks9.build_blockB P r1 r2 i = Raise (KeyError "Land")
      | None => exists b, Blocks9.build_blockB P r1 r2 i = Ok b
      end).
    { apply HB; intros r Hr.
      - destruct (SA r Hr) as (Hin & Hk). rewrite R1 in Hin.
        apply in_map_iff in Hin as (r0 & <- & _). eauto.
      - destruct (SB r Hr) as (Hin & Hk). rewrite R2 in Hin.
        apply in_map_iff in Hin as (r0 & <- & _). eauto. }
    clear HB.
    destruct r1 as [r|].
    - destruct (dict_mem "Land" r).
      + destruct HB' as (b & ->). cbn [bind]. eauto.
      + now rewrite HB'.
    - destruct HB' as (b & ->). cbn [bind]. eauto. }
  assert (Hland : forall r0, In r0 (rows d1) ->
            dict_mem "Land" (enrich_row P st r0) = dict_mem "Land" r0).
  { intros r0 _. unfold dict_mem. now rewrite enrich_row_land. }
  destruct (existsb lacks_land (rows d1)) eqn:Ex.
  - apply existsb_exists in Ex as (r0 & Hin0 & Hl).
    unfold lacks_land in Hl. apply andb_true_iff in Hl as (Hn & Hl).
    apply negb_true_iff in Hl.
    destruct (keyed_record_key P st r0 Hn) as (k & Hk).
    assert (Hin : In (enrich_row P st r0) (rows t1))
      by (rewrite R1; now apply in_map).
    destruct (subframe_nth t1 k _ Hin Hk) as (i & Hi & Hrow_i).
    rewrite (mapM_raise _ _ (KeyError "Land")); [reflexivity| |].
    + intros k' _. unfold Main9.group_rows.
      apply mapM_ok_or_raise. intros i' _.
      specialize (Hrow k' i').
      destruct (fst (pair_at t1 t2 k' i')) as [r|]; [|now left].
      destruct (dict_mem "Land" r); [now left | now right].
    + exists k. split.
      * apply all_noels_In. left. now exists (enrich_row P st r0).
      * unfold Main9.group_rows. apply mapM_raise.
        -- intros i' _. specialize (Hrow k i').
           destruct (fst (pair_at t1 t2 k i')) as [r|]; [|now left].
           destruct (dict_mem "Land" r); [now left | now right].
        -- exists i. split; [apply in_seq; unfold max_count; lia|].
           specialize (Hrow k i). unfold pair_at in Hrow at 1.
           cbn [fst] in Hrow. rewrite Hrow_i in Hrow.
           now rewrite Hland, Hl in Hrow.
  - destruct (mapM_total (Main9.group_rows P (columns d1) (columns d2) t1 t2)
                (all_noels t1 t2)) as (pk & Epk).
    + intros k _. unfold Main9.group_rows. apply mapM_total. intros i _.
      specialize (Hrow k i).
      pose proof (pair_at_sideA t1 t2 k i) as SA.
      destruct (fst (pair_at t1 t2 k i)) as [r|]; [|exact Hrow].
      destruct (SA r eq_refl) as (Hin & Hk). rewrite R1 in Hin.
      apply in_map_iff in Hin as (r0 & <- & Hin0).
      rewrite Hland in Hrow by exact Hin0.
      destruct (dict_mem "Land" r0) eqn:El; [exact Hrow|].
      exfalso. apply key_record_keyed in Hk.
      assert (Hc : existsb lacks_land (rows d1) = true).
      { apply existsb_exists. exists r0. split; [exact Hin0|].
        unfold lacks_land. now rewrite Hk, El. }
      congruence.
    + rewrite Epk. cbn [bind]. eauto.
Qed.


Lemma enrich9_ok_source (P : Pandas) (d t : DataFrame) :
  Main9.enrich P d = Ok t -> source_error d = None.
Proof.
  intros E. destruct (source_error d) as [e|] eqn:H; [|reflexivity].
  unfold Main9.enrich in E. rewrite (add_noel_columns_error P d e H) in E.
  discriminate.
Qed.

(** ** A key that lives in Source A only: the statement *)

(** C9, as the code has it.  A key with one Source-A record and no
    Source-B record yields exactly one AlignedPair, with its B side absent.
    The presence comment says the record is missing on the Source-B side:
    "missing in Table2" in [coco21.py], "T2 missing" in the row comment of
    [coco9.py].  The activity comment gives Source B no state: in
    [coco9.py] it reads "One or both missing"; in [coco21.py] it is
    "Table1 Active" or "Table1 Inactive", Source B being left out of it and
    its status cell empty.  [coco9.py] writes its two comments only when
    the Source-A record has a "Land" cell: without one the pair is built
    all the same, but filling BLOC B raises [KeyError] on "Land" and the
    run ends with that exception. *)
Theorem C9_key_only_in_source_A (P : Pandas) (d1 d2 : DataFrame) (k : string) :
  (forall t1 t2 r,
     Main21.enrich P d1 = Ok t1 -> Main21.enrich P d2 = Ok t2 ->
     subframe k t1 = [r] -> subframe k t2 = [] ->
     group_pairs t1 t2 k = [(Some r, None)]
     /\ exists o s,
          Main21.group_rows P t1 t2 k = Ok [o]
          /\ (s = "Active" \/ s = "Inactive")
          /\ dict_lookup "Comment2_B1" (Main21.block1 o)
             = Some (VStr "missing in Table2")
          /\ dict_lookup "Table1_Status" (Main21.block1 o) = Some (VStr s)
          /\ dict_lookup "Table2_Status" (Main21.block1 o) = Some VNaN
          /\ dict_lookup "Comment1_B1" (Main21.block1 o)
             = Some (VStr ("Table1 " ++ s)))
  /\ (forall t1 t2 r,
        Main9.enrich P d1 = Ok t1 -> Main9.enrich P d2 = Ok t2 ->
        subframe k t1 = [r] -> subframe k t2 = [] ->
        group_pairs t1 t2 k = [(Some r, None)]
        /\ (dict_mem "Land" r = true ->
            exists o n,
              Main9.group_rows P (columns d1) (columns d2) t1 t2 k = Ok [o]
              /\ dict_lookup "Noel" r = Some n
              /\ dict_lookup "1-1 Comment" (Main9.blockB o)
                 = Some (VStr ("Row 1: T1 Noel=" ++ py_str P n ++ ", T2 missing"))
              /\ dict_lookup "ActiveComment" (Main9.blockB o)
                 = Some (VStr "One or both missing"))
        /\ (dict_mem "Land" r = false ->
            Main9.group_rows P (columns d1) (columns d2) t1 t2 k
            = Raise (KeyError "Land")
            /\ Main9.main P d1 d2 = Raise (KeyError "Land"))).
Proof.
  split.
  - intros t1 t2 r E1 E2 H1 H2.
    destruct (lone_pair t1 t2 k r H1 H2) as (Hmax & Hpair & Hgroup).
    split; [exact Hgroup|].
    destruct (lone_record t1 k r H1) as (Hin & Hkey).
    destruct (enrich21_keyed P d1 t1 E1 r k Hin Hkey) as (n & Hn & _).
    rewrite (enrich21_rows P d1 t1 E1) in Hin.
    apply in_map_iff in Hin as (r0 & <- & _).
    pose proof (enriched_status P (Coco21.get_activity_status P) r0) as Hst.
    assert (Hs : exists s, Coco21.get_activity_status P (noel_row P r0) = VStr s
                           /\ (s = "Active" \/ s = "Inactive")).
    { destruct (get_activity_status_range P (noel_row P r0)) as [-> | ->]; eauto. }
    destruct Hs as (s & Hs & Hrange). rewrite Hs in Hst.
    destruct (block1_lone_A P _ n s Hn Hst) as (b1 & B1 & L2 & L3 & L4 & L5).
    destruct (build_block2_result P (Some (enrich_row P (Coco21.get_activity_status P) r0))
                None) as (c1 & c2 & c3 & B2 & _).
    eexists. exists s. split.
    + unfold Main21.group_rows. rewrite Hmax, many_to_many_count, H2.
      cbn -[pair_at Main21.output_row].
      rewrite Hpair. unfold Main21.output_row. rewrite B1, B2.
      cbn [bind]. reflexivity.
    + cbn [Main21.block1]. repeat split; assumption.
  - intros t1 t2 r E1 E2 H1 H2.
    destruct (lone_pair t1 t2 k r H1 H2) as (Hmax & Hpair & Hgroup).
    split; [exact Hgroup|].
    destruct (lone_record t1 k r H1) as (Hin & Hkey).
    destruct (enrich9_keyed P d1 t1 E1 r k Hin Hkey) as (n & Hn & Hna).
    rewrite (enrich9_rows P d1 t1 E1) in Hin.
    apply in_map_iff in Hin as (r0 & <- & Hin0).
    split.
    + intros Hland. unfold dict_mem in Hland.
      destruct (dict_lookup "Land" _) as [l|] eqn:Hl; [|discriminate].
      pose proof (enriched_status P (Coco9.status_of_row P) r0) as Hst.
      assert (Hs : exists s, Coco9.status_of_row P (noel_row P r0) = VStr s
                             /\ (s = "Active" \/ s = "Inactive")).
      { destruct (status_of_row_range P (noel_row P r0)) as [-> | ->]; eauto. }
      destruct Hs as (s & Hs & Hrange). rewrite Hs in Hst.
      destruct (blockB_lone_A P _ n l s 0 Hn Hna Hl Hst Hrange) as (b & B & L1 & L2).
      eexists. exists n. split.
      * unfold Main9.group_rows. rewrite Hmax.
        cbn -[pair_at Main9.output_row].
        rewrite Hpair. unfold Main9.output_row. rewrite B.
        cbn [bind]. reflexivity.
      * cbn [Main9.blockB]. repeat split; assumption.
    + intros Hland. split.
      * pose proof (build_blockB_ok_or_land P (Coco9.status_of_row P)
                      (Coco9.status_of_row P)
                      (Some (enrich_row P (Coco9.status_of_row P) r0)) None 0) as HB.
        cbv beta iota in HB. rewrite Hland in HB.
        unfold Main9.group_rows. rewrite Hmax.
        cbn -[pair_at Main9.output_row].
        rewrite Hpair. unfold Main9.output_row. rewrite HB; [reflexivity| |].
        -- intros r' Hr'. injection Hr' as <-. exists r0, k. now split.
        -- intros r' Hr'. discriminate.
      * pose proof (main9_sound_sources P d1 d2 (enrich9_ok_source P d1 t1 E1)
                      (enrich9_ok_source P d2 t2 E2)) as Hm.
        assert (Hex : existsb lacks_land (rows d1) = true).
        { apply existsb_exists. exists r0. split; [exact Hin0|].
          unfold lacks_land. rewrite (key_record_keyed P _ r0 k Hkey).
          unfold dict_mem in *. rewrite enrich_row_land in Hland.
          now rewrite Hland. }
        now rewrite Hex in Hm.
Qed.

(** The scenario of the specification, run through [coco9.py]: key "Z" in
    Source A only; first with a "Land" cell, then without. *)
Lemma C9_key_only_in_source_A_witness :
  let A := Samples.frame ["Noel"; "Daytona"; "Land"]
             [[VStr "Z"; VStr "open"; VStr "007"]] in
  let A' := Samples.frame ["Noel"; "Daytona"] [[VStr "Z"; VStr "open"]] in
  let B := Samples.frame ["Noel"; "Daytona"] [[VStr "Y"; VStr "open"]] in
  (exists t1 t2 o,
     Main9.enrich Samples.P0 A = Ok t1 /\ Main9.enrich Samples.P0 B = Ok t2
     /\ length (group_pairs t1 t2 "Z") = 1%nat
     /\ Main9.group_rows Samples.P0 (columns A) (columns B) t1 t2 "Z" = Ok [o]
     /\ dict_lookup "1-1 Comment" (Main9.blockB o)
        = Some (VStr "Row 1: T1 Noel=Z, T2 missing")
     /\ dict_lookup "ActiveComment" (Main9.blockB o)
        = Some (VStr "One or both missing"))
  /\ Main9.main Samples.P0 A' B = Raise (KeyError "Land").
Proof.
  intros A A' B. split.
  - assert (E1 : exists t1, Main9.enrich Samples.P0 A = Ok t1) by (eexists; reflexivity).
    assert (E2 : exists t2, Main9.enrich Samples.P0 B = Ok t2) by (eexists; reflexivity).
    destruct E1 as (t1 & E1). destruct E2 as (t2 & E2).
    assert (H1 : exists r, subframe "Z" t1 = [r] /\ dict_mem "Land" r = true
                           /\ dict_lookup "Noel" r = Some (VStr "Z")).
    { vm_compute in E1. injection E1 as <-. eexists. repeat split. }
    assert (H2 : subframe "Z" t2 = []).
    { vm_compute in E2. injection E2 as <-. reflexivity. }
    destruct H1 as (r & H1 & Hland & Hnoel).
    destruct (proj2 (C9_key_only_in_source_A Samples.P0 A B "Z")
                t1 t2 r E1 E2 H1 H2)
      as (Hgroup & Hyes & _).
    destruct (Hyes Hland) as (o & n & Hrows & Hn & L1 & L2).
    exists t1, t2, o.
    split; [exact E1|]. split; [exact E2|].
    split; [now rewrite Hgroup|]. split; [exact Hrows|].
    rewrite Hnoel in Hn. injection Hn as <-.
    split; [exact L1 | exact L2].
  - assert (E1 : exists t1, Main9.enrich Samples.P0 A' = Ok t1) by (eexists; reflexivity).
    assert (E2 : exists t2, Main9.enrich Samples.P0 B = Ok t2) by (eexists; reflexivity).
    destruct E1 as (t1 & E1). destruct E2 as (t2 & E2).
    assert (H1 : exists r, subframe "Z" t1 = [r] /\ dict_mem "Land" r = false).
    { vm_compute in E1. injection E1 as <-. eexists. repeat split. }
    assert (H2 : subframe "Z" t2 = []).
    { vm_compute in E2. injection E2 as <-. reflexivity. }
    destruct H1 as (r & H1 & Hland).
    destruct (proj2 (C9_key_only_in_source_A Samples.P0 A' B "Z")
                t1 t2 r E1 E2 H1 H2)
      as (_ & _ & Hno).
    exact (proj2 (Hno Hland)).
Defined.

(** C9 as stated fails on [coco21.py]: for the key "Z" the activity comment
    is "Table1 Active"; it says nothing of Source B, neither "missing" nor
    a state. *)
Lemma C9_counterexample_coco21_activity_comment :
  let A := Samples.frame ["Noel"; "Daytona"] [[VStr "Z"; VStr "open"]] in
  let B := Samples.frame ["Noel"; "Daytona"] [[VStr "Y"; VStr "open"]] in
  exists oY oZ,
    Main21.main Samples.P0 A B = Ok [oY; oZ]
    /\ dict_lookup "Table1_Noel" (Main21.block1 oZ) = Some (VStr "Z")
    /\ dict_lookup "Table2_Noel" (Main21.block1 oZ) = Some VNaN
    /\ dict_lookup "Comment2_B1" (Main21.block1 oZ) = Some (VStr "missing in Table2")
    /\ dict_lookup "Comment1_B1" (Main21.block1 oZ) = Some (VStr "Table1 Active")
    /\ py_in "missing" (lower "Table1 Active") = false
    /\ py_in "Table2" "Table1 Active" = false.
Proof.
  intros A B. do 2 eexists.
  split; [vm_compute; reflexivity|].
  repeat split.
Qed.

(** ** [main] of coco9.py from the cleaning of the headers on *)



(** ** BLOC C of coco9.py *)

Lemma fill_cells_lookup (prefix : string) (r : option row) (cols : list string)
    (b : dict) (c : string) :
  dict_lookup (prefix ++ c) (Blocks9.fill_cells prefix r cols b)
  = if mem_str c cols then Some (side_cell c r) else dict_lookup (prefix ++ c) b.
Proof.
  unfold Blocks9.fill_cells. revert b.
  induction cols as [|c' cols IH]; intros b; simpl; [reflexivity|].
  rewrite IH. destruct (mem_str c cols) eqn:E.
  - now rewrite orb_true_r.
  - rewrite orb_false_r. destruct (String.eqb c c') eqn:Ec.
    + apply String.eqb_eq in Ec. subst c'.
      rewrite dict_lookup_set_same. now rewrite cell_or_nan_side_cell.
    + apply dict_lookup_set_other. rewrite eqb_append_l.
      now rewrite String.eqb_sym.
Qed.

Lemma fill_cells_lookup_other (k p' : string) (r : option row)
    (cols : list string) (b : dict) :
  (forall c', String.eqb (p' ++ c') k = false) ->
  dict_lookup k (Blocks9.fill_cells p' r cols b) = dict_lookup k b.
Proof.
  intros Hne. unfold Blocks9.fill_cells. revert b.
  induction cols as [|c' cols IH]; intros b; simpl; [reflexivity|].
  rewrite IH. now apply dict_lookup_set_other.
Qed.

Lemma set_comments_lookup_other (k k1 k2 k3 mt nmt : string)
    (m : list string * list string) (mm : list string) (b : dict) :
  String.eqb k1 k = false -> String.eqb k2 k = false -> String.eqb k3 k = false ->
  dict_lookup k (Blocks9.set_comments k1 k2 k3 mt nmt m mm b) = dict_lookup k b.
Proof.
  intros H1 H2 H3. unfold Blocks9.set_comments. destruct m as [m1 m2].
  now rewrite !dict_lookup_set_other by assumption.
Qed.

Lemma nonempty_filter_true {A : Type} (f : A -> bool) (l : list A) :
  Blocks9.nonempty (filter f l) = true <-> exists x, In x l /\ f x = true.
Proof.
  induction l as [|x l IH]; simpl.
  - split; [discriminate | intros (y & [] & _)].
  - destruct (f x) eqn:E; simpl.
    + split; [eauto | reflexivity].
    + rewrite IH. split.
      * intros (y & Hy & Fy). eauto.
      * intros (y & [<-|Hy] & Fy); [congruence | eauto].
Qed.

(** BLOC C of a pair shows, for every column outside the core list, the
    cell of the record of each source (the null marker where the record is
    absent or has no such cell).  Its verdict is "Missing Secondary Data"
    exactly when one of these cells is null; failing that it is "GAP"
    exactly when a column that both tables have outside the core differs
    between the two records, and "MATCH" otherwise.  The second comment
    lists the null columns of each table when there is one and is "No
    missing in non-core" when there is none. *)
Theorem blockC_of_a_pair (P : Pandas) (nc1 nc2 : list string)
    (r1 r2 : option row) :
  let C := Blocks9.build_blockC P nc1 nc2 r1 r2 in
  let m1 := filter (fun c => isna (side_cell c r1)) nc1 in
  let m2 := filter (fun c => isna (side_cell c r2)) nc2 in
  let missing := exists c, In c nc1 /\ isna (side_cell c r1) = true
                           \/ In c nc2 /\ isna (side_cell c r2) = true in
  let differs := exists c, In c nc1 /\ In c nc2
                   /\ field_outcome P (side_cell c r1) (side_cell c r2) = Mismatch in
  (forall c, In c nc1 -> dict_lookup ("Table1_" ++ c) C = Some (side_cell c r1))
  /\ (forall c, In c nc2 -> dict_lookup ("Table2_" ++ c) C = Some (side_cell c r2))
  /\ (dict_lookup "CommentC_1" C = Some (VStr "Missing Secondary Data") <-> missing)
  /\ (dict_lookup "CommentC_1" C = Some (VStr "GAP") <-> ~ missing /\ differs)
  /\ (dict_lookup "CommentC_1" C = Some (VStr "MATCH") <-> ~ missing /\ ~ differs)
  /\ dict_lookup "CommentC_2" C
     = Some (VStr (match m1, m2 with
                   | [], [] => "No missing in non-core"
                   | _, _ => "Table1 missing: " ++ join ", " m1 ++ Blocks9.newline
                             ++ "Table2 missing: " ++ join ", " m2
                   end)).
Proof.
  intros C m1 m2 missing differs.
  set (C0 := Blocks9.fill_cells "Table2_" r2 nc2
               (Blocks9.fill_cells "Table1_" r1 nc1 [("BLOC C", VNone)])).
  assert (L1 : forall c, In c nc1 -> dict_lookup ("Table1_" ++ c) C0 = Some (side_cell c r1)).
  { intros c Hc. subst C0. rewrite fill_cells_lookup_other by reflexivity.
    rewrite fill_cells_lookup. apply mem_str_In in Hc. now rewrite Hc. }
  assert (L2 : forall c, In c nc2 -> dict_lookup ("Table2_" ++ c) C0 = Some (side_cell c r2)).
  { intros c Hc. subst C0. rewrite fill_cells_lookup.
    apply mem_str_In in Hc. now rewrite Hc. }
  assert (H1 : forall c, In c nc1 -> dict_get ("Table1_" ++ c) VNaN C0 = side_cell c r1).
  { intros c Hc. unfold dict_get. now rewrite L1. }
  assert (H2 : forall c, In c nc2 -> dict_get ("Table2_" ++ c) VNaN C0 = side_cell c r2).
  { intros c Hc. unfold dict_get. now rewrite L2. }
  assert (EC : C = Blocks9.set_comments "CommentC_1" "CommentC_2" "CommentC_3"
                     "Missing Secondary Data" "No missing in non-core"
                     (m1, m2) (filter (mismatch_field P r1 r2 nc2) nc1) C0).
  { subst C. unfold Blocks9.build_blockC. cbv zeta. fold C0.
    unfold Blocks9.check_missing_noncore.
    rewrite (missing_in_cells "Table1_" C0 nc1 r1 H1).
    rewrite (missing_in_cells "Table2_" C0 nc2 r2 H2).
    now rewrite (has_mismatch_cells P C0 nc1 nc2 r1 r2 H1 H2). }
  assert (Hmiss : Blocks9.nonempty m1 || Blocks9.nonempty m2 = true <-> missing).
  { rewrite orb_true_iff. subst m1 m2 missing. rewrite !nonempty_filter_true.
    split.
    - intros [(c & Hc & Hn) | (c & Hc & Hn)]; exists c; tauto.
    - intros (c & [(Hc & Hn) | (Hc & Hn)]); [left | right]; eauto. }
  assert (Hdiff : Blocks9.nonempty (filter (mismatch_field P r1 r2 nc2) nc1) = true
                  <-> differs).
  { rewrite nonempty_filter_true. subst differs. unfold mismatch_field. split.
    - intros (c & Hc & Hm). apply andb_true_iff in Hm as (Hm2 & Ho).
      apply mem_str_In in Hm2. exists c. split; [exact Hc|]. split; [exact Hm2|].
      now destruct (field_outcome _ _ _).
    - intros (c & Hc1 & Hc2 & Ho). exists c. split; [exact Hc1|].
      apply mem_str_In in Hc2. now rewrite Hc2, Ho. }
  split; [|split].
  - intros c Hc. rewrite EC, set_comments_lookup_other by reflexivity. now apply L1.
  - intros c Hc. rewrite EC, set_comments_lookup_other by reflexivity. now apply L2.
  - destruct (set_comments_lookup "CommentC_1" "CommentC_2" "CommentC_3"
                "Missing Secondary Data" "No missing in non-core"
                (m1, m2) (filter (mismatch_field P r1 r2 nc2) nc1) C0
                eq_refl eq_refl eq_refl) as (K1 & _).
    pose proof (set_comments_lookup_missing "CommentC_1" "CommentC_2" "CommentC_3"
                "Missing Secondary Data" "No missing in non-core"
                (m1, m2) (filter (mismatch_field P r1 r2 nc2) nc1) C0 eq_refl) as K2.
    rewrite <- EC in K1, K2. cbn [fst snd] in K1, K2. rewrite K1, K2.
    destruct (Blocks9.nonempty m1 || Blocks9.nonempty m2) eqn:Em.
    + assert (Hm : missing) by now apply Hmiss.
      split; [tauto|]. split; [split; [discriminate | tauto]|].
      split; [split; [discriminate | tauto]|].
      destruct m1, m2; try reflexivity. discriminate.
    + assert (Hm : ~ missing) by (rewrite <- Hmiss; discriminate).
      destruct (Blocks9.nonempty (filter (mismatch_field P r1 r2 nc2) nc1)) eqn:Ed.
      * assert (Hd : differs) by now apply Hdiff.
        split; [split; [discriminate | tauto]|].
        split; [tauto|]. split; [split; [discriminate | tauto]|].
        destruct m1, m2; try reflexivity; discriminate.
      * assert (Hd : ~ differs) by (rewrite <- Hdiff; discriminate).
        split; [split; [discriminate | tauto]|].
        split; [split; [discriminate | tauto]|]. split; [tauto|].
        destruct m1, m2; try reflexivity; discriminate.
Qed.

(** ** The styles of the sheets *)

Section Passes.
Import Sheet StyleSpec.

Lemma pointwise_update (r c : nat) (f : CellStyle -> CellStyle) :
  pointwise (update_cell r c f) (at_cell r c f).
Proof. intros st r' c'. reflexivity. Qed.

Lemma pointwise_comp (T1 T2 : Styles -> Styles)
    (p1 p2 : nat -> nat -> CellStyle -> CellStyle) :
  pointwise T1 p1 -> pointwise T2 p2 ->
  pointwise (fun st => T2 (T1 st)) (fun r c s => p2 r c (p1 r c s)).
Proof. intros H1 H2 st r c. now rewrite H2, H1. Qed.

Lemma pointwise_fold {X : Type} (body : X -> Styles -> Styles)
    (phi : X -> nat -> nat -> CellStyle -> CellStyle) (l : list X) :
  (forall x, pointwise (body x) (phi x)) ->
  pointwise (fun st => fold_left (fun s x => body x s) l st)
            (fun r c s => fold_left (fun s x => phi x r c s) l s).
Proof.
  intros H. induction l as [|x l IH]; intros st r c; simpl; [reflexivity|].
  rewrite IH. now rewrite H.
Qed.

Lemma pointwise_range (lo hi : nat) (body : nat -> Styles -> Styles)
    (phi : nat -> nat -> nat -> CellStyle -> CellStyle) :
  (forall i, pointwise (body i) (phi i)) ->
  pointwise (for_range lo hi body)
            (fun r c s => fold_left (fun s i => phi i r c s) (seq lo (hi - lo)) s).
Proof. intros H. unfold for_range. now apply pointwise_fold. Qed.

(** A loop in which only the round [i0] changes anything. *)
Lemma fold_seq_single {St : Type} (F : nat -> St -> St) (i0 lo n : nat) (s : St) :
  (forall i s, i <> i0 -> F i s = s) ->
  fold_left (fun s i => F i s) (seq lo n) s
  = if in_range lo (lo + n) i0 then F i0 s else s.
Proof.
  intros H. unfold in_range. revert lo s.
  induction n as [|n IH]; intros lo s; simpl.
  - replace (lo + 0)%nat with lo by lia.
    destruct (lo <=? i0)%nat eqn:E1, (i0 <? lo)%nat eqn:E2; try reflexivity.
    apply Nat.leb_le in E1. apply Nat.ltb_lt in E2. lia.
  - rewrite IH. destruct (Nat.eq_dec lo i0) as [->|Hne].
    + replace (S i0 <=? i0)%nat with false by (symmetry; apply Nat.leb_gt; lia).
      replace (i0 <=? i0)%nat with true by (symmetry; apply Nat.leb_le; lia).
      replace (i0 <? i0 + S n)%nat with true by (symmetry; apply Nat.ltb_lt; lia).
      reflexivity.
    + rewrite (H lo s Hne).
      replace (S lo + n)%nat with (lo + S n)%nat by lia.
      destruct (i0 <? lo + S n)%nat; [|now rewrite !andb_false_r].
      rewrite !andb_true_r.
      destruct (S lo <=? i0)%nat eqn:E1, (lo <=? i0)%nat eqn:E2; try reflexivity;
        [apply Nat.leb_le in E1; apply Nat.leb_gt in E2; lia
        |apply Nat.leb_gt in E1; apply Nat.leb_le in E2; lia].
Qed.


Lemma in_range_span (lo hi i : nat) :
  in_range lo (lo + (hi - lo)) i = in_range lo hi i.
Proof.
  unfold in_range.
  destruct (lo <=? i)%nat eqn:E1; [|reflexivity]. simpl.
  apply Nat.leb_le in E1.
  destruct (i <? hi)%nat eqn:E2.
  - apply Nat.ltb_lt in E2. apply Nat.ltb_lt. lia.
  - apply Nat.ltb_ge in E2. apply Nat.ltb_ge. lia.
Qed.

Lemma at_cell_other_row (r c : nat) (f : CellStyle -> CellStyle)
    (r' c' : nat) (s : CellStyle) :
  r' <> r -> at_cell r c f r' c' s = s.
Proof.
  intros H. unfold at_cell. apply Nat.eqb_neq in H. now rewrite H.
Qed.

Lemma at_cell_other_col (r c : nat) (f : CellStyle -> CellStyle)
    (r' c' : nat) (s : CellStyle) :
  c' <> c -> at_cell r c f r' c' s = s.
Proof.
  intros H. unfold at_cell. apply Nat.eqb_neq in H.
  now rewrite H, andb_false_r.
Qed.

Lemma at_cell_same (r c : nat) (f : CellStyle -> CellStyle) (s : CellStyle) :
  at_cell r c f r c s = f s.
Proof. unfold at_cell. now rewrite !Nat.eqb_refl. Qed.

(** Two nested loops whose body touches the cell of its two counters. *)
Lemma double_loop_pointwise (lo1 hi1 lo2 hi2 : nat)
    (body : nat -> nat -> Styles -> Styles)
    (g : nat -> nat -> CellStyle -> CellStyle) :
  (forall r c, pointwise (body r c) (at_cell r c (g r c))) ->
  pointwise (for_range lo1 hi1
               (fun r st => for_range lo2 hi2 (fun c st => body r c st) st))
            (fun r c s => if in_range lo1 hi1 r && in_range lo2 hi2 c
                          then g r c s else s).
Proof.
  intros H st r0 c0.
  rewrite (pointwise_range lo1 hi1 _
             (fun r r' c' s =>
                fold_left (fun s c => at_cell r c (g r c) r' c' s)
                          (seq lo2 (hi2 - lo2)) s)).
  - rewrite (fold_seq_single _ r0).
    + rewrite in_range_span. destruct (in_range lo1 hi1 r0); [|reflexivity].
      rewrite (fold_seq_single _ c0).
      * rewrite in_range_span. simpl.
        destruct (in_range lo2 hi2 c0); [apply at_cell_same | reflexivity].
      * intros c s Hc. apply at_cell_other_col. congruence.
    + intros r s Hr. induction (seq lo2 (hi2 - lo2)) as [|c l IH] in s |- *;
        simpl; [reflexivity|].
      rewrite at_cell_other_row by congruence. apply IH.
  - intros r. apply pointwise_range. intros c. apply H.
Qed.

(** *** The base fill pass of coco21.py *)

Lemma base_fill21_pointwise (hs : list string) (r c : nat) :
  pointwise (Style21.base_fill hs r c) (at_cell r c (base_style21 hs r c)).
Proof.
  intros st r' c'. unfold Style21.base_fill, base_style21, header, base_colour.
  destruct (r =? 1)%nat; [reflexivity|].
  destruct (mem_str _ _).
  - simpl. unfold at_cell. now destruct ((r' =? r) && (c' =? c))%nat.
  - destruct (starts_with "Table1_" _); [reflexivity|].
    destruct (starts_with "Table2_" _); [reflexivity|].
    destruct (py_in "Comment" _ || py_in "Status" _); reflexivity.
Qed.

(** *** The pair pass *)

Lemma style_pair21_pointwise (P : Pandas) (ws : Worksheet) (t1 t2 r : nat) :
  pointwise (Style21.style_pair P ws t1 t2 r)
    (fun r' c' s =>
       let v1 := cell_value ws r t1 in
       let v2 := cell_value ws r t2 in
       at_cell r t2 (paint (border21 P v1 v2) v2) r' c'
         (at_cell r t1 (paint (border21 P v1 v2) v1) r' c' s)).
Proof.
  intros st r' c'. cbv zeta. unfold Style21.style_pair, paint, border21, field_outcome.
  cbv zeta. unfold notna.
  remember (cell_value ws r t1) as v1 eqn:E1.
  remember (cell_value ws r t2) as v2 eqn:E2.
  clear E1 E2.
  destruct (isna v1) eqn:N1, (isna v2) eqn:N2; cbn [andb negb].
  - unfold at_cell. simpl.
    destruct (r' =? r)%nat, (c' =? t1)%nat, (c' =? t2)%nat; reflexivity.
  - unfold Style21.set_border, at_cell. simpl.
    destruct (r' =? r)%nat, (c' =? t1)%nat eqn:C1, (c' =? t2)%nat eqn:C2;
      try reflexivity.
  - unfold Style21.set_border, at_cell. simpl.
    destruct (r' =? r)%nat, (c' =? t1)%nat eqn:C1, (c' =? t2)%nat eqn:C2;
      try reflexivity.
  - destruct (String.eqb (strip (py_str P v1)) (strip (py_str P v2))) eqn:Es.
    + apply String.eqb_eq in Es. rewrite <- Es.
      destruct (String.eqb (strip (py_str P v1)) EmptyString); cbn [andb negb].
      * unfold at_cell.
        now destruct ((r' =? r) && (c' =? t1))%nat, ((r' =? r) && (c' =? t2))%nat.
      * unfold Style21.set_border, at_cell. simpl.
        destruct (r' =? r)%nat, (c' =? t1)%nat, (c' =? t2)%nat; reflexivity.
    + cbn [negb]. rewrite !andb_true_r, andb_false_r.
      assert (E : (if negb (String.eqb (strip (py_str P v1)) EmptyString)
                      && negb (String.eqb (strip (py_str P v2)) EmptyString)
                   then Style21.set_border r t2 Style21.orange_side
                          (Style21.set_border r t1 Style21.orange_side st)
                   else Style21.set_border r t2 Style21.orange_side
                          (Style21.set_border r t1 Style21.orange_side st))
                  = Style21.set_border r t2 Style21.orange_side
                          (Style21.set_border r t1 Style21.orange_side st))
        by now destruct (_ && _).
      rewrite E.
      unfold Style21.set_border, at_cell. simpl.
      destruct (r' =? r)%nat, (c' =? t1)%nat, (c' =? t2)%nat; reflexivity.
Qed.


(** *** The table of the pairs of columns *)

Lemma enumerate_from_snoc {A : Type} (k : nat) (l : list A) (x : A) :
  enumerate_from k (l ++ [x])%list
  = (enumerate_from k l ++ [((k + length l)%nat, x)])%list.
Proof.
  revert k. induction l as [|a l IH]; intros k; simpl.
  - now rewrite Nat.add_0_r.
  - rewrite IH. now rewrite Nat.add_succ_r.
Qed.

Lemma last_index_snoc (f : string -> bool) (hs : list string) (h : string) :
  last_index f (hs ++ [h])%list
  = if f h then Some (S (length hs)) else last_index f hs.
Proof.
  unfold last_index, enumerate. rewrite enumerate_from_snoc, fold_left_app.
  reflexivity.
Qed.

Lemma build_pairs_snoc (hs : list string) (h : string) :
  build_pairs (hs ++ [h])%list = pairs_step (build_pairs hs) (S (length hs), h).
Proof.
  unfold build_pairs, enumerate. rewrite enumerate_from_snoc, fold_left_app.
  reflexivity.
Qed.

Lemma header_app_l (hs : list string) (h : string) (j : nat) :
  (1 <= j <= length hs)%nat -> header (hs ++ [h])%list j = header hs j.
Proof. intros H. unfold header. apply app_nth1. lia. Qed.

Lemma header_app_r (hs : list string) (h : string) :
  header (hs ++ [h])%list (S (length hs)) = h.
Proof.
  unfold header. rewrite app_nth2 by lia.
  replace (S (length hs) - 1 - length hs)%nat with 0%nat by lia. reflexivity.
Qed.

(** [last_index] finds the last column whose header passes the test. *)
Lemma last_index_Some (f : string -> bool) (hs : list string) (i : nat) :
  last_index f hs = Some i ->
  (1 <= i <= length hs)%nat /\ f (header hs i) = true
  /\ forall j, (i < j <= length hs)%nat -> f (header hs j) = false.
Proof.
  revert i. induction hs as [|h hs IH] using rev_ind; intros i.
  - discriminate.
  - rewrite last_index_snoc, length_app. simpl.
    destruct (f h) eqn:E.
    + intros H. injection H as <-. split; [lia|]. split.
      * now rewrite header_app_r.
      * intros j Hj. lia.
    + intros H. destruct (IH i H) as (Hi & Hf & Hl). split; [lia|]. split.
      * now rewrite header_app_l.
      * intros j Hj. destruct (Nat.eq_dec j (S (length hs))) as [->|Hne].
        -- now rewrite header_app_r.
        -- rewrite header_app_l by lia. apply Hl. lia.
Qed.

Lemma last_index_None (f : string -> bool) (hs : list string) :
  last_index f hs = None ->
  forall j, (1 <= j <= length hs)%nat -> f (header hs j) = false.
Proof.
  induction hs as [|h hs IH] using rev_ind.
  - simpl. intros _ j Hj. lia.
  - rewrite last_index_snoc, length_app. simpl.
    destruct (f h) eqn:E; [discriminate|].
    intros H j Hj. destruct (Nat.eq_dec j (S (length hs))) as [->|Hne].
    + now rewrite header_app_r.
    + rewrite header_app_l by lia. apply IH; [exact H | lia].
Qed.

(** The converse: the last column that passes the test is the one found. *)
Lemma last_index_found (f : string -> bool) (hs : list string) (i : nat) :
  (1 <= i <= length hs)%nat -> f (header hs i) = true ->
  (forall j, (i < j <= length hs)%nat -> f (header hs j) = false) ->
  last_index f hs = Some i.
Proof.
  intros Hi Hf Hl. destruct (last_index f hs) as [k|] eqn:E.
  - destruct (last_index_Some f hs k E) as (Hk & Hfk & Hlk).
    destruct (Nat.lt_trichotomy i k) as [H|[H|H]].
    + rewrite Hl in Hfk by lia. discriminate.
    + now subst.
    + rewrite Hlk in Hf by lia. discriminate.
  - rewrite (last_index_None f hs E i Hi) in Hf. discriminate.
Qed.

Lemma pairs_lookup_update (b b' : string) (f : pair_entry -> pair_entry)
    (ps : pairs_table) :
  pairs_lookup b (pairs_update b' f ps)
  = if String.eqb b' b then Some (f (entry_of ps b')) else pairs_lookup b ps.
Proof.
  unfold entry_of. induction ps as [|[k e] ps IH]; simpl.
  - destruct (String.eqb b' b); reflexivity.
  - destruct (String.eqb k b') eqn:E1; simpl.
    + apply String.eqb_eq in E1. subst k.
      destruct (String.eqb b' b); reflexivity.
    + destruct (String.eqb k b) eqn:E2.
      * destruct (String.eqb b' b) eqn:E3; [|reflexivity].
        apply String.eqb_eq in E2, E3. subst. rewrite String.eqb_refl in E1.
        discriminate.
      * exact IH.
Qed.

Lemma entry_of_update (b b' : string) (f : pair_entry -> pair_entry)
    (ps : pairs_table) :
  entry_of (pairs_update b' f ps) b
  = if String.eqb b' b then f (entry_of ps b') else entry_of ps b.
Proof.
  unfold entry_of at 1. rewrite pairs_lookup_update.
  destruct (String.eqb b' b); reflexivity.
Qed.

Lemma entry_of_step (b : string) (ps : pairs_table) (i : nat) (h : string) :
  entry_of (pairs_step ps (i, h)) b
  = (if is_table1 b h then Some i else fst (entry_of ps b),
     if is_table2 b h then Some i else snd (entry_of ps b)).
Proof.
  unfold pairs_step, is_table1, is_table2.
  destruct (starts_with "Table1_" h); cbn [andb negb].
  - rewrite entry_of_update.
    destruct (String.eqb (py_remove "Table1_" h) b) eqn:E.
    + apply String.eqb_eq in E. now rewrite E.
    + now destruct (entry_of ps b).
  - destruct (starts_with "Table2_" h); cbn [andb].
    + rewrite entry_of_update.
      destruct (String.eqb (py_remove "Table2_" h) b) eqn:E.
      * apply String.eqb_eq in E. now rewrite E.
      * now destruct (entry_of ps b).
    + now destruct (entry_of ps b).
Qed.

(** The table [pairs] maps a base name to the last column of each source
    that carries it. *)
Lemma entry_of_build (hs : list string) (b : string) :
  entry_of (build_pairs hs) b
  = (last_index (is_table1 b) hs, last_index (is_table2 b) hs).
Proof.
  induction hs as [|h hs IH] using rev_ind; [reflexivity|].
  rewrite build_pairs_snoc, entry_of_step, !last_index_snoc, IH. reflexivity.
Qed.

Lemma both_set_build (hs : list string) (b : string) :
  both_set (entry_of (build_pairs hs) b) = column_pair hs b.
Proof.
  rewrite entry_of_build. unfold column_pair, both_set.
  destruct (last_index (is_table1 b) hs) as [t1|] eqn:E1; [|reflexivity].
  destruct (last_index (is_table2 b) hs) as [t2|] eqn:E2.
  - apply last_index_Some in E1 as (H1 & _). apply last_index_Some in E2 as (H2 & _).
    destruct t1; [lia|]. destruct t2; [lia|]. reflexivity.
  - now destruct t1.
Qed.

Lemma pairs_update_keys (b : string) (f : pair_entry -> pair_entry)
    (ps : pairs_table) (k : string) :
  In k (map fst (pairs_update b f ps)) <-> k = b \/ In k (map fst ps).
Proof.
  induction ps as [|[k' e] ps IH]; simpl.
  - split; [intros [H|[]]; now left | intros [H|[]]; now left].
  - destruct (String.eqb k' b) eqn:E; simpl.
    + apply String.eqb_eq in E. subst k'. split; [tauto|].
      intros [->|H]; [now left | exact H].
    + rewrite IH. tauto.
Qed.

Lemma pairs_update_NoDup (b : string) (f : pair_entry -> pair_entry)
    (ps : pairs_table) :
  NoDup (map fst ps) -> NoDup (map fst (pairs_update b f ps)).
Proof.
  induction ps as [|[k e] ps IH]; simpl; intros H.
  - constructor; [intros [] | constructor].
  - inversion H as [|? ? Hk Hps]; subst.
    destruct (String.eqb k b) eqn:E; simpl.
    + now constructor.
    + constructor; [|now apply IH].
      rewrite pairs_update_keys. intros [->|Hin]; [|contradiction].
      rewrite String.eqb_refl in E. discriminate.
Qed.

Lemma build_pairs_NoDup (hs : list string) : NoDup (map fst (build_pairs hs)).
Proof.
  induction hs as [|h hs IH] using rev_ind; [constructor|].
  rewrite build_pairs_snoc. unfold pairs_step.
  destruct (starts_with "Table1_" h); [now apply pairs_update_NoDup|].
  destruct (starts_with "Table2_" h); [now apply pairs_update_NoDup | exact IH].
Qed.

Lemma pairs_lookup_In (ps : pairs_table) (b : string) (e : pair_entry) :
  NoDup (map fst ps) -> In (b, e) ps -> pairs_lookup b ps = Some e.
Proof.
  induction ps as [|[k e'] ps IH]; simpl; intros Hnd Hin; [destruct Hin|].
  inversion Hnd as [|? ? Hk Hps]; subst.
  destruct Hin as [H|H].
  - injection H as -> ->. now rewrite String.eqb_refl.
  - destruct (String.eqb k b) eqn:E; [|now apply IH].
    apply String.eqb_eq in E. subst k. elim Hk.
    apply in_map_iff. now exists (b, e).
Qed.

Lemma pairs_lookup_Some_In (ps : pairs_table) (b : string) (e : pair_entry) :
  pairs_lookup b ps = Some e -> In (b, e) ps.
Proof.
  induction ps as [|[k e'] ps IH]; simpl; [discriminate|].
  destruct (String.eqb k b) eqn:E.
  - intros H. injection H as ->. apply String.eqb_eq in E. subst k. now left.
  - intros H. right. now apply IH.
Qed.

Lemma pairs_lookup_None (ps : pairs_table) (b : string) :
  pairs_lookup b ps = None -> forall e, ~ In (b, e) ps.
Proof.
  induction ps as [|[k e'] ps IH]; simpl; intros H e Hin; [exact Hin|].
  destruct (String.eqb k b) eqn:E; [discriminate|].
  destruct Hin as [Hin|Hin]; [|now apply (IH H e)].
  injection Hin as -> _. rewrite String.eqb_refl in E. discriminate.
Qed.

(** A loop over a table in which only the entry of [b] changes anything. *)
Lemma fold_table_single {St : Type} (F : string * pair_entry -> St -> St)
    (ps : pairs_table) (b : string) (s : St) :
  NoDup (map fst ps) ->
  (forall k e s, In (k, e) ps -> k <> b -> F (k, e) s = s) ->
  fold_left (fun s x => F x s) ps s
  = match pairs_lookup b ps with
    | Some e => F (b, e) s
    | None => s
    end.
Proof.
  revert s. induction ps as [|[k e] ps IH]; intros s Hnd H; simpl; [reflexivity|].
  inversion Hnd as [|? ? Hk Hps]; subst.
  destruct (String.eqb k b) eqn:E.
  - apply String.eqb_eq in E. subst k.
    assert (Hrest : forall s', fold_left (fun s x => F x s) ps s' = s').
    { intros s'. rewrite IH; [|exact Hps|intros; apply H; [now right|assumption]].
      destruct (pairs_lookup b ps) as [e'|] eqn:El; [|reflexivity].
      exfalso. apply Hk. clear - El.
      induction ps as [|[k2 e2] ps IH]; simpl in *; [discriminate|].
      destruct (String.eqb k2 b) eqn:E2; [left; now apply String.eqb_eq | right; now apply IH]. }
    apply Hrest.
  - rewrite (H k e s); [|now left|intros ->; rewrite String.eqb_refl in E; discriminate].
    apply IH; [exact Hps|]. intros; apply H; [now right | assumption].
Qed.

Lemma fold_table_none {St : Type} (F : string * pair_entry -> St -> St)
    (ps : pairs_table) (s : St) :
  (forall x s, In x ps -> F x s = s) ->
  fold_left (fun s x => F x s) ps s = s.
Proof.
  revert s. induction ps as [|x ps IH]; intros s H; simpl; [reflexivity|].
  rewrite (H x s) by now left. apply IH. intros; apply H. now right.
Qed.


Lemma column_pair_headers (hs : list string) (b : string) (t1 t2 : nat) :
  column_pair hs b = Some (t1, t2) ->
  is_table1 b (header hs t1) = true /\ is_table2 b (header hs t2) = true
  /\ (1 <= t1 <= length hs)%nat /\ (1 <= t2 <= length hs)%nat.
Proof.
  unfold column_pair.
  destruct (last_index (is_table1 b) hs) as [a|] eqn:E1; [|discriminate].
  destruct (last_index (is_table2 b) hs) as [c|] eqn:E2; [|discriminate].
  intros H. injection H as -> ->.
  apply last_index_Some in E1 as (H1 & F1 & _).
  apply last_index_Some in E2 as (H2 & F2 & _). tauto.
Qed.

Lemma table_entry_pair (hs : list string) (k : string) (e : pair_entry) :
  In (k, e) (build_pairs hs) -> both_set e = column_pair hs k.
Proof.
  intros Hin. rewrite <- both_set_build. unfold entry_of.
  now rewrite (pairs_lookup_In _ k e (build_pairs_NoDup hs) Hin).
Qed.

Lemma is_table1_base (b h : string) :
  is_table1 b h = true -> starts_with "Table1_" h = true /\ py_remove "Table1_" h = b.
Proof.
  unfold is_table1. intros H. apply andb_true_iff in H as (H1 & H2).
  apply String.eqb_eq in H2. tauto.
Qed.

Lemma is_table2_base (b h : string) :
  is_table2 b h = true ->
  starts_with "Table1_" h = false /\ starts_with "Table2_" h = true
  /\ py_remove "Table2_" h = b.
Proof.
  unfold is_table2. intros H. apply andb_true_iff in H as (H1 & H3).
  apply andb_true_iff in H1 as (H1 & H2). apply negb_true_iff in H1.
  apply String.eqb_eq in H3. tauto.
Qed.

End Passes.

Section PairPass.
Import Sheet StyleSpec.

Variable P : Pandas.
Variable ws : Worksheet.
Variable pair_body : nat -> nat -> nat -> Styles -> Styles.
Variable bd : Pandas -> value -> value -> option Side.

Hypothesis pair_body_pointwise : forall t1 t2 r,
  pointwise (pair_body t1 t2 r)
    (fun r' c' s =>
       let v1 := cell_value ws r t1 in
       let v2 := cell_value ws r t2 in
       at_cell r t2 (paint (bd P v1 v2) v2) r' c'
         (at_cell r t1 (paint (bd P v1 v2) v1) r' c' s)).

Lemma pair_rows_pointwise (t1 t2 : nat) :
  pointwise (for_range 2 (max_row ws + 1) (pair_body t1 t2))
    (fun r c s =>
       if in_range 2 (max_row ws + 1) r then
         let v1 := cell_value ws r t1 in
         let v2 := cell_value ws r t2 in
         at_cell r t2 (paint (bd P v1 v2) v2) r c
           (at_cell r t1 (paint (bd P v1 v2) v1) r c s)
       else s).
Proof.
  intros st r c.
  rewrite (pointwise_range 2 (max_row ws + 1) _ _ (pair_body_pointwise t1 t2)).
  rewrite (fold_seq_single _ r).
  - now rewrite in_range_span.
  - intros i s Hi. cbv zeta. now rewrite !at_cell_other_row by congruence.
Qed.

(** The pass over the pairs changes a data cell that belongs to a pair,
    from the two values of the pair in its row, and no other cell. *)
Lemma pairs_pass_cell (st : Styles) (r c : nat) :
  cells (pairs_pass pair_body ws st) r c
  = if in_range 2 (max_row ws + 1) r then
      match partner (headers ws) c with
      | Some (t1, t2) =>
          paint (bd P (cell_value ws r t1) (cell_value ws r t2))
                (cell_value ws r c) (cells st r c)
      | None => cells st r c
      end
    else cells st r c.
Proof.
  unfold pairs_pass.
  set (phi := fun (entry : string * pair_entry) =>
         match both_set (snd entry) with
         | Some (t1, t2) =>
             fun r c s =>
               if in_range 2 (max_row ws + 1) r then
                 let v1 := cell_value ws r t1 in
                 let v2 := cell_value ws r t2 in
                 at_cell r t2 (paint (bd P v1 v2) v2) r c
                   (at_cell r t1 (paint (bd P v1 v2) v1) r c s)
               else s
         | None => fun _ _ s => s
         end).
  rewrite (pointwise_fold _ phi).
  2:{ intros [k e]. unfold phi. cbn [snd].
      destruct (both_set e) as [[t1 t2]|].
      - apply pair_rows_pointwise.
      - intros s r' c'. reflexivity. }
  set (hs := headers ws).
  assert (Hother : forall k e t1 t2, In (k, e) (build_pairs hs) ->
            both_set e = Some (t1, t2) ->
            (c = t1 -> starts_with "Table1_" (header hs c) = true
                       /\ py_remove "Table1_" (header hs c) = k)
            /\ (c = t2 -> starts_with "Table1_" (header hs c) = false
                          /\ starts_with "Table2_" (header hs c) = true
                          /\ py_remove "Table2_" (header hs c) = k)).
  { intros k e t1 t2 Hin Hb. rewrite (table_entry_pair hs k e Hin) in Hb.
    apply column_pair_headers in Hb as (H1 & H2 & _).
    split; intros ->; [now apply is_table1_base | now apply is_table2_base]. }
  destruct (in_range 2 (max_row ws + 1) r) eqn:Er.
  2:{ apply fold_table_none. intros [k e] s _. unfold phi. cbn [snd].
      destruct (both_set e) as [[t1 t2]|]; [now rewrite Er | reflexivity]. }
  unfold partner. fold hs.
  destruct (starts_with "Table1_" (header hs c)) eqn:S1.
  - rewrite (fold_table_single _ _ (py_remove "Table1_" (header hs c)));
      [|apply build_pairs_NoDup|].
    + destruct (pairs_lookup _ _) as [e|] eqn:El.
      * unfold phi. cbn [snd].
        assert (Hin : In (py_remove "Table1_" (header hs c), e) (build_pairs hs))
          by now apply pairs_lookup_Some_In.
        rewrite <- (table_entry_pair hs _ e Hin).
        destruct (both_set e) as [[t1 t2]|] eqn:Eb; [|reflexivity].
        rewrite Er. cbv zeta. destruct (Hother _ e t1 t2 Hin Eb) as (_ & H2).
        rewrite (at_cell_other_col r t2) by (intros ->; destruct H2; congruence).
        unfold at_cell. rewrite Nat.eqb_refl. cbn [andb].
        rewrite (Nat.eqb_sym c t1).
        destruct (t1 =? c)%nat eqn:Ec; [|reflexivity].
        apply Nat.eqb_eq in Ec. now subst t1.
      * assert (Hn : column_pair hs (py_remove "Table1_" (header hs c)) = None).
        { rewrite <- both_set_build. unfold entry_of. now rewrite El. }
        now rewrite Hn.
    + intros k e s Hin Hk. unfold phi. cbn [snd].
      destruct (both_set e) as [[t1 t2]|] eqn:Eb; [|reflexivity].
      rewrite Er. cbv zeta. destruct (Hother k e t1 t2 Hin Eb) as (H1 & H2).
      rewrite (at_cell_other_col r t1) by (intros ->; destruct H1; congruence).
      apply at_cell_other_col. intros ->. destruct H2; congruence.
  - destruct (starts_with "Table2_" (header hs c)) eqn:S2.
    + rewrite (fold_table_single _ _ (py_remove "Table2_" (header hs c)));
        [|apply build_pairs_NoDup|].
      * destruct (pairs_lookup _ _) as [e|] eqn:El.
        -- unfold phi. cbn [snd].
           assert (Hin : In (py_remove "Table2_" (header hs c), e) (build_pairs hs))
             by now apply pairs_lookup_Some_In.
           rewrite <- (table_entry_pair hs _ e Hin).
           destruct (both_set e) as [[t1 t2]|] eqn:Eb; [|reflexivity].
           rewrite Er. cbv zeta. destruct (Hother _ e t1 t2 Hin Eb) as (H1 & _).
           rewrite (at_cell_other_col r t1) by (intros ->; destruct H1; congruence).
           unfold at_cell. rewrite Nat.eqb_refl. cbn [andb].
           rewrite (Nat.eqb_sym c t2).
           destruct (t2 =? c)%nat eqn:Ec; [|reflexivity].
           apply Nat.eqb_eq in Ec. now subst t2.
        -- assert (Hn : column_pair hs (py_remove "Table2_" (header hs c)) = None).
           { rewrite <- both_set_build. unfold entry_of. now rewrite El. }
           now rewrite Hn.
      * intros k e s Hin Hk. unfold phi. cbn [snd].
        destruct (both_set e) as [[t1 t2]|] eqn:Eb; [|reflexivity].
        rewrite Er. cbv zeta. destruct (Hother k e t1 t2 Hin Eb) as (H1 & H2).
        rewrite (at_cell_other_col r t1) by (intros ->; destruct H1; congruence).
        apply at_cell_other_col. intros ->. destruct H2 as (_ & _ & H2); congruence.
    + apply fold_table_none. intros [k e] s Hin. unfold phi. cbn [snd].
      destruct (both_set e) as [[t1 t2]|] eqn:Eb; [|reflexivity].
      rewrite Er. cbv zeta. destruct (Hother k e t1 t2 Hin Eb) as (H1 & H2).
      rewrite (at_cell_other_col r t1) by (intros ->; destruct H1; congruence).
      apply at_cell_other_col. intros ->. destruct H2 as (_ & H2 & _); congruence.
Qed.

End PairPass.

Section WholeSheet.
Import Sheet StyleSpec.

(** *** The auto-fit pass *)

Lemma fold_preserves {X A : Type} (proj : Styles -> A)
    (body : X -> Styles -> Styles) (l : list X) :
  (forall x st, proj (body x st) = proj st) ->
  forall st, proj (fold_left (fun s x => body x s) l st) = proj st.
Proof.
  intros H. induction l as [|x l IH]; intros st; simpl; [reflexivity|].
  now rewrite IH, H.
Qed.

Lemma range_preserves {A : Type} (proj : Styles -> A) (lo hi : nat)
    (body : nat -> Styles -> Styles) :
  (forall i st, proj (body i st) = proj st) ->
  forall st, proj (for_range lo hi body st) = proj st.
Proof. intros H st. unfold for_range. now apply fold_preserves. Qed.

Lemma auto_fit_cells (P : Pandas) (ws : Worksheet) (w : nat -> nat)
    (st : Styles) (r c : nat) :
  cells (auto_fit P ws w st) r c
  = if in_range 1 (max_row ws + 1) r && in_range 1 (max_column ws + 1) c
    then set_alignment top_wrap (cells st r c) else cells st r c.
Proof.
  unfold auto_fit.
  rewrite (pointwise_range 1 (max_column ws + 1) _
             (fun c0 r' c' s =>
                if in_range 1 (max_row ws + 1) r' && (c' =? c0)%nat
                then set_alignment top_wrap s else s)).
  - rewrite (fold_seq_single _ c).
    + rewrite in_range_span, Nat.eqb_refl, andb_true_r.
      destruct (in_range 1 (max_column ws + 1) c); [|now rewrite andb_false_r].
      now rewrite andb_true_r.
    + intros i s Hi. apply Nat.eqb_neq in Hi. rewrite Nat.eqb_sym in Hi.
      now rewrite Hi, andb_false_r.
  - intros c0 st0 r' c'.
    rewrite (pointwise_range 1 (max_row ws + 1) _
               (fun r0 => at_cell r0 c0 (set_alignment top_wrap))).
    + rewrite (fold_seq_single _ r').
      * rewrite in_range_span. simpl cells.
        destruct (in_range 1 (max_row ws + 1) r'); [|reflexivity].
        unfold at_cell. now rewrite Nat.eqb_refl.
      * intros i s Hi. apply at_cell_other_row. congruence.
    + intros r0. apply pointwise_update.
Qed.

Lemma widths_loop (inner : nat -> Styles -> Styles) (W : nat -> nat) :
  (forall c st, widths (inner c st) = widths st) ->
  forall n lo st c,
    widths (fold_left (fun st c => inner c (set_width c (W c) st)) (seq lo n) st) c
    = if in_range lo (lo + n) c then Some (W c) else widths st c.
Proof.
  intros Hin. induction n as [|n IH]; intros lo st c.
  - simpl. unfold in_range. replace (lo + 0)%nat with lo by lia.
    destruct (lo <=? c)%nat eqn:E1, (c <? lo)%nat eqn:E2; try reflexivity.
    apply Nat.leb_le in E1. apply Nat.ltb_lt in E2. lia.
  - cbn [seq fold_left]. rewrite IH, Hin.
    cbn [widths set_width]. unfold in_range.
    replace (S lo + n)%nat with (lo + S n)%nat by lia.
    destruct (S lo <=? c)%nat eqn:E1, (c <? lo + S n)%nat eqn:E2,
             (c =? lo)%nat eqn:E3, (lo <=? c)%nat eqn:E4; cbn [andb];
      try reflexivity;
      repeat match goal with
             | H : (_ <=? _)%nat = true |- _ => apply Nat.leb_le in H
             | H : (_ <=? _)%nat = false |- _ => apply Nat.leb_gt in H
             | H : (_ <? _)%nat = true |- _ => apply Nat.ltb_lt in H
             | H : (_ <? _)%nat = false |- _ => apply Nat.ltb_ge in H
             | H : (_ =? _)%nat = true |- _ => apply Nat.eqb_eq in H
             | H : (_ =? _)%nat = false |- _ => apply Nat.eqb_neq in H
             end; try lia.
    now subst.
Qed.

Lemma auto_fit_widths (P : Pandas) (ws : Worksheet) (w : nat -> nat)
    (st : Styles) (c : nat) :
  widths (auto_fit P ws w st) c
  = if in_range 1 (max_column ws + 1) c then Some (w (max_len P ws c))
    else widths st c.
Proof.
  unfold auto_fit, for_range. rewrite <- (in_range_span 1 (max_column ws + 1) c).
  apply (widths_loop
           (fun c st => fold_left
              (fun st r => update_cell r c (set_alignment top_wrap) st)
              (seq 1 (max_row ws + 1 - 1)) st)
           (fun c => w (max_len P ws c))).
  intros c0 st0.
  apply (fold_preserves widths
           (fun r st => update_cell r c0 (set_alignment top_wrap) st)).
  reflexivity.
Qed.

(** The longest text of a column bounds every text of the column, and is
    the length of one of them unless the column is all empty. *)
Lemma max_len_spec (P : Pandas) (ws : Worksheet) (c : nat) :
  (forall r, (1 <= r <= max_row ws)%nat ->
     (String.length (cell_text P (cell_value ws r c)) <= max_len P ws c)%nat)
  /\ (max_len P ws c = 0%nat
      \/ exists r, (1 <= r <= max_row ws)%nat
           /\ max_len P ws c = String.length (cell_text P (cell_value ws r c))).
Proof.
  unfold max_len, for_range.
  replace (max_row ws + 1 - 1)%nat with (max_row ws) by lia.
  set (g := fun r => String.length (cell_text P (cell_value ws r c))).
  assert (H : forall n lo m0,
    let m := fold_left (fun m r => if (m <? g r)%nat then g r else m) (seq lo n) m0 in
    (m0 <= m)%nat
    /\ (forall r, (lo <= r < lo + n)%nat -> (g r <= m)%nat)
    /\ (m = m0 \/ exists r, (lo <= r < lo + n)%nat /\ m = g r)).
  { induction n as [|n IH]; intros lo m0; simpl.
    - split; [lia|]. split; [intros r Hr; lia | now left].
    - specialize (IH (S lo) (if (m0 <? g lo)%nat then g lo else m0)).
      cbv zeta in IH. destruct IH as (I1 & I2 & I3).
      set (m := fold_left _ _ _) in *.
      assert (Hm0 : (m0 <= (if (m0 <? g lo)%nat then g lo else m0))%nat
                    /\ (g lo <= (if (m0 <? g lo)%nat then g lo else m0))%nat).
      { destruct (m0 <? g lo)%nat eqn:E;
          [apply Nat.ltb_lt in E | apply Nat.ltb_ge in E]; lia. }
      split; [lia|]. split.
      + intros r Hr. destruct (Nat.eq_dec r lo) as [->|Hne]; [lia|].
        apply I2. lia.
      + destruct I3 as [I3 | (r & Hr & I3)].
        * destruct (m0 <? g lo)%nat; [right; exists lo; split; [lia|exact I3]
                                    | now left].
        * right. exists r. split; [lia | exact I3]. }
  destruct (H (max_row ws) 1%nat 0%nat) as (_ & H2 & H3). split.
  - intros r Hr. apply H2. lia.
  - destruct H3 as [H3 | (r & Hr & H3)]; [now left|].
    right. exists r. split; [lia | exact H3].
Qed.

(** *** The three passes of coco21.py together *)

Lemma starts_with_not_marker (p h : string) (markers : list string) :
  starts_with p h = true ->
  forallb (fun m => negb (starts_with p m)) markers = true ->
  mem_str h markers = false.
Proof.
  intros Hs Hm. unfold mem_str.
  induction markers as [|m ms IH]; simpl in *; [reflexivity|].
  apply andb_true_iff in Hm as (H1 & H2). rewrite (IH H2), orb_false_r.
  destruct (String.eqb h m) eqn:E; [|reflexivity].
  apply String.eqb_eq in E. subst m. rewrite Hs in H1. discriminate.
Qed.

Lemma in_range_bounds (lo hi i : nat) :
  in_range lo hi i = true <-> (lo <= i < hi)%nat.
Proof.
  unfold in_range. rewrite andb_true_iff, Nat.leb_le, Nat.ltb_lt. tauto.
Qed.

Lemma style21_cell_any (P : Pandas) (ws : Worksheet) (block3 : bool)
    (st : Styles) (r c : nat) :
  cells (Style21.style_worksheet P ws block3 st) r c
  = let inside := in_range 1 (max_row ws + 1) r
                  && in_range 1 (max_column ws + 1) c in
    let s0 := cells st r c in
    let s1 := if inside then base_style21 (headers ws) r c s0 else s0 in
    let s2 := if in_range 2 (max_row ws + 1) r then
                match partner (headers ws) c with
                | Some (t1, t2) =>
                    paint (border21 P (cell_value ws r t1) (cell_value ws r t2))
                          (cell_value ws r c) s1
                | None => s1
                end
              else s1 in
    if inside then set_alignment top_wrap s2 else s2.
Proof.
  unfold Style21.style_worksheet. cbv zeta.
  rewrite auto_fit_cells.
  change (Style21.style_pairs P ws) with (pairs_pass (Style21.style_pair P ws) ws).
  rewrite (pairs_pass_cell P ws _ border21 (style_pair21_pointwise P ws)).
  assert (Hbase : cells
            (for_range 1 (max_row ws + 1)
               (fun r st => for_range 1 (max_column ws + 1)
                  (fun c st => Style21.base_fill (headers ws) r c st) st) st) r c
          = if in_range 1 (max_row ws + 1) r && in_range 1 (max_column ws + 1) c
            then base_style21 (headers ws) r c (cells st r c) else cells st r c).
  { now rewrite (double_loop_pointwise 1 (max_row ws + 1) 1 (max_column ws + 1)
                   (fun r c st => Style21.base_fill (headers ws) r c st)
                   (base_style21 (headers ws))
                   (base_fill21_pointwise (headers ws))). }
  rewrite Hbase. reflexivity.
Qed.

Lemma in_range_data_row (ws : Worksheet) (r : nat) :
  (2 <= r <= max_row ws)%nat ->
  in_range 2 (max_row ws + 1) r = true /\ in_range 1 (max_row ws + 1) r = true
  /\ (r =? 1)%nat = false.
Proof.
  intros H. split; [apply in_range_bounds; lia|].
  split; [apply in_range_bounds; lia | apply Nat.eqb_neq; lia].
Qed.

Lemma style21_cell (P : Pandas) (ws : Worksheet) (block3 : bool)
    (st : Styles) (r c : nat) :
  in_range 2 (max_row ws + 1) r = true ->
  in_range 1 (max_column ws + 1) c = true ->
  cells (Style21.style_worksheet P ws block3 st) r c
  = set_alignment top_wrap
      (match partner (headers ws) c with
       | Some (t1, t2) =>
           paint (border21 P (cell_value ws r t1) (cell_value ws r t2))
                 (cell_value ws r c)
       | None => fun s => s
       end (base_style21 (headers ws) r c (cells st r c))).
Proof.
  intros Hr Hc. rewrite style21_cell_any. cbv zeta.
  assert (Hr1 : in_range 1 (max_row ws + 1) r = true).
  { apply in_range_bounds in Hr. apply in_range_bounds. lia. }
  rewrite Hr, Hr1, Hc. cbn [andb].
  destruct (partner (headers ws) c) as [[t1 t2]|]; reflexivity.
Qed.

(** *** The passes of coco9.py *)

Lemma block_cols_snoc (hs : list string) (h : string) :
  Style9.block_cols (hs ++ [h])%list
  = (Style9.block_cols hs
     ++ (if mem_str h ["BLOC A"; "BLOC B"; "BLOC C"] then [S (length hs)] else []))%list.
Proof.
  unfold Style9.block_cols, enumerate.
  rewrite enumerate_from_snoc, filter_app, map_app. cbn [filter snd].
  now destruct (mem_str h _).
Qed.

Lemma block_cols_spec (hs : list string) (c : nat) :
  Style9.mem_nat c (Style9.block_cols hs)
  = in_range 1 (length hs + 1) c
    && mem_str (header hs c) ["BLOC A"; "BLOC B"; "BLOC C"].
Proof.
  unfold Style9.mem_nat.
  induction hs as [|h hs IH] using rev_ind.
  - simpl. unfold in_range.
    destruct (1 <=? c)%nat eqn:E1, (c <? 1)%nat eqn:E2; try reflexivity.
    apply Nat.leb_le in E1. apply Nat.ltb_lt in E2. lia.
  - rewrite block_cols_snoc, existsb_app, IH, length_app. cbn [length].
    unfold in_range.
    destruct (Nat.eq_dec c (S (length hs))) as [->|Hne].
    + rewrite header_app_r.
      replace (S (length hs) <? length hs + 1)%nat with false
        by (symmetry; apply Nat.ltb_ge; lia).
      replace (S (length hs) <? length hs + 1 + 1)%nat with true
        by (symmetry; apply Nat.ltb_lt; lia).
      rewrite andb_false_r. cbn [andb orb Nat.leb].
      destruct (mem_str h _); simpl; [now rewrite Nat.eqb_refl | reflexivity].
    + assert (Hex : existsb (Nat.eqb c)
                      (if mem_str h ["BLOC A"; "BLOC B"; "BLOC C"]
                       then [S (length hs)] else []) = false).
      { destruct (mem_str h _); simpl; [|reflexivity].
        apply Nat.eqb_neq in Hne. now rewrite Hne. }
      rewrite Hex, orb_false_r.
      destruct (1 <=? c)%nat eqn:E1; [|reflexivity]. cbn [andb].
      destruct (c <? length hs + 1)%nat eqn:E2.
      * apply Nat.ltb_lt in E2.
        replace (c <? length hs + 1 + 1)%nat with true
          by (symmetry; apply Nat.ltb_lt; lia).
        apply Nat.leb_le in E1. now rewrite header_app_l by lia.
      * apply Nat.ltb_ge in E2.
        replace (c <? length hs + 1 + 1)%nat with false
          by (symmetry; apply Nat.ltb_ge; lia).
        reflexivity.
Qed.

Lemma base_fill9_pointwise (hs : list string) (r c : nat) :
  pointwise (Style9.base_fill hs r c)
    (at_cell r c
       (fun s =>
          if Style9.mem_nat c (Style9.block_cols hs)
          then set_font white_bold_font (set_fill dark_fill s)
          else if (r =? 1)%nat then set_font bold_font (set_fill white_fill s)
          else if String.eqb (header hs c) "1-1 Comment" then set_fill yellow_fill s
          else set_fill (base_colour (header hs c)) s)).
Proof.
  intros st r' c'. unfold Style9.base_fill, header, base_colour.
  destruct (Style9.mem_nat c _).
  - simpl. unfold at_cell. now destruct ((r' =? r) && (c' =? c))%nat.
  - destruct (r =? 1)%nat.
    + simpl. unfold at_cell. now destruct ((r' =? r) && (c' =? c))%nat.
    + destruct (String.eqb _ "1-1 Comment"); [reflexivity|].
      destruct (starts_with "Table1_" _); [reflexivity|].
      destruct (starts_with "Table2_" _); [reflexivity|].
      destruct (py_in "Comment" _); reflexivity.
Qed.

Lemma style_pair9_pointwise (P : Pandas) (ws : Worksheet) (t1 t2 r : nat) :
  pointwise (Style9.style_pair P ws t1 t2 r)
    (fun r' c' s =>
       let v1 := cell_value ws r t1 in
       let v2 := cell_value ws r t2 in
       at_cell r t2 (paint (border9 P v1 v2) v2) r' c'
         (at_cell r t1 (paint (border9 P v1 v2) v1) r' c' s)).
Proof.
  intros st r' c'. cbv zeta. unfold Style9.style_pair, paint, border9, field_outcome.
  cbv zeta. unfold notna.
  remember (cell_value ws r t1) as v1 eqn:E1.
  remember (cell_value ws r t2) as v2 eqn:E2.
  clear E1 E2.
  destruct (isna v1) eqn:N1, (isna v2) eqn:N2; cbn [andb negb].
  - unfold at_cell. simpl.
    destruct (r' =? r)%nat, (c' =? t1)%nat, (c' =? t2)%nat; reflexivity.
  - unfold at_cell. simpl.
    destruct (r' =? r)%nat, (c' =? t1)%nat eqn:C1, (c' =? t2)%nat eqn:C2;
      try reflexivity.
  - unfold at_cell. simpl.
    destruct (r' =? r)%nat, (c' =? t1)%nat eqn:C1, (c' =? t2)%nat eqn:C2;
      try reflexivity.
  - destruct (String.eqb (strip (py_str P v1)) (strip (py_str P v2)));
      unfold Style9.set_border, at_cell; simpl;
      destruct (r' =? r)%nat, (c' =? t1)%nat, (c' =? t2)%nat; reflexivity.
Qed.

Lemma style9_cell_any (P : Pandas) (ws : Worksheet) (st : Styles) (r c : nat) :
  cells (Style9.style_comparison P ws st) r c
  = let inside := in_range 1 (max_row ws + 1) r
                  && in_range 1 (max_column ws + 1) c in
    let s0 := cells st r c in
    let s1 := if inside then base_style9 (headers ws) r c s0 else s0 in
    let s2 := if in_range 2 (max_row ws + 1) r then
                match partner (headers ws) c with
                | Some (t1, t2) =>
                    paint (border9 P (cell_value ws r t1) (cell_value ws r t2))
                          (cell_value ws r c) s1
                | None => s1
                end
              else s1 in
    if inside then set_alignment top_wrap s2 else s2.
Proof.
  unfold Style9.style_comparison. cbv zeta.
  rewrite auto_fit_cells.
  change (Style9.style_pairs P ws) with (pairs_pass (Style9.style_pair P ws) ws).
  rewrite (pairs_pass_cell P ws _ border9 (style_pair9_pointwise P ws)).
  assert (Hbase : cells
            (for_range 1 (max_row ws + 1)
               (fun r st => for_range 1 (max_column ws + 1)
                  (fun c st => Style9.base_fill (headers ws) r c st) st) st) r c
          = if in_range 1 (max_row ws + 1) r && in_range 1 (max_column ws + 1) c
            then base_style9 (headers ws) r c (cells st r c) else cells st r c).
  { rewrite (double_loop_pointwise 1 (max_row ws + 1) 1 (max_column ws + 1)
               (fun r c st => Style9.base_fill (headers ws) r c st) _
               (base_fill9_pointwise (headers ws))).
    destruct (in_range 1 (max_row ws + 1) r); [|reflexivity]. cbn [andb].
    destruct (in_range 1 (max_column ws + 1) c) eqn:Hc; [|reflexivity].
    rewrite block_cols_spec. unfold max_column in Hc. now rewrite Hc. }
  rewrite Hbase. reflexivity.
Qed.

Lemma style9_cell (P : Pandas) (ws : Worksheet) (st : Styles) (r c : nat) :
  in_range 2 (max_row ws + 1) r = true ->
  in_range 1 (max_column ws + 1) c = true ->
  cells (Style9.style_comparison P ws st) r c
  = set_alignment top_wrap
      (match partner (headers ws) c with
       | Some (t1, t2) =>
           paint (border9 P (cell_value ws r t1) (cell_value ws r t2))
                 (cell_value ws r c)
       | None => fun s => s
       end (base_style9 (headers ws) r c (cells st r c))).
Proof.
  intros Hr Hc. rewrite style9_cell_any. cbv zeta.
  assert (Hr1 : in_range 1 (max_row ws + 1) r = true).
  { apply in_range_bounds in Hr. apply in_range_bounds. lia. }
  rewrite Hr, Hr1, Hc. cbn [andb].
  destruct (partner (headers ws) c) as [[t1 t2]|]; reflexivity.
Qed.

End WholeSheet.

Section SheetTheorems.
Import Sheet StyleSpec.

Lemma table2_not_table1 (h : string) :
  starts_with "Table2_" h = true -> starts_with "Table1_" h = false.
Proof.
  intros H. apply starts_with_app in H as (rest & ->). reflexivity.
Qed.

Lemma partner_of_pair (hs : list string) (b : string) (t1 t2 : nat) :
  column_pair hs b = Some (t1, t2) ->
  partner hs t1 = Some (t1, t2) /\ partner hs t2 = Some (t1, t2)
  /\ starts_with "Table1_" (header hs t1) = true
  /\ starts_with "Table1_" (header hs t2) = false
  /\ starts_with "Table2_" (header hs t2) = true
  /\ in_range 1 (length hs + 1) t1 = true
  /\ in_range 1 (length hs + 1) t2 = true.
Proof.
  intros H. pose proof H as H'.
  apply column_pair_headers in H' as (H1 & H2 & B1 & B2).
  apply is_table1_base in H1 as (S1 & R1).
  apply is_table2_base in H2 as (S2 & S3 & R2).
  unfold partner. rewrite S1, R1, H, Nat.eqb_refl.
  rewrite S2, S3, R2, H, Nat.eqb_refl.
  repeat split; try reflexivity; try assumption; apply in_range_bounds; lia.
Qed.

Lemma partner_in_sheet (hs : list string) (c t1 t2 : nat) :
  partner hs c = Some (t1, t2) -> (1 <= c <= length hs)%nat.
Proof.
  unfold partner.
  destruct (starts_with "Table1_" (header hs c)).
  - destruct (column_pair hs _) as [[a b]|] eqn:E; [|discriminate].
    destruct (a =? c)%nat eqn:Ec; [|discriminate]. intros _.
    apply Nat.eqb_eq in Ec. subst a.
    now apply column_pair_headers in E as (_ & _ & H & _).
  - destruct (starts_with "Table2_" (header hs c)); [|discriminate].
    destruct (column_pair hs _) as [[a b]|] eqn:E; [|discriminate].
    destruct (b =? c)%nat eqn:Ec; [|discriminate]. intros _.
    apply Nat.eqb_eq in Ec. subst b.
    now apply column_pair_headers in E as (_ & _ & _ & H).
Qed.

(** ** The pairs of columns of a sheet *)

Lemma last_index_last_column1 (hs : list string) (b : string) (t : nat) :
  last_index (is_table1 b) hs = Some t <-> last_column "Table1_" hs b t.
Proof.
  unfold last_column. split.
  - intros H. apply last_index_Some in H as (Hb & Hf & Hl).
    apply is_table1_base in Hf as (S1 & R1).
    split; [exact Hb|]. split; [exact S1|]. split; [exact R1|].
    intros j Hj (Sj & Rj). specialize (Hl j Hj). unfold is_table1 in Hl.
    rewrite Sj, Rj, String.eqb_refl in Hl. discriminate.
  - intros (Hb & S1 & R1 & Hl). apply last_index_found; [exact Hb| |].
    + unfold is_table1. now rewrite S1, R1, String.eqb_refl.
    + intros j Hj. specialize (Hl j Hj). unfold is_table1.
      destruct (starts_with "Table1_" (header hs j)); [|reflexivity].
      destruct (String.eqb _ b) eqn:E; [|reflexivity].
      apply String.eqb_eq in E. elim Hl. now split.
Qed.

Lemma last_index_last_column2 (hs : list string) (b : string) (t : nat) :
  last_index (is_table2 b) hs = Some t <-> last_column "Table2_" hs b t.
Proof.
  unfold last_column. split.
  - intros H. apply last_index_Some in H as (Hb & Hf & Hl).
    apply is_table2_base in Hf as (S1 & S2 & R2).
    split; [exact Hb|]. split; [exact S2|]. split; [exact R2|].
    intros j Hj (Sj & Rj). specialize (Hl j Hj). unfold is_table2 in Hl.
    rewrite (table2_not_table1 _ Sj), Sj, Rj, String.eqb_refl in Hl. discriminate.
  - intros (Hb & S2 & R2 & Hl). apply last_index_found; [exact Hb| |].
    + unfold is_table2.
      now rewrite (table2_not_table1 _ S2), S2, R2, String.eqb_refl.
    + intros j Hj. specialize (Hl j Hj). unfold is_table2.
      destruct (starts_with "Table2_" (header hs j)) eqn:Sj;
        [|now rewrite andb_false_r].
      destruct (String.eqb _ b) eqn:E; [|now rewrite andb_false_r].
      apply String.eqb_eq in E. elim Hl. now split.
Qed.

Lemma remove_from_absent (old s : string) :
  py_in old s = false -> remove_from old 0 s = s.
Proof.
  induction s as [|c s IH]; [reflexivity|].
  cbn [py_in remove_from]. intros H. apply orb_false_iff in H as (H1 & H2).
  rewrite H1. f_equal. now apply IH.
Qed.

(** The table [pairs] of the styling code.  A base name has both columns
    set exactly when some header "Table1_..." and some header "Table2_..."
    reduce to it once every occurrence of the prefix is removed; the
    columns are then the last such header of each source.  For a column
    name that contains neither prefix the base name of "Table1_x" and of
    "Table2_x" is [x]. *)
Theorem pairs_table_entries (hs : list string) (b : string) (t1 t2 : nat) :
  (In (b, (Some t1, Some t2)) (build_pairs hs)
   <-> last_column "Table1_" hs b t1 /\ last_column "Table2_" hs b t2)
  /\ (column_pair hs b = Some (t1, t2)
      <-> last_column "Table1_" hs b t1 /\ last_column "Table2_" hs b t2)
  /\ (forall x, py_in "Table1_" x = false ->
        py_remove "Table1_" ("Table1_" ++ x) = x)
  /\ (forall x, py_in "Table2_" x = false ->
        py_remove "Table2_" ("Table2_" ++ x) = x).
Proof.
  assert (Hcp : column_pair hs b = Some (t1, t2)
                <-> last_column "Table1_" hs b t1 /\ last_column "Table2_" hs b t2).
  { rewrite <- last_index_last_column1, <- last_index_last_column2.
    unfold column_pair.
    destruct (last_index (is_table1 b) hs) as [a|];
      [|split; [discriminate | intros (H & _); discriminate]].
    destruct (last_index (is_table2 b) hs) as [c|];
      [|split; [discriminate | intros (_ & H); discriminate]].
    split; [intros H; injection H as -> ->; now split|].
    intros (H1 & H2). congruence. }
  split; [|split; [exact Hcp|split]].
  - rewrite <- Hcp, <- both_set_build. split.
    + intros Hin.
      assert (He : entry_of (build_pairs hs) b = (Some t1, Some t2)).
      { unfold entry_of.
        now rewrite (pairs_lookup_In _ b _ (build_pairs_NoDup hs) Hin). }
      rewrite He. rewrite entry_of_build in He. injection He as E1 E2.
      apply last_index_Some in E1 as (B1 & _).
      apply last_index_Some in E2 as (B2 & _).
      destruct t1; [lia|]. destruct t2; [lia|]. reflexivity.
    + unfold entry_of. destruct (pairs_lookup b (build_pairs hs)) as [e|] eqn:El;
        [|discriminate].
      intros Hb.
      assert (He : e = (Some t1, Some t2)).
      { destruct e as [[[|a]|] [[|c]|]]; simpl in Hb; try discriminate.
        now injection Hb as <- <-. }
      subst e. now apply pairs_lookup_Some_In.
  - intros x Hx. unfold py_remove. cbn. now apply remove_from_absent.
  - intros x Hx. unfold py_remove. cbn. now apply remove_from_absent.
Qed.


(** ** The styles [style_worksheet] of coco21.py leaves *)

(** In a sheet styled by [style_worksheet], the two cells of a pair of
    columns in a data row end as follows.  Each is filled red when its own
    value is missing and keeps the colour of its source otherwise (green
    for Source A, blue for Source B).  Both get the same border: orange
    when the field outcome is MissingInA, MissingInB or Mismatch, purple
    when it is Match on a text that is not blank; when both values are
    missing, or both are blank, the border is left as it was.  The font is
    left as it was and the alignment is top with wrapped text. *)
Theorem style21_paired_cells (P : Pandas) (ws : Worksheet) (block3 : bool)
    (st : Styles) (b : string) (t1 t2 r : nat) :
  column_pair (headers ws) b = Some (t1, t2) ->
  (2 <= r <= max_row ws)%nat ->
  let v1 := cell_value ws r t1 in
  let v2 := cell_value ws r t2 in
  let out := Style21.style_worksheet P ws block3 st in
  let drawn := fun old : option Side =>
    match field_outcome P v1 v2 with
    | MissingInA | MissingInB | Mismatch => Some Style21.orange_side
    | Match => if String.eqb (strip (py_str P v1)) EmptyString then old
               else Some Style21.purple_side
    | BothMissing => old
    end in
  cells out r t1
  = {| fill := Some (if isna v1 then red_fill else green_fill);
       font := font (cells st r t1);
       border := drawn (border (cells st r t1));
       alignment := Some top_wrap |}
  /\ cells out r t2
     = {| fill := Some (if isna v2 then red_fill else blue_fill);
          font := font (cells st r t2);
          border := drawn (border (cells st r t2));
          alignment := Some top_wrap |}.
Proof.
  intros Hp Hr v1 v2 out drawn.
  destruct (partner_of_pair _ b t1 t2 Hp) as (P1 & P2 & S1 & S2 & S3 & B1 & B2).
  destruct (in_range_data_row ws r Hr) as (R2 & R1 & Rn).
  subst out. split.
  - rewrite style21_cell by assumption. rewrite P1.
    unfold base_style21. rewrite Rn.
    rewrite (starts_with_not_marker "Table1_" _ ["BLOC 1"; "BLOC 2"; "BLOC 3"] S1 eq_refl).
    unfold base_colour. rewrite S1.
    unfold paint, border21, drawn. fold v1 v2. unfold field_outcome.
    destruct (isna v1), (isna v2); try reflexivity.
    destruct (String.eqb (strip (py_str P v1)) (strip (py_str P v2)));
      [|reflexivity].
    destruct (String.eqb (strip (py_str P v1)) EmptyString); reflexivity.
  - rewrite style21_cell by assumption. rewrite P2.
    unfold base_style21. rewrite Rn.
    rewrite (starts_with_not_marker "Table2_" _ ["BLOC 1"; "BLOC 2"; "BLOC 3"] S3 eq_refl).
    unfold base_colour. rewrite S2, S3.
    unfold paint, border21, drawn. fold v1 v2. unfold field_outcome.
    destruct (isna v1), (isna v2); try reflexivity.
    destruct (String.eqb (strip (py_str P v1)) (strip (py_str P v2)));
      [|reflexivity].
    destruct (String.eqb (strip (py_str P v1)) EmptyString); reflexivity.
Qed.

(** A sheet with the pair "Table1_Daytona" / "Table2_Daytona": the first
    record differs between the sources, the second lacks the value of
    Source B. *)
Lemma style21_paired_cells_witness :
  let ws := {| headers := ["Table1_Daytona"; "Table2_Daytona"];
               body := [[VStr "open"; VStr "closed"]; [VStr "open"; VNaN]] |} in
  let st := {| cells := fun _ _ => {| fill := None; font := None;
                                      border := None; alignment := None |};
               widths := fun _ => None; heights := fun _ => None |} in
  let out := Style21.style_worksheet Samples.P0 ws false st in
  column_pair (headers ws) "Daytona" = Some (1, 2)%nat
  /\ cells out 2 1
     = {| fill := Some green_fill; font := None;
          border := Some Style21.orange_side; alignment := Some top_wrap |}
  /\ cells out 3 2
     = {| fill := Some red_fill; font := None;
          border := Some Style21.orange_side; alignment := Some top_wrap |}.
Proof.
  intros ws st out.
  assert (Hp : column_pair (headers ws) "Daytona" = Some (1, 2)%nat) by reflexivity.
  split; [exact Hp|]. split.
  - exact (proj1 (style21_paired_cells Samples.P0 ws false st "Daytona" 1 2 2
                    Hp ltac:(vm_compute; lia))).
  - exact (proj2 (style21_paired_cells Samples.P0 ws false st "Daytona" 1 2 3
                    Hp ltac:(vm_compute; lia))).
Defined.

(** The other cells.  A data cell of a column that belongs to no pair is
    never filled red and never gets a border, whatever its value: it is
    dark with a white bold font under a block marker, green or blue under
    a header of one source, white elsewhere.  A cell of the header row gets
    a bold font and no fill.  A cell outside the sheet is not touched. *)
Theorem style21_other_cells (P : Pandas) (ws : Worksheet) (block3 : bool)
    (st : Styles) (r c : nat) :
  let out := Style21.style_worksheet P ws block3 st in
  let h := header (headers ws) c in
  let marker := mem_str h ["BLOC 1"; "BLOC 2"; "BLOC 3"] in
  ((2 <= r <= max_row ws)%nat -> (1 <= c <= max_column ws)%nat ->
   partner (headers ws) c = None ->
   cells out r c
   = {| fill := Some (if marker then dark_fill else base_colour h);
        font := if marker then Some white_bold_font else font (cells st r c);
        border := border (cells st r c);
        alignment := Some top_wrap |})
  /\ ((1 <= c <= max_column ws)%nat ->
      cells out 1 c
      = {| fill := fill (cells st 1 c);
           font := Some bold_font;
           border := border (cells st 1 c);
           alignment := Some top_wrap |})
  /\ ((r = 0 \/ max_row ws < r \/ c = 0 \/ max_column ws < c)%nat ->
      cells out r c = cells st r c)
  /\ (starts_with "Table1_" h = false -> starts_with "Table2_" h = false ->
      partner (headers ws) c = None).
Proof.
  intros out h marker. subst out. split; [|split; [|split]].
  - intros Hr Hc Hp.
    destruct (in_range_data_row ws r Hr) as (R2 & R1 & Rn).
    rewrite style21_cell; [|assumption|apply in_range_bounds; lia].
    rewrite Hp. unfold base_style21. rewrite Rn. fold h. fold marker.
    destruct marker; reflexivity.
  - intros Hc. rewrite style21_cell_any. cbv zeta.
    assert (H1 : in_range 1 (max_row ws + 1) 1 = true)
      by (apply in_range_bounds; unfold max_row; lia).
    assert (H2 : in_range 2 (max_row ws + 1) 1 = false) by reflexivity.
    assert (H3 : in_range 1 (max_column ws + 1) c = true)
      by (apply in_range_bounds; lia).
    rewrite H1, H2, H3. reflexivity.
  - intros Hout. rewrite style21_cell_any. cbv zeta.
    assert (Hin : in_range 1 (max_row ws + 1) r
                  && in_range 1 (max_column ws + 1) c = false).
    { apply not_true_iff_false. intros H. apply andb_true_iff in H as (H1 & H2).
      apply in_range_bounds in H1, H2. lia. }
    rewrite Hin.
    destruct (in_range 2 (max_row ws + 1) r) eqn:Er; [|reflexivity].
    destruct (partner (headers ws) c) as [[t1 t2]|] eqn:Ep; [|reflexivity].
    apply partner_in_sheet in Ep. apply in_range_bounds in Er.
    unfold max_column in Hout. lia.
  - intros S1 S2. unfold partner. fold h. now rewrite S1, S2.
Qed.

(** The column "Comment1_B2" next to a pair: its cell stays white and
    without border. *)
Lemma style21_other_cells_witness :
  let ws := {| headers := ["Table1_Daytona"; "Table2_Daytona"; "Comment1_B2"];
               body := [[VStr "open"; VNaN; VStr "Both present"]] |} in
  let st := {| cells := fun _ _ => {| fill := None; font := None;
                                      border := None; alignment := None |};
               widths := fun _ => None; heights := fun _ => None |} in
  let out := Style21.style_worksheet Samples.P0 ws false st in
  cells out 2 3
  = {| fill := Some white_fill; font := None; border := None;
       alignment := Some top_wrap |}
  /\ cells out 1 3
     = {| fill := None; font := Some bold_font; border := None;
          alignment := Some top_wrap |}
  /\ cells out 3 3 = cells st 3 3.
Proof.
  intros ws st out.
  destruct (style21_other_cells Samples.P0 ws false st 2 3) as (H1 & H2 & _ & _).
  destruct (style21_other_cells Samples.P0 ws false st 3 3) as (_ & _ & H3 & _).
  split; [|split].
  - apply H1; [vm_compute; lia | vm_compute; lia | reflexivity].
  - apply H2. vm_compute; lia.
  - apply H3. right; left. vm_compute; lia.
Defined.


(** ** The styles the passes of coco9.py leave *)

(** In the sheet "Comparison" of [coco9.py], the two cells of a pair of
    columns in a data row end as follows.  Each is filled red when its own
    value is missing and keeps the colour of its source otherwise.  A
    border is drawn only when both values are present: purple when the two
    texts are equal once stripped, blank texts included, orange when they
    differ.  With a value missing the border is left as it was. *)
Theorem style9_paired_cells (P : Pandas) (ws : Worksheet) (st : Styles)
    (b : string) (t1 t2 r : nat) :
  column_pair (headers ws) b = Some (t1, t2) ->
  (2 <= r <= max_row ws)%nat ->
  let v1 := cell_value ws r t1 in
  let v2 := cell_value ws r t2 in
  let out := Style9.style_comparison P ws st in
  let drawn := fun old : option Side =>
    match field_outcome P v1 v2 with
    | Match => Some Style9.purple_side
    | Mismatch => Some Style9.orange_side
    | BothMissing | MissingInA | MissingInB => old
    end in
  cells out r t1
  = {| fill := Some (if isna v1 then red_fill else green_fill);
       font := font (cells st r t1);
       border := drawn (border (cells st r t1));
       alignment := Some top_wrap |}
  /\ cells out r t2
     = {| fill := Some (if isna v2 then red_fill else blue_fill);
          font := font (cells st r t2);
          border := drawn (border (cells st r t2));
          alignment := Some top_wrap |}.
Proof.
  intros Hp Hr v1 v2 out drawn.
  destruct (partner_of_pair _ b t1 t2 Hp) as (P1 & P2 & S1 & S2 & S3 & B1 & B2).
  destruct (in_range_data_row ws r Hr) as (R2 & R1 & Rn).
  subst out. split.
  - rewrite style9_cell by assumption. rewrite P1.
    unfold base_style9. rewrite Rn.
    rewrite (starts_with_not_marker "Table1_" _ ["BLOC A"; "BLOC B"; "BLOC C"]
               S1 eq_refl).
    pose proof (starts_with_not_marker "Table1_" _ ["1-1 Comment"] S1 eq_refl) as Hy.
    unfold mem_str in Hy. cbn [existsb] in Hy. rewrite orb_false_r in Hy.
    rewrite Hy. unfold base_colour. rewrite S1.
    unfold paint, border9, drawn. fold v1 v2. unfold field_outcome.
    destruct (isna v1), (isna v2); try reflexivity.
    destruct (String.eqb (strip (py_str P v1)) (strip (py_str P v2))); reflexivity.
  - rewrite style9_cell by assumption. rewrite P2.
    unfold base_style9. rewrite Rn.
    rewrite (starts_with_not_marker "Table2_" _ ["BLOC A"; "BLOC B"; "BLOC C"]
               S3 eq_refl).
    pose proof (starts_with_not_marker "Table2_" _ ["1-1 Comment"] S3 eq_refl) as Hy.
    unfold mem_str in Hy. cbn [existsb] in Hy. rewrite orb_false_r in Hy.
    rewrite Hy. unfold base_colour. rewrite S2, S3.
    unfold paint, border9, drawn. fold v1 v2. unfold field_outcome.
    destruct (isna v1), (isna v2); try reflexivity.
    destruct (String.eqb (strip (py_str P v1)) (strip (py_str P v2))); reflexivity.
Qed.

(** The same sheet as for [coco21.py]: the record that lacks the value of
    Source B gets its red cell but, here, no border. *)
Lemma style9_paired_cells_witness :
  let ws := {| headers := ["Table1_Daytona"; "Table2_Daytona"];
               body := [[VStr "open"; VStr "closed"]; [VStr "open"; VNaN]] |} in
  let st := {| cells := fun _ _ => {| fill := None; font := None;
                                      border := None; alignment := None |};
               widths := fun _ => None; heights := fun _ => None |} in
  let out := Style9.style_comparison Samples.P0 ws st in
  column_pair (headers ws) "Daytona" = Some (1, 2)%nat
  /\ cells out 2 1
     = {| fill := Some green_fill; font := None;
          border := Some Style9.orange_side; alignment := Some top_wrap |}
  /\ cells out 3 2
     = {| fill := Some red_fill; font := None;
          border := None; alignment := Some top_wrap |}.
Proof.
  intros ws st out.
  assert (Hp : column_pair (headers ws) "Daytona" = Some (1, 2)%nat) by reflexivity.
  split; [exact Hp|]. split.
  - exact (proj1 (style9_paired_cells Samples.P0 ws st "Daytona" 1 2 2
                    Hp ltac:(vm_compute; lia))).
  - exact (proj2 (style9_paired_cells Samples.P0 ws st "Daytona" 1 2 3
                    Hp ltac:(vm_compute; lia))).
Defined.

Lemma heights_fold {X : Type} (body : X -> Styles -> Styles) (sets : X -> bool)
    (l : list X) :
  (forall x st r', heights (body x st) r'
                   = if sets x && (r' =? 1)%nat then Some 18%nat else heights st r') ->
  forall st r',
    heights (fold_left (fun s x => body x s) l st) r'
    = if existsb sets l && (r' =? 1)%nat then Some 18%nat else heights st r'.
Proof.
  intros H. induction l as [|x l IH]; intros st r'; simpl; [reflexivity|].
  rewrite IH, H.
  destruct (sets x), (existsb sets l), (r' =? 1)%nat; reflexivity.
Qed.

Lemma base_pass9_heights (hs : list string) (R C : nat) (st : Styles) (r' : nat) :
  heights (for_range 1 (R + 1)
             (fun r st => for_range 1 (C + 1)
                (fun c st => Style9.base_fill hs r c st) st) st) r'
  = if existsb (fun r => existsb (fun c =>
                   negb (Style9.mem_nat c (Style9.block_cols hs)) && (r =? 1)%nat)
                   (seq 1 (C + 1 - 1))) (seq 1 (R + 1 - 1))
       && (r' =? 1)%nat
    then Some 18%nat else heights st r'.
Proof.
  unfold for_range.
  apply (heights_fold
           (fun r st => fold_left (fun s c => Style9.base_fill hs r c s)
                                  (seq 1 (C + 1 - 1)) st)
           (fun r => existsb (fun c =>
                   negb (Style9.mem_nat c (Style9.block_cols hs)) && (r =? 1)%nat)
                   (seq 1 (C + 1 - 1)))).
  intros r st0 r0.
  apply (heights_fold (fun c s => Style9.base_fill hs r c s)
           (fun c => negb (Style9.mem_nat c (Style9.block_cols hs)) && (r =? 1)%nat)).
  intros c st1 r1. unfold Style9.base_fill.
  destruct (Style9.mem_nat c _); [reflexivity|]. cbn [negb andb].
  destruct (r =? 1)%nat eqn:E.
  - apply Nat.eqb_eq in E. subst r. reflexivity.
  - destruct (String.eqb _ "1-1 Comment"); [reflexivity|].
    destruct (starts_with "Table1_" _); [reflexivity|].
    destruct (starts_with "Table2_" _); [reflexivity|].
    destruct (py_in "Comment" _); reflexivity.
Qed.

Lemma pairs_pass_preserves {A : Type} (proj : Styles -> A)
    (pair_body : nat -> nat -> nat -> Styles -> Styles) (ws : Worksheet) :
  (forall t1 t2 r st, proj (pair_body t1 t2 r st) = proj st) ->
  forall st, proj (pairs_pass pair_body ws st) = proj st.
Proof.
  intros H st. unfold pairs_pass.
  apply (fold_preserves proj
           (fun entry st =>
              match both_set (snd entry) with
              | Some (t1, t2) => for_range 2 (max_row ws + 1) (pair_body t1 t2) st
              | None => st
              end)).
  intros [k e] st0. cbn [snd]. destruct (both_set e) as [[t1 t2]|]; [|reflexivity].
  apply range_preserves. intros r st1. apply H.
Qed.

Lemma auto_fit_heights (P : Pandas) (ws : Worksheet) (w : nat -> nat) (st : Styles) :
  heights (auto_fit P ws w st) = heights st.
Proof.
  unfold auto_fit. apply (range_preserves heights). intros c st0.
  rewrite (range_preserves heights); reflexivity.
Qed.

Lemma style_pair9_keeps {A : Type} (proj : Styles -> A) (P : Pandas)
    (ws : Worksheet) (t1 t2 r : nat) (st : Styles) :
  (forall r c f st, proj (update_cell r c f st) = proj st) ->
  proj (Style9.style_pair P ws t1 t2 r st) = proj st.
Proof.
  intros H. unfold Style9.style_pair, Style9.set_border. cbv zeta.
  destruct (isna _ && notna _); [apply H|].
  destruct (isna _ && notna _); [apply H|].
  destruct (isna _ && isna _); [now rewrite !H|].
  destruct (String.eqb _ _); now rewrite !H.
Qed.

Lemma style_pair21_keeps {A : Type} (proj : Styles -> A) (P : Pandas)
    (ws : Worksheet) (t1 t2 r : nat) (st : Styles) :
  (forall r c f st, proj (update_cell r c f st) = proj st) ->
  proj (Style21.style_pair P ws t1 t2 r st) = proj st.
Proof.
  intros H. unfold Style21.style_pair, Style21.set_border. cbv zeta.
  destruct (isna _ && isna _); [now rewrite !H|].
  destruct (isna _ && notna _); [now rewrite !H|].
  destruct (isna _ && notna _); [now rewrite !H|].
  destruct (_ && _ && String.eqb _ _); [now rewrite !H|].
  destruct (_ && _ && negb _); [now rewrite !H|].
  destruct (negb _); [now rewrite !H | reflexivity].
Qed.

(** The other cells of the sheet of [coco9.py].  Under a block marker the
    whole column, header included, is dark with a white bold font.  The
    other header cells are white and bold, and the header row is 18 high
    as soon as one column is not a marker.  A data cell of a column that
    belongs to no pair is never red and never gets a border: it is yellow
    under "1-1 Comment", green or blue under a header of one source, white
    elsewhere.  No other row height is set and no cell outside the sheet is
    touched. *)
Theorem style9_other_cells (P : Pandas) (ws : Worksheet) (st : Styles)
    (r c : nat) :
  let out := Style9.style_comparison P ws st in
  let h := header (headers ws) c in
  let marker := mem_str h ["BLOC A"; "BLOC B"; "BLOC C"] in
  ((2 <= r <= max_row ws)%nat -> (1 <= c <= max_column ws)%nat ->
   partner (headers ws) c = None ->
   cells out r c
   = {| fill := Some (if marker then dark_fill
                      else if String.eqb h "1-1 Comment" then yellow_fill
                      else base_colour h);
        font := if marker then Some white_bold_font else font (cells st r c);
        border := border (cells st r c);
        alignment := Some top_wrap |})
  /\ ((1 <= c <= max_column ws)%nat ->
      cells out 1 c
      = {| fill := Some (if marker then dark_fill else white_fill);
           font := Some (if marker then white_bold_font else bold_font);
           border := border (cells st 1 c);
           alignment := Some top_wrap |}
      /\ (marker = false -> heights out 1 = Some 18%nat))
  /\ ((r = 0 \/ max_row ws < r \/ c = 0 \/ max_column ws < c)%nat ->
      cells out r c = cells st r c)
  /\ ((2 <= r)%nat -> heights out r = heights st r)
  /\ (starts_with "Table1_" h = false -> starts_with "Table2_" h = false ->
      partner (headers ws) c = None).
Proof.
  intros out h marker. subst out.
  assert (Hh : forall r', heights (Style9.style_comparison P ws st) r'
    = if existsb (fun r => existsb (fun c =>
                   negb (Style9.mem_nat c (Style9.block_cols (headers ws)))
                   && (r =? 1)%nat)
                   (seq 1 (max_column ws + 1 - 1))) (seq 1 (max_row ws + 1 - 1))
         && (r' =? 1)%nat
      then Some 18%nat else heights st r').
  { intros r'. unfold Style9.style_comparison. cbv zeta.
    rewrite auto_fit_heights.
    change (Style9.style_pairs P ws) with (pairs_pass (Style9.style_pair P ws) ws).
    rewrite (pairs_pass_preserves heights).
    - apply base_pass9_heights.
    - intros. now apply style_pair9_keeps. }
  split; [|split; [|split; [|split]]].
  - intros Hr Hc Hp.
    destruct (in_range_data_row ws r Hr) as (R2 & R1 & Rn).
    rewrite style9_cell; [|assumption|apply in_range_bounds; lia].
    rewrite Hp. unfold base_style9. rewrite Rn. fold h. fold marker.
    destruct marker; [reflexivity|].
    destruct (String.eqb h "1-1 Comment"); reflexivity.
  - intros Hc.
    assert (H3 : in_range 1 (max_column ws + 1) c = true)
      by (apply in_range_bounds; lia).
    split.
    + rewrite style9_cell_any. cbv zeta.
      assert (H1 : in_range 1 (max_row ws + 1) 1 = true)
        by (apply in_range_bounds; unfold max_row; lia).
      assert (H2 : in_range 2 (max_row ws + 1) 1 = false) by reflexivity.
      rewrite H1, H2, H3. cbn [andb]. unfold base_style9. fold h. fold marker.
      destruct marker; reflexivity.
    + intros Hm. rewrite Hh. rewrite Nat.eqb_refl, andb_true_r.
      assert (Hex : existsb (fun r => existsb (fun c =>
                   negb (Style9.mem_nat c (Style9.block_cols (headers ws)))
                   && (r =? 1)%nat)
                   (seq 1 (max_column ws + 1 - 1))) (seq 1 (max_row ws + 1 - 1))
                    = true).
      { apply existsb_exists. exists 1%nat. split.
        - apply in_seq. unfold max_row. lia.
        - apply existsb_exists. exists c. split; [apply in_seq; lia|].
          rewrite block_cols_spec. unfold max_column in H3. rewrite H3.
          cbn [andb]. fold h. fold marker. now rewrite Hm. }
      now rewrite Hex.
  - intros Hout. rewrite style9_cell_any. cbv zeta.
    assert (Hin : in_range 1 (max_row ws + 1) r
                  && in_range 1 (max_column ws + 1) c = false).
    { apply not_true_iff_false. intros H. apply andb_true_iff in H as (H1 & H2).
      apply in_range_bounds in H1, H2. lia. }
    rewrite Hin.
    destruct (in_range 2 (max_row ws + 1) r) eqn:Er; [|reflexivity].
    destruct (partner (headers ws) c) as [[t1 t2]|] eqn:Ep; [|reflexivity].
    apply partner_in_sheet in Ep. apply in_range_bounds in Er.
    unfold max_column in Hout. lia.
  - intros Hr. rewrite Hh.
    replace (r =? 1)%nat with false by (symmetry; apply Nat.eqb_neq; lia).
    now rewrite andb_false_r.
  - intros S1 S2. unfold partner. fold h. now rewrite S1, S2.
Qed.

(** The columns of BLOC B are named "Daytona(Table1)" and the like: they
    belong to no pair, and a missing value there is not marked. *)
Lemma style9_other_cells_witness :
  let ws := {| headers := ["BLOC B"; "Daytona(Table1)"; "Daytona(Table2)";
                           "1-1 Comment"];
               body := [[VNone; VStr "open"; VNone;
                         VStr "Row 1: T1 Noel=Z, T2 missing"]] |} in
  let st := {| cells := fun _ _ => {| fill := None; font := None;
                                      border := None; alignment := None |};
               widths := fun _ => None; heights := fun _ => None |} in
  let out := Style9.style_comparison Samples.P0 ws st in
  cells out 2 3
  = {| fill := Some white_fill; font := None; border := None;
       alignment := Some top_wrap |}
  /\ cells out 2 4
     = {| fill := Some yellow_fill; font := None; border := None;
          alignment := Some top_wrap |}
  /\ cells out 1 1
     = {| fill := Some dark_fill; font := Some white_bold_font; border := None;
          alignment := Some top_wrap |}
  /\ heights out 1 = Some 18%nat.
Proof.
  intros ws st out.
  destruct (style9_other_cells Samples.P0 ws st 2 3) as (H1 & H2 & _ & _ & H5).
  destruct (style9_other_cells Samples.P0 ws st 2 4) as (H1' & _).
  destruct (style9_other_cells Samples.P0 ws st 1 1) as (_ & H2' & _).
  split; [|split; [|split]].
  - apply H1; [vm_compute; lia | vm_compute; lia | apply H5; reflexivity].
  - apply H1'; [vm_compute; lia | vm_compute; lia | reflexivity].
  - apply H2'. vm_compute; lia.
  - apply H2; [vm_compute; lia | reflexivity].
Defined.


(** ** The widths of the columns *)

Lemma base_fill21_widths (hs : list string) (r c : nat) (st : Styles) :
  widths (Style21.base_fill hs r c st) = widths st.
Proof.
  unfold Style21.base_fill. destruct (r =? 1)%nat; [reflexivity|].
  cbv zeta. destruct (mem_str _ _); [reflexivity|].
  destruct (starts_with "Table1_" _); [reflexivity|].
  destruct (starts_with "Table2_" _); [reflexivity|].
  destruct (_ || _); reflexivity.
Qed.

Lemma base_fill9_widths (hs : list string) (r c : nat) (st : Styles) :
  widths (Style9.base_fill hs r c st) = widths st.
Proof.
  unfold Style9.base_fill. destruct (Style9.mem_nat _ _); [reflexivity|].
  destruct (r =? 1)%nat; [reflexivity|].
  cbv zeta. destruct (String.eqb _ _); [reflexivity|].
  destruct (starts_with "Table1_" _); [reflexivity|].
  destruct (starts_with "Table2_" _); [reflexivity|].
  destruct (py_in _ _); reflexivity.
Qed.

(** Both scripts give a column of the sheet the same width: the length of
    its longest text, header included, plus 2, but no less than 10 and no
    more than 50.  So a column is wide enough for each of its texts plus 2
    unless it is capped at 50, and it is 10 wide, 50 wide, or exactly as
    wide as one of its texts plus 2.  The text of a cell is what [str]
    gives of its value, and the empty text for a cell that holds [None].
    No width is set outside the sheet. *)
Theorem column_widths (P : Pandas) (ws : Worksheet) (block3 : bool)
    (st st' : Styles) (c : nat) :
  let w := Nat.min 50 (Nat.max 10 (max_len P ws c + 2)) in
  let text := fun r => cell_text P (cell_value ws r c) in
  ((1 <= c <= max_column ws)%nat ->
   widths (Style21.style_worksheet P ws block3 st) c = Some w
   /\ widths (Style9.style_comparison P ws st') c = Some w
   /\ (10 <= w <= 50)%nat
   /\ (forall r, (1 <= r <= max_row ws)%nat ->
         (String.length (text r) + 2 <= w)%nat \/ w = 50%nat)
   /\ (w = 10%nat \/ w = 50%nat
       \/ exists r, (1 <= r <= max_row ws)%nat
                    /\ w = (String.length (text r) + 2)%nat))
  /\ ((c = 0 \/ max_column ws < c)%nat ->
      widths (Style21.style_worksheet P ws block3 st) c = widths st c
      /\ widths (Style9.style_comparison P ws st') c = widths st' c).
Proof.
  intros w text.
  assert (W21 : widths (Style21.style_worksheet P ws block3 st) c
                = if in_range 1 (max_column ws + 1) c then Some w else widths st c).
  { unfold Style21.style_worksheet. cbv zeta. rewrite auto_fit_widths.
    destruct (in_range 1 (max_column ws + 1) c); [reflexivity|].
    change (Style21.style_pairs P ws) with (pairs_pass (Style21.style_pair P ws) ws).
    rewrite (pairs_pass_preserves widths)
      by (intros; now apply style_pair21_keeps).
    rewrite (range_preserves widths); [reflexivity|]. intros r0 st0.
    apply (range_preserves widths). intros c0 st1. apply base_fill21_widths. }
  assert (W9 : widths (Style9.style_comparison P ws st') c
               = if in_range 1 (max_column ws + 1) c then Some w else widths st' c).
  { unfold Style9.style_comparison. cbv zeta. rewrite auto_fit_widths.
    destruct (in_range 1 (max_column ws + 1) c).
    - unfold Style9.width_of, w. f_equal. lia.
    - change (Style9.style_pairs P ws) with (pairs_pass (Style9.style_pair P ws) ws).
      rewrite (pairs_pass_preserves widths)
        by (intros; now apply style_pair9_keeps).
      rewrite (range_preserves widths); [reflexivity|]. intros r0 st0.
      apply (range_preserves widths). intros c0 st1. apply base_fill9_widths. }
  split.
  - intros Hc.
    assert (Hin : in_range 1 (max_column ws + 1) c = true)
      by (apply in_range_bounds; lia).
    rewrite W21, W9, Hin.
    split; [reflexivity|]. split; [reflexivity|].
    destruct (max_len_spec P ws c) as (Hge & Hat).
    split; [subst w; lia|]. split.
    + intros r Hr. specialize (Hge r Hr). fold (text r) in Hge. subst w. lia.
    + destruct Hat as [H0 | (r & Hr & Hm)].
      * left. subst w. rewrite H0. reflexivity.
      * fold (text r) in Hm.
        destruct (Nat.le_gt_cases (max_len P ws c + 2) 10) as [H10|H10];
          [left; subst w; lia|].
        destruct (Nat.le_gt_cases 50 (max_len P ws c + 2)) as [H50|H50];
          [right; left; subst w; lia|].
        right; right. exists r. split; [exact Hr|]. subst w. lia.
  - intros Hout.
    assert (Hin : in_range 1 (max_column ws + 1) c = false).
    { apply not_true_iff_false. intros H. apply in_range_bounds in H. lia. }
    now rewrite W21, W9, Hin.
Qed.

(** A column whose longest text is its header of 14 characters. *)
Lemma column_widths_witness :
  let ws := {| headers := ["Table1_Daytona"; "Table2_Daytona"];
               body := [[VStr "open"; VStr "closed"]; [VStr "open"; VNaN]] |} in
  let st := {| cells := fun _ _ => {| fill := None; font := None;
                                      border := None; alignment := None |};
               widths := fun _ => None; heights := fun _ => None |} in
  widths (Style21.style_worksheet Samples.P0 ws false st) 1 = Some 16%nat
  /\ widths (Style9.style_comparison Samples.P0 ws st) 1 = Some 16%nat.
Proof.
  intros ws st.
  destruct (column_widths Samples.P0 ws false st st 1) as (H & _).
  destruct H as (H1 & H2 & _); [vm_compute; lia|].
  split; [exact H1 | exact H2].
Defined.

(** ** The sheets of coco21.py *)

(** In the sheet "Comparison" of [coco21.py] the pairs of columns are those
    of the twelve shared fields and of "Status", each column "Table1_x"
    with the column "Table2_x", and no others.  The columns of BLOC 3 come
    from Source B alone and have no counterpart: in the sheets "Comparison"
    and "BLOC 3" their data cells stay blue and keep their border, whatever
    they hold; a missing value is not filled red there. *)
Theorem comparison_sheet_pairs (P : Pandas) (rows3 : list (list value))
    (block3 : bool) (st : Styles) :
  (forall x, In x (Blocks21.shared_cols ++ ["Status"])%list ->
     exists t1 t2,
       column_pair comparison_header x = Some (t1, t2)
       /\ header comparison_header t1 = "Table1_" ++ x
       /\ header comparison_header t2 = "Table2_" ++ x)
  /\ (forall b t1 t2, column_pair comparison_header b = Some (t1, t2) ->
        In b (Blocks21.shared_cols ++ ["Status"])%list)
  /\ (forall hs r c x,
        hs = comparison_header \/ hs = block3_header ->
        let ws := {| headers := hs; body := rows3 |} in
        (2 <= r <= max_row ws)%nat -> (1 <= c <= max_column ws)%nat ->
        In x Blocks21.block3_cols -> header hs c = "Table2_" ++ x ->
        cells (Style21.style_worksheet P ws block3 st) r c
        = {| fill := Some blue_fill;
             font := font (cells st r c);
             border := border (cells st r c);
             alignment := Some top_wrap |}).
Proof.
  split; [|split].
  - intros x Hx. simpl in Hx.
    repeat (destruct Hx as [<-|Hx];
            [eexists; eexists; split; [vm_compute; reflexivity|];
             split; vm_compute; reflexivity|]).
    destruct Hx.
  - intros b t1 t2 Hp. apply column_pair_headers in Hp as (H1 & _ & B1 & _).
    apply is_table1_base in H1 as (S1 & R1).
    assert (Hin : In (header comparison_header t1) comparison_header).
    { unfold header. apply nth_In. lia. }
    revert S1 R1. generalize (header comparison_header t1) as h, Hin.
    intros h Hh. vm_compute in Hh.
    repeat (destruct Hh as [<-|Hh];
            [intros S1 R1; try discriminate S1;
             vm_compute in R1; subst b; simpl; tauto|]).
    destruct Hh.
  - intros hs r c x Hhs ws Hr Hc Hx Hh.
    destruct (in_range_data_row ws r Hr) as (R2 & R1 & Rn).
    rewrite style21_cell; [|assumption|apply in_range_bounds; lia].
    assert (Hp : partner hs c = None).
    { unfold partner. rewrite Hh. simpl in Hx.
      destruct Hhs as [-> | ->];
        repeat (destruct Hx as [<-|Hx]; [vm_compute; reflexivity|]);
        destruct Hx. }
    cbn [headers ws]. rewrite Hp. unfold base_style21. rewrite Rn, Hh.
    assert (Hm : mem_str ("Table2_" ++ x) ["BLOC 1"; "BLOC 2"; "BLOC 3"] = false)
      by (apply (starts_with_not_marker "Table2_"); reflexivity).
    rewrite Hm. reflexivity.
Qed.

(** The sheet "BLOC 3" with a record that has no "Right": the cell is
    blue. *)
Lemma comparison_sheet_pairs_witness :
  let ws := {| headers := block3_header;
               body := [[VNone; VStr "a"; VStr "b"; VStr "c"; VStr "d"; VStr "e";
                         VStr "f"; VStr "g"; VStr "h"; VNone]] |} in
  let st := {| cells := fun _ _ => {| fill := None; font := None;
                                      border := None; alignment := None |};
               widths := fun _ => None; heights := fun _ => None |} in
  cell_value ws 2 10 = VNone
  /\ cells (Style21.style_worksheet Samples.P0 ws false st) 2 10
     = {| fill := Some blue_fill; font := None; border := None;
          alignment := Some top_wrap |}.
Proof.
  intros ws st. split; [reflexivity|].
  destruct (comparison_sheet_pairs Samples.P0 (body ws) false st) as (_ & _ & H).
  apply (H block3_header 2%nat 10%nat "Right").
  - now right.
  - vm_compute; lia.
  - vm_compute; lia.
  - simpl. tauto.
  - reflexivity.
Defined.

End SheetTheorems.

(** ** The combined row of coco9.py *)

Lemma add_key_In (k x : string) (ks : list string) :
  In x (add_key k ks) <-> x = k \/ In x ks.
Proof.
  unfold add_key. destruct (mem_str k ks) eqn:E.
  - apply mem_str_In in E. split; [tauto|]. intros [->|H]; assumption.
  - rewrite in_app_iff. simpl. intuition.
Qed.

Lemma add_key_NoDup (k : string) (ks : list string) :
  NoDup ks -> NoDup (add_key k ks).
Proof.
  intros H. unfold add_key. destruct (mem_str k ks) eqn:E; [exact H|].
  assert (Hn : ~ In k ks) by (rewrite <- mem_str_In; congruence).
  clear E. induction H as [|y l Hy Hl IH]; simpl.
  - constructor; [intros [] | constructor].
  - constructor.
    + rewrite in_app_iff. simpl. intros [H|[H|[]]]; [contradiction|].
      apply Hn. now left.
    + apply IH. intros H. apply Hn. now right.
Qed.

Lemma fill_cells_keys (p : string) (r : option row) (cols : list string)
    (b : dict) (x : string) :
  In x (map fst (Blocks9.fill_cells p r cols b))
  <-> In x (map fst b) \/ exists c, In c cols /\ x = p ++ c.
Proof.
  unfold Blocks9.fill_cells. revert b.
  induction cols as [|c cols IH]; intros b; simpl.
  - split; [tauto | intros [H|(c & [] & _)]; exact H].
  - rewrite IH, keys_dict_set, add_key_In. split.
    + intros [[->|H]|(c' & Hc & ->)]; [right; exists c; tauto | now left|].
      right. exists c'. tauto.
    + intros [H|(c' & [<-|Hc] & ->)]; [tauto | tauto|].
      right. exists c'. tauto.
Qed.

Lemma fill_cells_NoDup (p : string) (r : option row) (cols : list string)
    (b : dict) :
  NoDup (map fst b) -> NoDup (map fst (Blocks9.fill_cells p r cols b)).
Proof.
  unfold Blocks9.fill_cells. revert b.
  induction cols as [|c cols IH]; intros b H; simpl; [exact H|].
  apply IH. rewrite keys_dict_set. now apply add_key_NoDup.
Qed.

Lemma set_comments_keys (k1 k2 k3 mt nmt : string)
    (m : list string * list string) (mm : list string) (b : dict) (x : string) :
  In x (map fst (Blocks9.set_comments k1 k2 k3 mt nmt m mm b))
  <-> In x (map fst b) \/ x = k1 \/ x = k2 \/ x = k3.
Proof.
  unfold Blocks9.set_comments. destruct m as [m1 m2].
  rewrite !keys_dict_set, !add_key_In. tauto.
Qed.

Lemma set_comments_NoDup (k1 k2 k3 mt nmt : string)
    (m : list string * list string) (mm : list string) (b : dict) :
  NoDup (map fst b) ->
  NoDup (map fst (Blocks9.set_comments k1 k2 k3 mt nmt m mm b)).
Proof.
  intros H. unfold Blocks9.set_comments. destruct m as [m1 m2].
  rewrite !keys_dict_set. now repeat apply add_key_NoDup.
Qed.

Lemma merge_keys_disjoint (ks1 ks2 : list string) :
  NoDup ks2 -> (forall x, In x ks2 -> ~ In x ks1) ->
  merge_keys ks1 ks2 = (ks1 ++ ks2)%list.
Proof.
  unfold merge_keys. revert ks1.
  induction ks2 as [|k ks2 IH]; intros ks1 Hnd Hd; simpl.
  - now rewrite app_nil_r.
  - inversion Hnd as [|? ? Hk Hnd']; subst.
    assert (E : add_key k ks1 = (ks1 ++ [k])%list).
    { unfold add_key. destruct (mem_str k ks1) eqn:E; [|reflexivity].
      apply mem_str_In in E. elim (Hd k); [now left | exact E]. }
    rewrite E, IH; [now rewrite <- app_assoc | exact Hnd'|].
    intros x Hx. rewrite in_app_iff. simpl. intros [H|[<-|[]]].
    + apply (Hd x); [now right | exact H].
    + contradiction.
Qed.

Lemma blockA_keys (P : Pandas) (core1 core2 : list string) (r1 r2 : option row)
    (x : string) :
  In x (map fst (Blocks9.build_blockA P core1 core2 r1 r2))
  <-> x = "BLOC A"
      \/ (exists c, In c core1 /\ x = "Table1_" ++ c)
      \/ (exists c, In c core2 /\ x = "Table2_" ++ c)
      \/ In x ["CommentA_1"; "CommentA_2"; "CommentA_3"].
Proof.
  unfold Blocks9.build_blockA. cbv zeta.
  rewrite set_comments_keys, !fill_cells_keys. simpl. intuition.
Qed.

Lemma blockC_keys (P : Pandas) (nc1 nc2 : list string) (r1 r2 : option row)
    (x : string) :
  In x (map fst (Blocks9.build_blockC P nc1 nc2 r1 r2))
  <-> x = "BLOC C"
      \/ (exists c, In c nc1 /\ x = "Table1_" ++ c)
      \/ (exists c, In c nc2 /\ x = "Table2_" ++ c)
      \/ In x ["CommentC_1"; "CommentC_2"; "CommentC_3"].
Proof.
  unfold Blocks9.build_blockC. cbv zeta.
  rewrite set_comments_keys, !fill_cells_keys. simpl. intuition.
Qed.

Lemma blockA_NoDup (P : Pandas) (core1 core2 : list string) (r1 r2 : option row) :
  NoDup (map fst (Blocks9.build_blockA P core1 core2 r1 r2)).
Proof.
  unfold Blocks9.build_blockA. cbv zeta.
  apply set_comments_NoDup. repeat apply fill_cells_NoDup.
  simpl. constructor; [intros [] | constructor].
Qed.

Lemma blockC_NoDup (P : Pandas) (nc1 nc2 : list string) (r1 r2 : option row) :
  NoDup (map fst (Blocks9.build_blockC P nc1 nc2 r1 r2)).
Proof.
  unfold Blocks9.build_blockC. cbv zeta.
  apply set_comments_NoDup. repeat apply fill_cells_NoDup.
  simpl. constructor; [intros [] | constructor].
Qed.

Lemma noncore_not_core (cols : list string) (c : string) :
  In c (Main9.noncore_of cols) -> ~ In c (Main9.core_of cols).
Proof.
  unfold Main9.noncore_of. rewrite filter_In. intros (_ & H) Hin.
  apply mem_str_In in Hin. rewrite Hin in H. discriminate.
Qed.

(** The combined row [{**blockA, **blockB, **blockC}] of [coco9.py] is the
    three blocks laid side by side: its columns are those of BLOC A, then
    those of BLOC B, then those of BLOC C, each once, and every cell of
    every block is in it unchanged.  No two blocks share a column, since a
    column of a source is shown in BLOC A or in BLOC C but not in both and
    the names of BLOC B carry their table in brackets. *)
Theorem combined_row9_layout (P : Pandas) (cols1 cols2 : list string)
    (i : nat) (r1 r2 : option row) (o : Main9.OutputRow) :
  Main9.output_row P cols1 cols2 i (r1, r2) = Ok o ->
  map fst (Main9.row_data o)
  = (map fst (Main9.blockA o) ++ map fst (Main9.blockB o)
     ++ map fst (Main9.blockC o))%list
  /\ NoDup (map fst (Main9.row_data o))
  /\ map fst (Main9.blockB o)
     = [ "BLOC B"; "Noel(Table1)"; "Land(Table1)"; "Noel(Table2)"; "1-1 Comment";
         "Daytona(Table1)"; "Daytona(Table2)"; "Elastic (Table1)";
         "Elastic (Table2)"; "ActiveComment" ]
  /\ (forall k v,
        dict_lookup k (Main9.row_data o) = Some v
        <-> dict_lookup k (Main9.blockA o) = Some v
            \/ dict_lookup k (Main9.blockB o) = Some v
            \/ dict_lookup k (Main9.blockC o) = Some v).
Proof.
  unfold Main9.output_row. intros H.
  apply bind_ok in H as (b & Eb & H). injection H as <-. cbn [Main9.row_data
    Main9.blockA Main9.blockB Main9.blockC].
  set (a := Blocks9.build_blockA P (Main9.core_of cols1) (Main9.core_of cols2) r1 r2).
  set (c := Blocks9.build_blockC P (Main9.noncore_of cols1) (Main9.noncore_of cols2)
              r1 r2).
  assert (Kb : map fst b
               = [ "BLOC B"; "Noel(Table1)"; "Land(Table1)"; "Noel(Table2)";
                   "1-1 Comment"; "Daytona(Table1)"; "Daytona(Table2)";
                   "Elastic (Table1)"; "Elastic (Table2)"; "ActiveComment" ]).
  { destruct (build_blockB_ok P r1 r2 i b Eb)
      as (n1 & l1 & s1 & n2 & s2 & I1 & I2 & I3 & I4 & I5).
    rewrite (build_blockB_result P r1 r2 i n1 l1 s1 n2 s2 I1 I2 I3 I4 I5) in Eb.
    injection Eb as <-. reflexivity. }
  assert (Nb : NoDup (map fst b)).
  { rewrite Kb. apply nodupb_NoDup. reflexivity. }
  assert (Na : NoDup (map fst a)) by apply blockA_NoDup.
  assert (Nc : NoDup (map fst c)) by apply blockC_NoDup.
  assert (Dab : forall x, In x (map fst b) -> ~ In x (map fst a)).
  { intros x Hx. rewrite Kb in Hx. unfold a. rewrite blockA_keys.
    simpl in Hx.
    repeat (destruct Hx as [<-|Hx];
            [intros [H|[(c0 & _ & H)|[(c0 & _ & H)|H]]];
             [discriminate H | discriminate H | discriminate H
             | simpl in H; repeat (destruct H as [H|H]; [discriminate H|]);
               destruct H]|]).
    destruct Hx. }
  assert (Dabc : forall x, In x (map fst c) -> ~ In x (map fst a ++ map fst b)%list).
  { intros x Hx. unfold c in Hx. apply blockC_keys in Hx.
    rewrite in_app_iff, Kb. unfold a. rewrite blockA_keys.
    destruct Hx as [->|[(c0 & Hc0 & ->)|[(c0 & Hc0 & ->)|Hx]]].
    - intros [[H|[(c1 & _ & H)|[(c1 & _ & H)|H]]]|H];
        try discriminate H;
        simpl in H; repeat (destruct H as [H|H]; [discriminate H|]); destruct H.
    - intros [[H|[(c1 & Hc1 & H)|[(c1 & _ & H)|H]]]|H].
      + discriminate H.
      + simpl in H. injection H as ->.
        now apply (noncore_not_core cols1 c1).
      + discriminate H.
      + simpl in H. repeat (destruct H as [H|H]; [discriminate H|]). destruct H.
      + simpl in H. repeat (destruct H as [H|H]; [discriminate H|]). destruct H.
    - intros [[H|[(c1 & _ & H)|[(c1 & Hc1 & H)|H]]]|H].
      + discriminate H.
      + discriminate H.
      + simpl in H. injection H as ->.
        now apply (noncore_not_core cols2 c1).
      + simpl in H. repeat (destruct H as [H|H]; [discriminate H|]). destruct H.
      + simpl in H. repeat (destruct H as [H|H]; [discriminate H|]). destruct H.
    - simpl in Hx.
      repeat (destruct Hx as [<-|Hx];
              [intros [[H|[(c1 & _ & H)|[(c1 & _ & H)|H]]]|H];
               try discriminate H;
               simpl in H; repeat (destruct H as [H|H]; [discriminate H|]);
               destruct H|]).
      destruct Hx. }
  assert (Kab : map fst (dict_merge a b) = (map fst a ++ map fst b)%list).
  { rewrite keys_dict_merge. now apply merge_keys_disjoint. }
  assert (Kall : map fst (dict_merge (dict_merge a b) c)
                 = (map fst a ++ map fst b ++ map fst c)%list).
  { rewrite keys_dict_merge, Kab, app_assoc. apply merge_keys_disjoint; assumption. }
  split; [exact Kall|]. split; [|split; [exact Kb|]].
  - rewrite Kall, app_assoc. apply NoDup_app; [|exact Nc|].
    + apply NoDup_app; [exact Na | exact Nb|].
      intros x Ha Hb. exact (Dab x Hb Ha).
    + intros x Hab Hc. exact (Dabc x Hc Hab).
  - intros k v. rewrite !dict_lookup_merge by assumption.
    assert (Hkey : forall d w, dict_lookup k d = Some w -> In k (map fst d)).
    { intros d w Hl. destruct (in_dec string_dec k (map fst d)) as [Hi|Hi];
        [exact Hi|]. rewrite (dict_lookup_not_key k d Hi) in Hl. discriminate. }
    destruct (dict_lookup k c) as [vc|] eqn:Ec.
    + split; [intros ->; tauto|].
      intros [Ha|[Hb|Hc]]; [| |exact Hc]; exfalso.
      * apply (Dabc k (Hkey c vc Ec)). apply in_app_iff. left. eapply Hkey; eauto.
      * apply (Dabc k (Hkey c vc Ec)). apply in_app_iff. right. eapply Hkey; eauto.
    + destruct (dict_lookup k b) as [vb|] eqn:Ebk.
      * split; [intros ->; tauto|].
        intros [Ha|[Hb|Hc]]; [|exact Hb|discriminate]. exfalso.
        apply (Dab k (Hkey b vb Ebk)). eapply Hkey; eauto.
      * split; [tauto|]. intros [Ha|[Hb|Hc]]; [exact Ha|discriminate|discriminate].
Qed.

(** A record of Source A alone, with one column outside the core. *)
Lemma combined_row9_layout_witness :
  let r := [("Noel", VStr "Z"); ("Land", VStr "07"); ("Extra", VInt 3);
            ("Status", VStr "Active")] in
  exists o,
    Main9.output_row Samples.P0 ["Noel"; "Land"; "Extra"] ["Noel"] 0 (Some r, None)
    = Ok o
    /\ map fst (Main9.row_data o)
       = [ "BLOC A"; "Table1_Noel"; "Table1_Land"; "Table2_Noel";
           "CommentA_1"; "CommentA_2"; "CommentA_3";
           "BLOC B"; "Noel(Table1)"; "Land(Table1)"; "Noel(Table2)"; "1-1 Comment";
           "Daytona(Table1)"; "Daytona(Table2)"; "Elastic (Table1)";
           "Elastic (Table2)"; "ActiveComment";
           "BLOC C"; "Table1_Extra"; "CommentC_1"; "CommentC_2"; "CommentC_3" ].
Proof.
  intros r.
  destruct (Main9.output_row Samples.P0 ["Noel"; "Land"; "Extra"] ["Noel"] 0
              (Some r, None)) as [o|e] eqn:E; [|vm_compute in E; discriminate].
  exists o. split; [reflexivity|].
  destruct (combined_row9_layout _ _ _ _ _ _ _ E) as (K & _).
  rewrite K. vm_compute in E. injection E as <-. reflexivity.
Defined.

(** ** Every column of a source is shown *)







